(** * Simulated survey cohorts: the statistical-estimates tutorial notebook

    A shallow embedding of [tutorials/statisticalEstimates/_0.ipynb].  The
    notebook builds five data frames (one per cohort of employers) from draws
    of numpy's random module, stacks them with [pd.concat] and stops there:
    the regression and visualisation sections are empty.

    - [Numeric]: the five hard-coded correlation matrices, as the binary64
      values their literals denote, and their exact rational values.
    - [Pandas]: data frames, [pd.DataFrame], [.loc[:, col] = ...], [pd.concat].
    - [Notebook]: the kernel (namespace, numpy's global generator, warnings),
      the cells as programs over it, and what a run leaves behind.
    - [Regression]: the simple slope of the interaction model. *)

From Stdlib Require Import ZArith QArith Qabs Floats Uint63 Reals Qreals Lra Lia.
From stdpp Require Import gmap strings list.

Set Warnings "-inexact-float,-clear-no-such-hyp".
Open Scope Z_scope.

(** ** Numbers *)

Module Numeric.

Definition matrix := list (list float).

(** The matrix [r] of the "Micro firms" cell. *)
Definition r_1_5 : matrix :=
  [ [  1.00; -0.40; -0.03;  0.11 ];
    [ -0.40;  1.00; -0.05; -0.09 ];
    [ -0.03; -0.05;  1.00;  0.05 ];
    [  0.11; -0.09;  0.05;  1.00 ] ]%float.

(** The matrix [r] of the "Small firms" cell. *)
Definition r_6_25 : matrix :=
  [ [  1.00; -0.30; -0.03;  0.11 ];
    [ -0.30;  1.00; -0.05; -0.09 ];
    [ -0.03; -0.05;  1.00;  0.05 ];
    [  0.11; -0.09;  0.05;  1.00 ] ]%float.

(** The matrix [r] of the "Medium firms" cell. *)
Definition r_26_100 : matrix :=
  [ [  1.00; -0.25; -0.03;  0.11 ];
    [ -0.25;  1.00; -0.05; -0.09 ];
    [ -0.03; -0.05;  1.00;  0.05 ];
    [  0.11; -0.09;  0.05;  1.00 ] ]%float.

(** The matrix [r] of the "Large firms" cell. *)
Definition r_101_500 : matrix :=
  [ [  1.00; -0.20; -0.03;  0.11 ];
    [ -0.20;  1.00; -0.05; -0.09 ];
    [ -0.03; -0.05;  1.00;  0.05 ];
    [  0.11; -0.09;  0.05;  1.00 ] ]%float.

(** The matrix [r] of the "Very large firms" cell. *)
Definition r_501_ : matrix :=
  [ [  1.00; -0.15; -0.03;  0.11 ];
    [ -0.15;  1.00; -0.05; -0.09 ];
    [ -0.03; -0.05;  1.00;  0.05 ];
    [  0.11; -0.09;  0.05;  1.00 ] ]%float.

Definition cohort_matrices : list matrix :=
  [ r_1_5; r_6_25; r_26_100; r_101_500; r_501_ ].

(** The exact value of a binary64 number: [(-1)^s * m * 2^e] for a finite one.
    Zeros, infinities and nan (none of which occurs in the matrices) read 0. *)
Definition SF2Q (x : spec_float) : Q :=
  match x with
  | S754_finite s m e =>
      let v := (inject_Z (Z.pos m) * Qpower 2 e)%Q in
      if s then Qopp v else v
  | _ => 0%Q
  end.

Definition float_to_Q (x : float) : Q := SF2Q (Prim2SF x).

Definition is_finite (x : float) : bool :=
  match Prim2SF x with
  | S754_finite _ _ _ | S754_zero _ => true
  | _ => false
  end.

(** No entry of the matrix is nan or an infinity. *)
Definition all_finite (m : matrix) : bool := forallb (forallb is_finite) m.

(** A 2-d array of floats as a numpy function returns it: its rows, and the
    second component of its shape, which no row tells when there is none. *)
Record ndarray := {
  nd_rows : list (list float);
  nd_width : nat
}.

(** Entry [(i, j)]; numpy raises IndexError out of range, here [None]. *)
Definition entry {A} (m : list (list A)) (i j : nat) : option A :=
  m !! i ≫= fun row => row !! j.

Definition diagonal {A} (m : list (list A)) : list (option A) :=
  imap (fun i row => row !! i) m.

Definition column_of {A} (m : list (list A)) (j : nat) : list (option A) :=
  map (fun row => row !! j) m.

(** [m.T], for a square matrix. *)
Definition transpose {A} (m : list (list A)) : list (list (option A)) :=
  imap (fun j _ => column_of m j) m.

Definition square {A} (n : nat) (m : list (list A)) : Prop :=
  length m = n ∧ Forall (fun row => length row = n) m.

Definition symmetric {A} (m : list (list A)) : Prop :=
  transpose m = map (map Some) m.

(** *** Real-valued matrices *)

Definition dot (u v : list R) : R :=
  foldr Rplus 0%R (zip_with Rmult u v).

Definition mat_vec (a : list (list R)) (v : list R) : list R :=
  map (fun row => dot row v) a.

Definition scale (c : R) (v : list R) : list R := map (Rmult c) v.

(** [v^T a v]. *)
Definition quad_form (a : list (list R)) (v : list R) : R := dot v (mat_vec a v).

Definition to_real (m : matrix) : list (list R) :=
  map (map (fun x => Q2R (float_to_Q x))) m.

(** [lam] is a (real) eigenvalue of [a]: some non-zero vector is scaled by it.
    A symmetric real matrix has no other eigenvalues. *)
Definition eigenvalue (a : list (list R)) (lam : R) : Prop :=
  ∃ v, length v = length a ∧ Exists (fun x => x ≠ 0%R) v ∧
       mat_vec a v = scale lam v.

Definition positive_semi_definite (a : list (list R)) : Prop :=
  ∀ v, length v = length a → (0 <= quad_form a v)%R.

(** The CorrelationSpec invariant. *)
Definition correlation_spec (m : matrix) : Prop :=
  Forall (fun d => d = Some 1.0%float) (diagonal m) ∧
  symmetric m ∧
  ∀ lam, eigenvalue (to_real m) lam → (0 <= lam)%R.

(** Row [i] is dominated by its diagonal entry: the absolute values of the
    other entries sum to no more than it. *)
Definition row_dominated (i : nat) (row : list Q) : bool :=
  match row !! i with
  | Some d =>
      Qle_bool (foldr Qplus 0%Q (imap (fun j x => if decide (j = i) then 0%Q else Qabs x) row)) d
  | None => false
  end.

Definition diagonally_dominant (m : list (list Q)) : bool :=
  forallb (fun b => b) (imap row_dominated m).

End Numeric.


(** ** Python values and exceptions *)

Module Python.

Inductive exn :=
| NameError (name : string)
| AttributeError (attr : string)
| TypeError (what : string)
| ValueError (msg : string)
| LinAlgError (msg : string).

Inductive result (A : Type) :=
| Ok (a : A)
| Raise (e : exn).
Arguments Ok {A} a.
Arguments Raise {A} e.

End Python.

(** ** Data frames *)

Module Pandas.
Import Python Numeric.
Local Open Scope string_scope.
Local Open Scope list_scope.

(** A cell of a frame.  A float column holds [Num], an integer column [Int],
    an object column [Str]; the missing value is the float nan, whatever the
    column.  Cells keep their numeric value: the dtype a column is stored with
    (int64 becomes float64 once a nan joins it) is not modelled. *)
Inductive cell :=
| Num (x : float)
| Int (n : Z)
| Str (s : string).

Definition NaN : cell := Num nan.

Definition is_null (c : cell) : bool :=
  match c with
  | Num x => PrimFloat.is_nan x
  | _ => false
  end.

(** A frame: its row labels and its columns, in order. *)
Record DataFrame := {
  index : list Z;
  columns : list (string * list cell)
}.

Definition nrows (f : DataFrame) : nat := length (index f).

Definition fields (f : DataFrame) : list string := map fst (columns f).

Fixpoint lookup_column (c : string) (cols : list (string * list cell)) :
  option (list cell) :=
  match cols with
  | [] => None
  | (c', vs) :: cols => if decide (c' = c) then Some vs else lookup_column c cols
  end.

(** [f[c]]; KeyError in pandas when the frame has no such column, [None] here. *)
Definition column (c : string) (f : DataFrame) : option (list cell) :=
  lookup_column c (columns f).

(** The value of field [c] in the observation at position [i]. *)
Definition cell_at (c : string) (i : nat) (f : DataFrame) : option cell :=
  column c f ≫= fun vs => vs !! i.

(** The frames pandas builds: column names are distinct and every column has
    one cell per row. *)
Definition wf_frame (f : DataFrame) : Prop :=
  NoDup (fields f) ∧ Forall (fun col => length col.2 = nrows f) (columns f).

(** [pd.DataFrame(data, columns=names)] for a 2-d array [data]: a RangeIndex
    and one float column per name.  The second component of the shape of
    [data] must be the number of names, also when [data] has no row. *)
Definition pd_DataFrame (data : ndarray) (names : list string) : result DataFrame :=
  if Nat.eqb (nd_width data) (length names) then
    Ok {| index := seqZ 0 (Z.of_nat (length (nd_rows data)));
          columns := imap (fun j name =>
                             (name, map (fun row => Num (default nan (row !! j)))
                                        (nd_rows data)))
                          names |}
  else Raise (ValueError "Shape of passed values does not match the columns").

Fixpoint replace_column (c : string) (vs : list cell)
  (cols : list (string * list cell)) : list (string * list cell) :=
  match cols with
  | [] => [(c, vs)]
  | (c', vs') :: cols =>
      if decide (c' = c) then (c, vs) :: cols
      else (c', vs') :: replace_column c vs cols
  end.

(** The column [c] becomes [vs]: in place when the frame has it, appended as
    the last column otherwise. *)
Definition set_column (c : string) (vs : list cell) (f : DataFrame) : DataFrame :=
  {| index := index f; columns := replace_column c vs (columns f) |}.

(** The right-hand side of [f.loc[:, c] = ...]: a scalar or an array. *)
Inductive rhs :=
| Scalar (c : cell)
| Array (vs : list cell).

(** The frame [f], which has no row, once it has the row labels 0 ... n-1:
    every column it has is nan there. *)
Definition reindexed (n : nat) (f : DataFrame) : DataFrame :=
  {| index := seqZ 0 (Z.of_nat n);
     columns := map (fun col => (col.1, replicate n NaN)) (columns f) |}.

(** [f.loc[:, c] = v].  On a frame that has rows a scalar is broadcast over
    them and an array must have one value per row.  A frame that has no row
    takes no scalar for a new column; an array of [n > 0] values makes it a
    frame of [n] rows, labelled 0 ... n-1, whose other columns are nan (an
    array of one value for a column the frame has is taken as that value,
    and sets nothing). *)
Definition loc_setitem (f : DataFrame) (c : string) (v : rhs) : result DataFrame :=
  match v with
  | Scalar x =>
      if Nat.eqb (nrows f) 0 && negb (bool_decide (c ∈ fields f)) then
        Raise (ValueError "cannot set a frame with no defined index and a scalar")
      else Ok (set_column c (replicate (nrows f) x) f)
  | Array vs =>
      if Nat.eqb (length vs) (nrows f) then Ok (set_column c vs f)
      else if negb (Nat.eqb (nrows f) 0) then
        Raise (ValueError "Length of values does not match length of index")
      else if bool_decide (c ∈ fields f) && Nat.eqb (length vs) 1 then
        Ok (set_column c [] f)
      else Ok (set_column c vs (reindexed (length vs) f))
  end.

Definition add_field (acc : list string) (c : string) : list string :=
  if decide (c ∈ acc) then acc else acc ++ [c].

(** The columns of an outer join: every field of every frame, in order of
    first appearance. *)
Definition union_fields (objs : list DataFrame) : list string :=
  foldl (fun acc f => foldl add_field acc (fields f)) [] objs.

(** The cells a frame contributes to column [c] of a join: its own, or one
    nan per row when it has no such column. *)
Definition column_or_nan (c : string) (f : DataFrame) : list cell :=
  default (replicate (nrows f) NaN) (column c f).

(** The frames of [objs] one under the other: row labels are kept as they
    are, and a frame without a column of the result gets nan there. *)
Definition stacked (objs : list DataFrame) : DataFrame :=
  {| index := flat_map index objs;
     columns := map (fun c => (c, flat_map (column_or_nan c) objs))
                    (union_fields objs) |}.

(** [pd.concat(objs, axis=0)], with the defaults [join='outer'] and
    [ignore_index=False].  An empty [objs] raises ValueError. *)
Definition pd_concat (objs : list DataFrame) : result DataFrame :=
  match objs with
  | [] => Raise (ValueError "No objects to concatenate")
  | _ :: _ => Ok (stacked objs)
  end.

(** How many observations have a value in field [c]
    (the "Non-Null Count" of [df.info()]). *)
Definition non_null_count (c : string) (f : DataFrame) : nat :=
  length (filter (fun x => is_null x = false) (default [] (column c f))).

(** Two one-row samples, the second without a firm size. *)
Definition sized_sample : DataFrame :=
  {| index := [0];
     columns := [("job_sat", [Num 0.5%float]); ("cohort", [Str "medium"]);
                 ("firm_size", [Int 30])] |}.

Definition unsized_sample : DataFrame :=
  {| index := [0];
     columns := [("job_sat", [Num 0.25%float]); ("cohort", [Str "large"])] |}.

(** [pd.DataFrame()]: no row, no column. *)
Definition empty_frame : DataFrame := {| index := []; columns := [] |}.

End Pandas.

(** ** The notebook *)

Module Notebook.
Import Python Pandas Numeric.
Local Open Scope string_scope.
Local Open Scope Z_scope.

(** What a name of the kernel's namespace can be bound to. *)
Inductive pyval :=
| PInt (n : Z)
| PIntArray (v : list Z)
| PStrList (l : list string)
| PMatrix (m : matrix)
| PFrame (f : DataFrame).

Inductive warning :=
| RuntimeWarning (msg : string).

(** numpy's random module, as far as the notebook uses it.  The state of the
    module-level generator is [generator]; a draw reads it and returns the
    state it leaves.  [mvn_draw mean cov n] stands for the [n] vectors of
    [np.random.multivariate_normal(mean, cov, size=n)], [randint_draw low high
    n] for the [n] integers of [np.random.randint(low, high, size=n)], and
    [mvn_psd_check cov] for numpy's test that [cov] is reproduced, within its
    tolerance, by its singular value decomposition.  The laws are the shapes
    and the range numpy documents. *)
Class NumpyRandom := {
  generator : Type;
  mvn_draw : list Z → matrix → nat → generator → list (list float) * generator;
  mvn_psd_check : matrix → bool;
  randint_draw : Z → Z → nat → generator → list Z * generator;
  mvn_draw_length : ∀ mean cov n g, length (mvn_draw mean cov n g).1 = n;
  mvn_draw_width : ∀ mean cov n g,
    Forall (fun row => length row = length mean) (mvn_draw mean cov n g).1;
  randint_draw_length : ∀ low high n g, length (randint_draw low high n g).1 = n;
  randint_draw_range : ∀ low high n g,
    low < high → Forall (fun z => low ≤ z < high) (randint_draw low high n g).1
}.

Section kernel.
Context {N : NumpyRandom}.

(** The state of the kernel between two cells: the names bound so far, the
    state of numpy's global generator, the warnings issued.  The names of
    the imported modules are not among them.  A frame is held by value: a
    kernel in which two names are bound to one frame object is not
    represented. *)
Record kernel := {
  ns : gmap string pyval;
  rng : generator;
  warned : list warning
}.

(** A fresh kernel, once the imports have run; nothing seeds the generator,
    so its state [g] is whatever numpy took from the operating system. *)
Definition fresh (g : generator) : kernel :=
  {| ns := ∅; rng := g; warned := [] |}.

(** A piece of a cell.  What ran before an exception stays done. *)
Definition prog (A : Type) : Type := kernel → result A * kernel.

Definition ret {A} (a : A) : prog A := fun k => (Ok a, k).

Definition bind {A B} (m : prog A) (f : A → prog B) : prog B :=
  fun k =>
    match m k with
    | (Ok a, k') => f a k'
    | (Raise e, k') => (Raise e, k')
    end.

Definition raise {A} (e : exn) : prog A := fun k => (Raise e, k).

Definition lift {A} (r : result A) : prog A := fun k => (r, k).

End kernel.

#[global] Instance prog_ret {N : NumpyRandom} : MRet prog := @ret N.
#[global] Instance prog_bind {N : NumpyRandom} : MBind prog :=
  fun A B f m => bind m f.

Section cells.
Context {N : NumpyRandom}.

(** Reading a name. *)
Definition load (x : string) : prog pyval :=
  fun k =>
    match ns k !! x with
    | Some v => (Ok v, k)
    | None => (Raise (NameError x), k)
    end.

(** [x = v]. *)
Definition store (x : string) (v : pyval) : prog unit :=
  fun k => (Ok tt, {| ns := <[x := v]> (ns k); rng := rng k; warned := warned k |}).

Definition as_int (v : pyval) : prog Z :=
  match v with PInt n => ret n | _ => raise (TypeError "an integer is required") end.

Definition as_int_array (v : pyval) : prog (list Z) :=
  match v with PIntArray a => ret a | _ => raise (TypeError "a 1-d array is required") end.

Definition as_str_list (v : pyval) : prog (list string) :=
  match v with PStrList l => ret l | _ => raise (TypeError "a list of names is required") end.

Definition as_matrix (v : pyval) : prog matrix :=
  match v with PMatrix m => ret m | _ => raise (TypeError "a 2-d array is required") end.

(** [v.loc]: only a frame has it. *)
Definition getattr_loc (v : pyval) : prog DataFrame :=
  match v with PFrame f => ret f | _ => raise (AttributeError "loc") end.

(** [np.repeat(x, n)] *)
Definition np_repeat (x : Z) (n : nat) : list Z := replicate n x.

(** [np.random.multivariate_normal(mean, cov, size=size)], with the default
    [check_valid='warn']: the shapes are checked, the standard normal values
    are drawn from the global generator, and the singular value
    decomposition of [cov] turns them into the vectors.  The decomposition
    raises LinAlgError when [cov] has a nan or an infinity; a covariance that
    fails numpy's test only adds a RuntimeWarning. *)
Definition np_random_multivariate_normal (mean : list Z) (cov : matrix) (size : Z) :
  prog ndarray :=
  fun k =>
    if negb (Nat.eqb (length cov) (length mean) &&
             forallb (fun row => Nat.eqb (length row) (length mean)) cov)
    then (Raise (ValueError "cov must be 2 dimensional and square, mean and cov must have same length"), k)
    else if size <? 0
    then (Raise (ValueError "negative dimensions are not allowed"), k)
    else
      let '(xs, g) := mvn_draw mean cov (Z.to_nat size) (rng k) in
      if negb (all_finite cov)
      then (Raise (LinAlgError "SVD did not converge"),
            {| ns := ns k; rng := g; warned := warned k |})
      else
        (Ok {| nd_rows := xs; nd_width := length mean |},
         {| ns := ns k; rng := g;
            warned := warned k ++
              (if mvn_psd_check cov then []
               else [RuntimeWarning "covariance is not symmetric positive-semidefinite."]) |}).

(** [np.random.randint(low, high, size=size)]: int64 values of the half-open
    range, drawn from the global generator. *)
Definition np_random_randint (low high size : Z) : prog (list Z) :=
  fun k =>
    if low <? - 2 ^ 63 then (Raise (ValueError "low is out of bounds for int64"), k)
    else if 2 ^ 63 <? high then (Raise (ValueError "high is out of bounds for int64"), k)
    else if high <=? low then (Raise (ValueError "low >= high"), k)
    else if size <? 0 then (Raise (ValueError "negative dimensions are not allowed"), k)
    else
      let '(zs, g) := randint_draw low high (Z.to_nat size) (rng k) in
      (Ok zs, {| ns := ns k; rng := g; warned := warned k |}).

(** [x.loc[:, c] = v], the value [v] already computed: the frame bound to [x]
    is updated in place, which here is to bind [x] to the updated frame. *)
Definition loc_assign (x c : string) (v : rhs) : prog unit :=
  f ← (load x ≫= getattr_loc);
  f' ← lift (loc_setitem f c v) ;
  store x (PFrame f').

(** The cell under "Data simulation":
<<
num_samples = 1000
mu = np.repeat(0, 4)
names = ['job_sat', 'int_qui', 'age', 'org_tnr']
>> *)
Definition cell_setup : prog unit :=
  store "num_samples" (PInt 1000) ;;
  store "mu" (PIntArray (np_repeat 0 4)) ;;
  store "names" (PStrList ["job_sat"; "int_qui"; "age"; "org_tnr"]).

(** The five cells that simulate a cohort are one text with six constants:
<<
r = np.array(<matrix>)
<frame> = pd.DataFrame(np.random.multivariate_normal(mu, r, size=num_samples),
                       columns=names)
<frame>.loc[:, 'cohort'] = <label>
<target>.loc[:, 'firm_size'] = np.random.randint(low=<low>, high=<high>,
                                                 size=num_samples)
>>
    Python evaluates the right-hand side of an assignment before its target,
    and the arguments of a call, from left to right, before the call. *)
Record cohort_source := {
  src_matrix : matrix;
  src_frame : string;
  src_label : string;
  src_target : string;
  src_low : Z;
  src_high : Z
}.

Definition cohort_cell (c : cohort_source) : prog unit :=
  store "r" (PMatrix (src_matrix c)) ;;
  mu ← load "mu";
  r ← load "r";
  num_samples ← load "num_samples";
  data ← (mean ← as_int_array mu; cov ← as_matrix r; size ← as_int num_samples;
          np_random_multivariate_normal mean cov size);
  names ← load "names";
  f ← (cols ← as_str_list names; lift (pd_DataFrame data cols));
  store (src_frame c) (PFrame f) ;;
  loc_assign (src_frame c) "cohort" (Scalar (Str (src_label c))) ;;
  num_samples ← load "num_samples";
  sizes ← (size ← as_int num_samples;
           np_random_randint (src_low c) (src_high c) size);
  loc_assign (src_target c) "firm_size" (Array (map Int sizes)).

(** The cell [c] with the matrix [r] in the place of its own. *)
Definition with_matrix (r : matrix) (c : cohort_source) : cohort_source :=
  {| src_matrix := r; src_frame := src_frame c; src_label := src_label c;
     src_target := src_target c; src_low := src_low c; src_high := src_high c |}.

(** "Micro firms" *)
Definition micro_firms : cohort_source :=
  {| src_matrix := r_1_5; src_frame := "df_1_5"; src_label := "micro";
     src_target := "df_1_5"; src_low := 1; src_high := 5 |}.

(** "Small firms" *)
Definition small_firms : cohort_source :=
  {| src_matrix := r_6_25; src_frame := "df_6_25"; src_label := "large";
     src_target := "df_6_25"; src_low := 6; src_high := 25 |}.

(** "Medium firms" *)
Definition medium_firms : cohort_source :=
  {| src_matrix := r_26_100; src_frame := "df_26_100"; src_label := "medium";
     src_target := "df_26_100"; src_low := 26; src_high := 100 |}.

(** "Large firms" *)
Definition large_firms : cohort_source :=
  {| src_matrix := r_101_500; src_frame := "df_101_500"; src_label := "large";
     src_target := "df_501_"; src_low := 101; src_high := 500 |}.

(** "Very large firms" *)
Definition very_large_firms : cohort_source :=
  {| src_matrix := r_501_; src_frame := "df_501_"; src_label := "very large";
     src_target := "df_501_"; src_low := 501; src_high := 2000 |}.

Definition cohorts : list cohort_source :=
  [ micro_firms; small_firms; medium_firms; large_firms; very_large_firms ].

(** The frames of a list of values, as [pd.concat] reads its first argument:
    a value that is no frame is a TypeError. *)
Fixpoint frames (objs : list pyval) : result (list DataFrame) :=
  match objs with
  | [] => Ok []
  | PFrame f :: objs =>
      match frames objs with
      | Ok fs => Ok (f :: fs)
      | Raise e => Raise e
      end
  | _ :: _ =>
      Raise (TypeError "cannot concatenate object; only Series and DataFrame objs are valid")
  end.

(** The cell under "Data preparation":
<<
df = pd.concat([df_1_5, df_6_25, df_26_100, df_101_500, df_501_], axis=0)
>>
    ([df.info()] and [df.head()] only display the frame.)  The five names are
    read, in this order, before [pd.concat] is called. *)
Definition cell_data_preparation : prog unit :=
  v1 ← load "df_1_5";
  v2 ← load "df_6_25";
  v3 ← load "df_26_100";
  v4 ← load "df_101_500";
  v5 ← load "df_501_";
  fs ← lift (frames [v1; v2; v3; v4; v5]) ;
  df ← lift (pd_concat fs) ;
  store "df" (PFrame df).

(** Running cells one after the other; the first exception stops the run. *)
Fixpoint run_cells (cells : list (prog unit)) : prog unit :=
  match cells with
  | [] => ret tt
  | c :: cells => c ;; run_cells cells
  end.

(** The code cells of the notebook that compute, in document order. *)
Definition notebook : list (prog unit) :=
  cell_setup :: map cohort_cell cohorts ++ [cell_data_preparation].

(** The frame bound to [x], if any. *)
Definition frame_of (x : string) (k : kernel) : option DataFrame :=
  match ns k !! x with
  | Some (PFrame f) => Some f
  | _ => None
  end.

(** *** What a cohort cell computes

    The names below spell out, from the generator state [g] a cohort cell
    starts with and the value [n] of [num_samples], the values the cell
    computes on the way. *)

Definition names4 : list string := ["job_sat"; "int_qui"; "age"; "org_tnr"].

(** The cell under "Data simulation" has run and nothing rebound its names. *)
Definition configured (n : Z) (k : kernel) : Prop :=
  ns k !! "num_samples" = Some (PInt n) ∧
  ns k !! "mu" = Some (PIntArray (np_repeat 0 4)) ∧
  ns k !! "names" = Some (PStrList names4).

Definition vectors (c : cohort_source) (n : Z) (g : generator) : list (list float) :=
  (mvn_draw (np_repeat 0 4) (src_matrix c) (Z.to_nat n) g).1.

Definition after_vectors (c : cohort_source) (n : Z) (g : generator) : generator :=
  (mvn_draw (np_repeat 0 4) (src_matrix c) (Z.to_nat n) g).2.

Definition sizes (c : cohort_source) (n : Z) (g : generator) : list Z :=
  (randint_draw (src_low c) (src_high c) (Z.to_nat n) (after_vectors c n g)).1.

Definition after_sizes (c : cohort_source) (n : Z) (g : generator) : generator :=
  (randint_draw (src_low c) (src_high c) (Z.to_nat n) (after_vectors c n g)).2.

(** The frame of the vectors, one column per name. *)
Definition frame_of_vectors (data : list (list float)) : DataFrame :=
  {| index := seqZ 0 (Z.of_nat (length data));
     columns := imap (fun j name =>
                        (name, map (fun row => Num (default nan (row !! j))) data))
                     names4 |}.

(** The frame of the cell once it carries its cohort label. *)
Definition labelled (c : cohort_source) (n : Z) (g : generator) : DataFrame :=
  let f := frame_of_vectors (vectors c n g) in
  set_column "cohort" (replicate (nrows f) (Str (src_label c))) f.

(** The frame [f] with the firm sizes the cell draws. *)
Definition with_sizes (c : cohort_source) (n : Z) (g : generator) (f : DataFrame) :
  DataFrame :=
  set_column "firm_size" (map Int (sizes c n g)) f.

(** The warning the cell adds, if any. *)
Definition cell_warnings (c : cohort_source) : list warning :=
  if mvn_psd_check (src_matrix c) then []
  else [RuntimeWarning "covariance is not symmetric positive-semidefinite."].

(** The kernel when the statement that labels the frame starts: [r] and the
    frame of the vectors are bound, the vectors are drawn. *)
Definition before_label_assigned (c : cohort_source) (n : Z) (k : kernel) : kernel :=
  {| ns := <[src_frame c := PFrame (frame_of_vectors (vectors c n (rng k)))]>
             (<["r" := PMatrix (src_matrix c)]> (ns k));
     rng := after_vectors c n (rng k);
     warned := warned k ++ cell_warnings c |}.

(** The kernel when the last statement of the cell starts: [r] and the
    labelled frame are bound, both draws are done. *)
Definition before_sizes_assigned (c : cohort_source) (n : Z) (k : kernel) : kernel :=
  {| ns := <[src_frame c := PFrame (labelled c n (rng k))]>
             (<["r" := PMatrix (src_matrix c)]> (ns k));
     rng := after_sizes c n (rng k);
     warned := warned k ++ cell_warnings c |}.

(** A cell the kernel can run: a 4x4 matrix, a range of int64 numbers, names
    that are not those of the set-up cell. *)
Definition runnable (c : cohort_source) : Prop :=
  square 4 (src_matrix c) ∧
  (- 2 ^ 63) ≤ src_low c ∧ src_low c < src_high c ∧ src_high c ≤ 2 ^ 63 ∧
  (src_frame c ∉ ["r"; "mu"; "names"; "num_samples"]) ∧
  (src_target c ∉ ["r"; "mu"; "names"; "num_samples"]).

(** The frame the last statement of the cell writes the firm sizes to: the
    frame of the cell itself, or the frame another name is bound to. *)
Definition target_frame (c : cohort_source) (n : Z) (k : kernel) : option DataFrame :=
  if decide (src_target c = src_frame c) then Some (labelled c n (rng k))
  else frame_of (src_target c) k.

(** The kernel after the cell, [f] being the frame the firm sizes went to. *)
Definition after_cell (c : cohort_source) (n : Z) (k : kernel) (f : DataFrame) : kernel :=
  {| ns := <[src_target c := PFrame (with_sizes c n (rng k) f)]>
             (ns (before_sizes_assigned c n k));
     rng := after_sizes c n (rng k);
     warned := warned k ++ cell_warnings c |}.

(** The kernel after the set-up cell. *)
Definition after_setup (k : kernel) : kernel :=
  {| ns := <["names" := PStrList names4]>
             (<["mu" := PIntArray (np_repeat 0 4)]>
                (<["num_samples" := PInt 1000]> (ns k)));
     rng := rng k;
     warned := warned k |}.

(** *** What a run of the notebook computes

    The frames a run of all the cells leaves, from the generator state [g]
    the first cohort cell starts with. *)

(** The generator state after the cells of [cs], run in that order. *)
Definition generator_after (cs : list cohort_source) (g : generator) : generator :=
  foldl (fun g c => after_sizes c 1000 g) g cs.

(** The frame of a cell that writes the firm sizes to its own frame. *)
Definition own_frame (c : cohort_source) (g : generator) : DataFrame :=
  with_sizes c 1000 g (labelled c 1000 g).

Definition df_1_5 (g : generator) : DataFrame :=
  own_frame micro_firms g.

Definition df_6_25 (g : generator) : DataFrame :=
  own_frame small_firms (generator_after [micro_firms] g).

Definition df_26_100 (g : generator) : DataFrame :=
  own_frame medium_firms (generator_after [micro_firms; small_firms] g).

Definition df_101_500 (g : generator) : DataFrame :=
  labelled large_firms 1000
    (generator_after [micro_firms; small_firms; medium_firms] g).

Definition df_501_ (g : generator) : DataFrame :=
  own_frame very_large_firms
    (generator_after [micro_firms; small_firms; medium_firms; large_firms] g).

Definition df (g : generator) : DataFrame :=
  stacked [df_1_5 g; df_6_25 g; df_26_100 g; df_101_500 g; df_501_ g].

End cells.

End Notebook.

(** ** A stand-in generator

    A 63-bit linear congruential generator in the place of numpy's Mersenne
    Twister, to run the notebook on: the statements about the notebook hold
    for every [NumpyRandom]; this one gives them an instance. *)

Module Lcg.
Import Numeric Notebook.

Definition lcg_next (g : int) : int :=
  (6364136223846793005 * g + 1442695040888963407)%uint63.

Fixpoint lcg_stream (n : nat) (g : int) : list int * int :=
  match n with
  | O => ([], g)
  | S n =>
      let g1 := lcg_next g in
      let '(zs, g2) := lcg_stream n g1 in
      (g1 :: zs, g2)
  end.

(** The top 53 bits of a state, as a float of [-2, 2). *)
Definition lcg_float (g : int) : float :=
  ((of_uint63 (g >> 10)%uint63 / 9007199254740992 - 0.5) * 4)%float.

Fixpoint lcg_rows (n width : nat) (g : int) : list (list float) * int :=
  match n with
  | O => ([], g)
  | S n =>
      let '(zs, g1) := lcg_stream width g in
      let '(rows, g2) := lcg_rows n width g1 in
      (map lcg_float zs :: rows, g2)
  end.

Definition lcg_randint (low high : Z) (n : nat) (g : int) : list Z * int :=
  let '(zs, g') := lcg_stream n g in
  (map (fun z => low + Uint63.to_Z (z >> 31)%uint63 mod (high - low)) zs, g').

(** Symmetric, with rows dominated by their diagonal entries: enough for a
    covariance to pass. *)
Definition lcg_psd_check (cov : matrix) : bool :=
  let q := map (map float_to_Q) cov in
  forallb (fun b => b)
    (imap (fun i row =>
             forallb (fun b => b)
               (imap (fun j x => match entry q j i with
                                 | Some y => Qeq_bool x y
                                 | None => false
                                 end) row)) q)
  && diagonally_dominant q.

Lemma lcg_stream_length n g : length (lcg_stream n g).1 = n.
Proof.
  revert g; induction n as [|n IH]; intros g; simpl; [reflexivity|].
  specialize (IH (lcg_next g)). destruct (lcg_stream n (lcg_next g)).
  simpl in *. now rewrite IH.
Qed.

Lemma lcg_rows_length n width g : length (lcg_rows n width g).1 = n.
Proof.
  revert g; induction n as [|n IH]; intros g; simpl; [reflexivity|].
  destruct (lcg_stream width g) as [zs g1].
  specialize (IH g1). destruct (lcg_rows n width g1). simpl in *. now rewrite IH.
Qed.

Lemma lcg_rows_width n width g :
  Forall (fun row => length row = width) (lcg_rows n width g).1.
Proof.
  revert g; induction n as [|n IH]; intros g; simpl; [constructor|].
  pose proof (lcg_stream_length width g) as Hw.
  destruct (lcg_stream width g) as [zs g1].
  specialize (IH g1). destruct (lcg_rows n width g1). simpl in *.
  constructor; [now rewrite length_map | assumption].
Qed.

Lemma lcg_randint_length low high n g : length (lcg_randint low high n g).1 = n.
Proof.
  unfold lcg_randint. pose proof (lcg_stream_length n g) as Hn.
  destruct (lcg_stream n g). simpl in *. now rewrite length_map.
Qed.

Lemma lcg_randint_range low high n g :
  low < high → Forall (fun z => low ≤ z < high) (lcg_randint low high n g).1.
Proof.
  intros Hlt. unfold lcg_randint. destruct (lcg_stream n g) as [zs g']. simpl.
  apply Forall_forall. intros z [y [-> _]]%list_elem_of_fmap.
  pose proof (Z.mod_pos_bound (Uint63.to_Z (y >> 31)%uint63) (high - low)). lia.
Qed.

#[export] Instance lcg : NumpyRandom := {|
  generator := int;
  mvn_draw := fun mean _ n g => lcg_rows n (length mean) g;
  mvn_psd_check := lcg_psd_check;
  randint_draw := lcg_randint;
  mvn_draw_length := fun mean _ n g => lcg_rows_length n (length mean) g;
  mvn_draw_width := fun mean _ n g => lcg_rows_width n (length mean) g;
  randint_draw_length := lcg_randint_length;
  randint_draw_range := lcg_randint_range
|}.

(** A kernel on which only the set-up cell has run. *)
Definition set_up : kernel := after_setup (fresh 7%uint63).

(** The micro-firms cell with another matrix in the place of [r_1_5]. *)
Definition micro_firms_with (r : matrix) : cohort_source :=
  {| src_matrix := r; src_frame := src_frame micro_firms;
     src_label := src_label micro_firms; src_target := src_target micro_firms;
     src_low := src_low micro_firms; src_high := src_high micro_firms |}.

(** A matrix that is not symmetric. *)
Definition skewed : matrix :=
  [ [ 1.0;  0.5; 0.0; 0.0 ];
    [ -0.5; 1.0; 0.0; 0.0 ];
    [ 0.0;  0.0; 1.0; 0.0 ];
    [ 0.0;  0.0; 0.0; 1.0 ] ]%float.

(** A symmetric matrix with the eigenvalue -1. *)
Definition indefinite : matrix :=
  [ [ 1.0; 2.0; 0.0; 0.0 ];
    [ 2.0; 1.0; 0.0; 0.0 ];
    [ 0.0; 0.0; 1.0; 0.0 ];
    [ 0.0; 0.0; 0.0; 1.0 ] ]%float.



(** A kernel in which [df_501_] is bound already: the set-up cell and the
    very-large-firms cell have been run once, as in the session that left the
    outputs recorded in the notebook. *)
Definition earlier_session : kernel :=
  (run_cells [cell_setup; cohort_cell very_large_firms] (fresh 2021%uint63)).2.

Definition earlier_df_501_ : Pandas.DataFrame :=
  default {| Pandas.index := []; Pandas.columns := [] |}
          (frame_of "df_501_" earlier_session).


End Lcg.

(** ** The interaction model *)

Module Regression.

(** Modelled from the spec: the "Regression analysis" and "Visualization"
    sections of the notebook are empty, so the fitted model and its simple
    slope are missing from the source.  A fitted model holds the coefficients
    of the intercept, of the focal predictor, of the moderator and of their
    product, and the entries of the coefficient covariance matrix that the
    standard error of a simple slope needs. *)
Record FittedModel := {
  beta_intercept : float;
  beta_focal : float;
  beta_moderator : float;
  beta_interaction : float;
  var_focal : float;
  var_interaction : float;
  cov_focal_interaction : float
}.

(** Modelled from the spec: [simpleSlope(moderatorValue)] is missing from the
    source.  The slope is [β_focal + β_interaction * moderatorValue]; the
    standard error, by the delta method, is the square root of
    [var(β_focal) + moderatorValue² var(β_interaction)
     + 2 moderatorValue cov(β_focal, β_interaction)].  Both are computed in
    binary64. *)
Definition simpleSlope (m : FittedModel) (moderatorValue : float) : float * float :=
  ((beta_focal m + beta_interaction m * moderatorValue)%float,
   PrimFloat.sqrt
     (var_focal m + moderatorValue * moderatorValue * var_interaction m
      + 2 * moderatorValue * cov_focal_interaction m)%float).

(** A model one can witness the statements on. *)
Definition sample_model : FittedModel :=
  {| beta_intercept := 0.1; beta_focal := (-0.26); beta_moderator := 0.02;
     beta_interaction := 0.0003; var_focal := 0.0004;
     var_interaction := 0.000001; cov_focal_interaction := (-0.00001) |}%float.

End Regression.

(** ** What the last cell displays *)

Module Display.
Import Pandas.

(** [f.head(n)]: the first [n] rows ([df.head()] is [df.head(5)]). *)
Definition DataFrame_head (n : nat) (f : DataFrame) : DataFrame :=
  {| index := take n (index f);
     columns := map (fun col => (col.1, take n col.2)) (columns f) |}.

(** What [f.info()] prints, dtypes and memory usage apart: the number of
    entries, the first and the last row label, and per column its name and
    its count of non-null cells. *)
Record frame_info := {
  info_entries : nat;
  info_first : option Z;
  info_last : option Z;
  info_columns : list (string * nat)
}.

Definition DataFrame_info (f : DataFrame) : frame_info :=
  {| info_entries := nrows f;
     info_first := index f !! 0%nat;
     info_last := last (index f);
     info_columns :=
       map (fun col => (col.1, length (filter (fun x => is_null x = false) col.2)))
           (columns f) |}.

End Display.

(** ** Properties of cells over all kernels *)

Module Invariants.
Import Python Pandas Notebook.
Local Open Scope string_scope.


(** Every column of the frame has one cell per row. *)
Definition rectangular (f : DataFrame) : Prop :=
  Forall (fun col => length col.2 = nrows f) (columns f).

Section kernel_invariants.
Context {N : NumpyRandom}.

(** Every frame bound in the kernel is rectangular. *)
Definition frames_rectangular (k : kernel) : Prop :=
  ∀ x f, ns k !! x = Some (PFrame f) → rectangular f.

(** The program keeps [I], however it ends; when it ends normally, its
    value satisfies [R]. *)
Definition keeps {A} (I : kernel → Prop) (R : A → Prop) (m : prog A) : Prop :=
  ∀ k, I k → I (m k).2 ∧ ∀ a, (m k).1 = Ok a → R a.



(** A value that, if it is a frame, is a rectangular one. *)
Definition frame_value_rectangular (v : pyval) : Prop :=
  ∀ f, v = PFrame f → rectangular f.

(** The kernel once a cohort cell has bound [r] and nothing else. *)
Definition r_bound (c : cohort_source) (k : kernel) : kernel :=
  {| ns := <["r" := PMatrix (src_matrix c)]> (ns k);
     rng := rng k;
     warned := warned k |}.

End kernel_invariants.

End Invariants.

(** ** More sessions on the stand-in generator *)

Module Sessions.
Import Pandas Notebook Lcg.
Local Open Scope string_scope.

(** The set-up kernel after [num_samples] has been rebound to [n] by hand. *)
Definition resized (n : Z) : kernel :=
  {| ns := <["num_samples" := PInt n]> (ns set_up);
     rng := rng set_up;
     warned := [] |}.

(** A fresh kernel. *)
Definition fresh_session : kernel := fresh 7%uint63.

(** A kernel in which [df_501_] is bound to [pd.DataFrame()]. *)
Definition empty_session : kernel :=
  {| ns := {[ "df_501_" := PFrame empty_frame ]};
     rng := 7%uint63;
     warned := [] |}.

(** A kernel in which [df_1_5] and [df_501_] are bound to a number. *)
Definition odd_session : kernel :=
  {| ns := <["df_1_5" := PInt 3]> {[ "df_501_" := PInt 3 ]};
     rng := 7%uint63;
     warned := [] |}.

(** A matrix with a nan. *)
Definition with_nan : Numeric.matrix :=
  [ [ 1.0; nan; 0.0; 0.0 ];
    [ nan; 1.0; 0.0; 0.0 ];
    [ 0.0; 0.0; 1.0; 0.0 ];
    [ 0.0; 0.0; 0.0; 1.0 ] ]%float.


End Sessions.
(** ** Facts: the correlation matrices *)

Section matrix_facts.
Import Numeric.

Lemma dot_scale_r (c : R) (u v : list R) :
  dot u (scale c v) = (c * dot u v)%R.
Proof.
  unfold dot, scale. revert v.
  induction u as [|x u IH]; intros [|y v]; simpl; try lra.
  rewrite IH. lra.
Qed.

Lemma dot_self_nonneg (v : list R) : (0 <= dot v v)%R.
Proof.
  induction v as [|x v IH]; unfold dot in *; simpl; [lra|].
  pose proof (Rle_0_sqr x) as Hx. unfold Rsqr in Hx. lra.
Qed.

Lemma dot_self_pos (v : list R) :
  Exists (fun x => x ≠ 0%R) v → (0 < dot v v)%R.
Proof.
  induction 1 as [x v Hx | x v _ IH]; unfold dot in *; simpl.
  - pose proof (dot_self_nonneg v) as Hv. unfold dot in Hv.
    assert (0 < x * x)%R by (apply Rsqr_pos_lt in Hx; exact Hx). lra.
  - pose proof (Rle_0_sqr x) as Hx. unfold Rsqr in Hx. lra.
Qed.

(** Every eigenvalue of a positive semi-definite matrix is non-negative. *)
Lemma psd_eigenvalues_nonneg (a : list (list R)) (lam : R) :
  positive_semi_definite a → eigenvalue a lam → (0 <= lam)%R.
Proof.
  intros Hpsd (v & Hlen & Hnz & Hev).
  specialize (Hpsd v Hlen). unfold quad_form in Hpsd.
  rewrite Hev, dot_scale_r in Hpsd.
  pose proof (dot_self_pos v Hnz) as Hpos.
  destruct (Rle_or_lt 0 lam) as [|Hneg]; [assumption|].
  exfalso. assert (lam * dot v v < 0)%R; [|lra].
  rewrite <- (Rmult_0_l (dot v v)). apply Rmult_lt_compat_r; assumption.
Qed.

Lemma Q2R_abs_bounds (q : Q) :
  (- Q2R (Qabs q) <= Q2R q <= Q2R (Qabs q))%R.
Proof.
  split.
  - rewrite <- Q2R_opp. apply Qle_Rle.
    rewrite <- (Qopp_involutive q) at 2. apply Qopp_le_compat.
    rewrite <- Qabs_opp. apply Qle_Qabs.
  - apply Qle_Rle, Qle_Qabs.
Qed.

(** One off-diagonal pair of the quadratic form is bounded below by the
    squares it is dominated by. *)
Lemma cross_term_bound (a b x y : R) :
  (- b <= a <= b)%R → (- (b * (x * x + y * y)) <= 2 * a * x * y)%R.
Proof.
  intros [Hl Hu].
  assert (0 <= (b + a) * ((x + y) * (x + y)))%R as H1.
  { apply Rmult_le_pos; [lra | apply Rle_0_sqr]. }
  assert (0 <= (b - a) * ((x - y) * (x - y)))%R as H2.
  { apply Rmult_le_pos; [lra | apply Rle_0_sqr]. }
  lra.
Qed.

Lemma Q2R_zero : Q2R 0 = 0%R.
Proof. unfold Q2R. simpl. lra. Qed.

Local Opaque Qplus Qabs Qle_bool Q2R.

(** A symmetric 4x4 matrix each of whose rows is dominated by its diagonal
    entry is positive semi-definite. *)
Lemma dominant4_psd (qm : list (list Q)) :
  square 4 qm → symmetric qm → diagonally_dominant qm = true →
  positive_semi_definite (map (map Q2R) qm).
Proof.
  intros [Hlen Hrows] Hsym Hdom.
  destruct qm as [|r1 [|r2 [|r3 [|r4 [|? ?]]]]]; try discriminate Hlen.
  repeat match goal with
         | H : Forall _ (_ :: _) |- _ => apply Forall_cons_iff in H; destruct H
         end.
  destruct r1 as [|q11 [|q12 [|q13 [|q14 [|? ?]]]]]; try discriminate.
  destruct r2 as [|q21 [|q22 [|q23 [|q24 [|? ?]]]]]; try discriminate.
  destruct r3 as [|q31 [|q32 [|q33 [|q34 [|? ?]]]]]; try discriminate.
  destruct r4 as [|q41 [|q42 [|q43 [|q44 [|? ?]]]]]; try discriminate.
  unfold symmetric, transpose, column_of in Hsym. simpl in Hsym.
  assert (q21 = q12 ∧ q31 = q13 ∧ q41 = q14 ∧
          q32 = q23 ∧ q42 = q24 ∧ q43 = q34) as (-> & -> & -> & -> & -> & ->)
    by (repeat split; congruence).
  clear Hsym.
  unfold diagonally_dominant, row_dominated in Hdom. simpl in Hdom.
  apply andb_prop in Hdom as [Hd1%Qle_bool_imp_le%Qle_Rle Hdom].
  apply andb_prop in Hdom as [Hd2%Qle_bool_imp_le%Qle_Rle Hdom].
  apply andb_prop in Hdom as [Hd3%Qle_bool_imp_le%Qle_Rle Hdom].
  apply andb_prop in Hdom as [Hd4%Qle_bool_imp_le%Qle_Rle _].
  rewrite ?Q2R_plus, ?Q2R_zero in Hd1, Hd2, Hd3, Hd4.
  intros v Hv.
  destruct v as [|x1 [|x2 [|x3 [|x4 [|? ?]]]]]; try discriminate Hv.
  pose proof (cross_term_bound _ _ x1 x2 (Q2R_abs_bounds q12)).
  pose proof (cross_term_bound _ _ x1 x3 (Q2R_abs_bounds q13)).
  pose proof (cross_term_bound _ _ x1 x4 (Q2R_abs_bounds q14)).
  pose proof (cross_term_bound _ _ x2 x3 (Q2R_abs_bounds q23)).
  pose proof (cross_term_bound _ _ x2 x4 (Q2R_abs_bounds q24)).
  pose proof (cross_term_bound _ _ x3 x4 (Q2R_abs_bounds q34)).
  assert (∀ d s x : R, (s <= d)%R → (0 <= (d - s) * (x * x))%R) as Hsq.
  { intros d s x Hds. apply Rmult_le_pos; [lra | apply Rle_0_sqr]. }
  pose proof (Hsq _ _ x1 Hd1). pose proof (Hsq _ _ x2 Hd2).
  pose proof (Hsq _ _ x3 Hd3). pose proof (Hsq _ _ x4 Hd4).
  unfold quad_form, mat_vec, dot. simpl. lra.
Qed.

Local Transparent Qplus Qabs Qle_bool Q2R.


Lemma to_real_exact (m : matrix) :
  to_real m = map (map Q2R) (map (map float_to_Q) m).
Proof.
  unfold to_real. rewrite map_map. apply map_ext. intros row.
  now rewrite map_map.
Qed.

Lemma cohort_matrix_psd (m : matrix) :
  m ∈ cohort_matrices → positive_semi_definite (to_real m).
Proof.
  intros Hm. rewrite to_real_exact.
  unfold cohort_matrices in Hm.
  repeat (apply elem_of_cons in Hm as [-> | Hm]);
    [apply dominant4_psd; [split; [reflexivity | repeat constructor]
                          | vm_compute; reflexivity | vm_compute; reflexivity] ..
    | inversion Hm].
Qed.

(** C7.  Each of the five hard-coded matrices satisfies the CorrelationSpec
    invariant: every diagonal entry is the binary64 number 1.0, the matrix
    equals its transpose, and every real eigenvalue of the matrix (read at the
    exact values of its binary64 entries) is at least 0. *)
Theorem cohort_matrices_correlation_spec :
  Forall correlation_spec cohort_matrices.
Proof.
  apply Forall_forall. intros m Hm. split; [|split].
  - unfold cohort_matrices in Hm.
    repeat (apply elem_of_cons in Hm as [-> | Hm]);
      [repeat constructor .. | inversion Hm].
  - unfold cohort_matrices in Hm.
    repeat (apply elem_of_cons in Hm as [-> | Hm]);
      [reflexivity .. | inversion Hm].
  - intros lam. apply psd_eigenvalues_nonneg, cohort_matrix_psd, Hm.
Qed.

End matrix_facts.

(** ** Facts: data frames *)

Section frame_facts.
Import Python Numeric Pandas.
Local Open Scope string_scope.
Local Open Scope list_scope.

Lemma lookup_column_None c cols :
  lookup_column c cols = None ↔ c ∉ map fst cols.
Proof.
  induction cols as [|[c' vs] cols IH]; simpl.
  - split; [intros _; apply not_elem_of_nil | done].
  - rewrite not_elem_of_cons. case_decide; subst.
    + split; [done | intros [? _]; done].
    + rewrite IH. split; [by split | by intros [_ ?]].
Qed.

Lemma lookup_column_is_Some c cols :
  is_Some (lookup_column c cols) ↔ c ∈ map fst cols.
Proof.
  rewrite <- not_eq_None_Some, lookup_column_None.
  split; [apply dec_stable | auto].
Qed.

Lemma lookup_column_elem_of c vs cols :
  lookup_column c cols = Some vs → (c, vs) ∈ cols.
Proof.
  induction cols as [|[c' vs'] cols IH]; simpl; [done|].
  case_decide; subst.
  - intros [= ->]. apply list_elem_of_here.
  - intros H'. apply list_elem_of_further, IH, H'.
Qed.

Lemma lookup_column_replace_eq c vs cols :
  lookup_column c (replace_column c vs cols) = Some vs.
Proof.
  induction cols as [|[c' vs'] cols IH]; simpl.
  - by rewrite decide_True.
  - case_decide; simpl; [by rewrite decide_True | by rewrite decide_False].
Qed.

Lemma lookup_column_replace_ne c c' vs cols :
  c ≠ c' → lookup_column c' (replace_column c vs cols) = lookup_column c' cols.
Proof.
  intros Hne. induction cols as [|[c0 vs0] cols IH]; simpl.
  - by rewrite decide_False.
  - destruct (decide (c0 = c)) as [->|]; simpl.
    + by rewrite !decide_False.
    + by rewrite IH.
Qed.

Lemma fields_replace_column c vs cols :
  map fst (replace_column c vs cols) =
  if decide (c ∈ map fst cols) then map fst cols else map fst cols ++ [c].
Proof.
  induction cols as [|[c' vs'] cols IH].
  - destruct (decide (c ∈ map fst [])) as [Hin|]; [|done].
    by apply elem_of_nil in Hin.
  - cbn [replace_column map fst].
    destruct (decide (c' = c)) as [->|Hne]; cbn [map fst].
    + rewrite decide_True; [done | apply list_elem_of_here].
    + rewrite IH. destruct (decide (c ∈ map fst cols)) as [Hin|Hin].
      * rewrite decide_True; [done | by apply list_elem_of_further].
      * rewrite decide_False; [done|].
        rewrite not_elem_of_cons. split; [congruence | done].
Qed.

Lemma column_set_column_eq c vs f : column c (set_column c vs f) = Some vs.
Proof. apply lookup_column_replace_eq. Qed.

Lemma column_set_column_ne c c' vs f :
  c ≠ c' → column c' (set_column c vs f) = column c' f.
Proof. apply lookup_column_replace_ne. Qed.

Lemma nrows_set_column c vs f : nrows (set_column c vs f) = nrows f.
Proof. reflexivity. Qed.

Lemma wf_set_column c vs f :
  wf_frame f → length vs = nrows f → wf_frame (set_column c vs f).
Proof.
  intros [Hnd Hlen] Hvs. split.
  - unfold fields, set_column. simpl. rewrite fields_replace_column.
    case_decide; [done|]. apply NoDup_app. repeat split; [done | | apply NoDup_singleton].
    intros x Hx ->%list_elem_of_singleton. done.
  - unfold set_column, nrows in *. simpl. clear Hnd.
    induction (columns f) as [|[c' vs'] cols IH]; simpl.
    + by repeat constructor.
    + apply Forall_cons in Hlen as [Hc Hcols].
      case_decide; constructor; auto.
Qed.

(** *** [.loc] *)

Lemma loc_setitem_scalar f c x :
  nrows f ≠ 0%nat →
  loc_setitem f c (Scalar x) = Ok (set_column c (replicate (nrows f) x) f).
Proof.
  intros Hn. cbn [loc_setitem]. by rewrite (proj2 (Nat.eqb_neq _ _) Hn).
Qed.

Lemma loc_setitem_array f c vs :
  length vs = nrows f → loc_setitem f c (Array vs) = Ok (set_column c vs f).
Proof. intros Hn. cbn [loc_setitem]. by rewrite Hn, Nat.eqb_refl. Qed.

Lemma loc_setitem_array_mismatch f c vs :
  length vs ≠ nrows f → nrows f ≠ 0%nat →
  loc_setitem f c (Array vs) =
  Raise (ValueError "Length of values does not match length of index").
Proof.
  intros Hlen Hn. cbn [loc_setitem].
  by rewrite (proj2 (Nat.eqb_neq _ _) Hlen), (proj2 (Nat.eqb_neq _ _) Hn).
Qed.

Lemma loc_setitem_array_expands f c vs :
  nrows f = 0%nat → (2 ≤ length vs)%nat →
  loc_setitem f c (Array vs) = Ok (set_column c vs (reindexed (length vs) f)).
Proof.
  intros Hn Hlen. cbn [loc_setitem]. rewrite Hn.
  rewrite (proj2 (Nat.eqb_neq (length vs) 0)) by lia. cbn [Nat.eqb negb].
  rewrite (proj2 (Nat.eqb_neq (length vs) 1)) by lia.
  by rewrite andb_false_r.
Qed.

(** *** [pd.concat] *)

Lemma elem_of_add_fields c acc l :
  c ∈ foldl add_field acc l ↔ c ∈ acc ∨ c ∈ l.
Proof.
  revert acc; induction l as [|x l IH]; intros acc; simpl.
  - rewrite elem_of_nil. naive_solver.
  - rewrite IH, elem_of_cons. unfold add_field. case_decide.
    + naive_solver.
    + rewrite elem_of_app, list_elem_of_singleton. naive_solver.
Qed.

Lemma NoDup_add_fields acc l : NoDup acc → NoDup (foldl add_field acc l).
Proof.
  revert acc; induction l as [|x l IH]; intros acc Hnd; simpl; [done|].
  apply IH. unfold add_field. case_decide; [done|].
  apply NoDup_app. repeat split; [done | | apply NoDup_singleton].
  intros y Hy ->%list_elem_of_singleton. done.
Qed.

Lemma elem_of_union_fields_from c acc objs :
  c ∈ foldl (fun acc f => foldl add_field acc (fields f)) acc objs ↔
  c ∈ acc ∨ ∃ f, f ∈ objs ∧ c ∈ fields f.
Proof.
  revert acc; induction objs as [|f objs IH]; intros acc; simpl.
  - split; [auto | intros [?|(f & Hf & _)]; [done | by apply elem_of_nil in Hf]].
  - rewrite IH, elem_of_add_fields. split.
    + intros [[?|?]|(f' & ? & ?)]; [by left | right; exists f | right; exists f'];
        split; auto using list_elem_of_here, list_elem_of_further.
    + intros [?|(f' & [->|?]%elem_of_cons & ?)]; eauto.
Qed.

(** The fields of a join are the fields of its frames, each once. *)
Lemma elem_of_union_fields c objs :
  c ∈ union_fields objs ↔ ∃ f, f ∈ objs ∧ c ∈ fields f.
Proof.
  unfold union_fields. rewrite elem_of_union_fields_from, elem_of_nil. naive_solver.
Qed.

Lemma NoDup_union_fields objs : NoDup (union_fields objs).
Proof.
  unfold union_fields. generalize (NoDup_nil_2 (A := string)).
  generalize (@nil string). induction objs as [|f objs IH]; intros acc Hnd; simpl.
  - done.
  - apply IH, NoDup_add_fields, Hnd.
Qed.

Lemma lookup_column_map (g : string → list cell) c l :
  lookup_column c (map (fun c => (c, g c)) l) =
  if decide (c ∈ l) then Some (g c) else None.
Proof.
  induction l as [|c' l IH].
  - destruct (decide (c ∈ [])) as [Hin|]; [|done].
    by apply elem_of_nil in Hin.
  - cbn [map lookup_column]. destruct (decide (c' = c)) as [->|Hne].
    + rewrite decide_True; [done | apply list_elem_of_here].
    + rewrite IH. destruct (decide (c ∈ l)).
      * rewrite decide_True; [done | by apply list_elem_of_further].
      * rewrite decide_False; [done|].
        rewrite not_elem_of_cons. split; [congruence | done].
Qed.

Lemma length_flat_map {A B} (g : A → list B) (l : list A) :
  length (flat_map g l) = sum_list_with (fun x => length (g x)) l.
Proof.
  induction l as [|x l IH]; simpl; [done|]. by rewrite length_app, IH.
Qed.

Lemma length_column_or_nan c f : wf_frame f → length (column_or_nan c f) = nrows f.
Proof.
  intros [_ Hlen]. unfold column_or_nan, column.
  destruct (lookup_column c (columns f)) as [vs|] eqn:Hc; simpl.
  - apply lookup_column_elem_of in Hc. rewrite Forall_forall in Hlen.
    apply (Hlen _ Hc).
  - apply length_replicate.
Qed.

Lemma column_or_nan_missing c f :
  c ∉ fields f → column_or_nan c f = replicate (nrows f) NaN.
Proof.
  intros Hc. unfold column_or_nan, column.
  by rewrite (proj2 (lookup_column_None _ _) Hc).
Qed.

Lemma column_or_nan_present c vs f :
  column c f = Some vs → column_or_nan c f = vs.
Proof. intros Hc. unfold column_or_nan. by rewrite Hc. Qed.

Lemma length_stacked_column c objs :
  Forall wf_frame objs →
  length (flat_map (column_or_nan c) objs) = sum_list_with nrows objs.
Proof.
  induction 1 as [|f objs Hf _ IH]; simpl; [done|].
  by rewrite length_app, length_column_or_nan, IH.
Qed.

Lemma pd_concat_ok objs : objs ≠ [] → pd_concat objs = Ok (stacked objs).
Proof. by destruct objs. Qed.

Lemma nrows_stacked objs : nrows (stacked objs) = sum_list_with nrows objs.
Proof. unfold nrows, stacked. simpl. apply length_flat_map. Qed.

Lemma fields_stacked objs : fields (stacked objs) = union_fields objs.
Proof.
  unfold fields, stacked. simpl. rewrite map_map. simpl. apply map_id.
Qed.

Lemma column_stacked c objs :
  column c (stacked objs) =
  if decide (c ∈ union_fields objs) then Some (flat_map (column_or_nan c) objs)
  else None.
Proof. unfold column, stacked. simpl. apply lookup_column_map. Qed.

Lemma wf_stacked objs : Forall wf_frame objs → wf_frame (stacked objs).
Proof.
  intros Hwf. split.
  - rewrite fields_stacked. apply NoDup_union_fields.
  - apply Forall_forall. intros [c vs] Hcol.
    apply list_elem_of_fmap in Hcol as (c' & [= -> ->] & _).
    cbn [snd]. by rewrite nrows_stacked, length_stacked_column.
Qed.

(** The cells of a frame keep their place in a column of the join: after
    the rows of the frames before it. *)
Lemma flat_map_lookup_middle {A B} (g : A → list B) pre x post (i : nat) :
  (i < length (g x))%nat →
  flat_map g (pre ++ x :: post) !! (length (flat_map g pre) + i)%nat = g x !! i.
Proof.
  intros Hi. rewrite flat_map_app. simpl.
  rewrite lookup_app_r by lia.
  replace (length (flat_map g pre) + i - length (flat_map g pre))%nat with i by lia.
  by rewrite lookup_app_l.
Qed.

Lemma cell_at_stacked c pre f post (i : nat) :
  Forall wf_frame (pre ++ f :: post) →
  c ∈ union_fields (pre ++ f :: post) →
  (i < nrows f)%nat →
  cell_at c (sum_list_with nrows pre + i) (stacked (pre ++ f :: post)) =
  column_or_nan c f !! i.
Proof.
  intros Hwf Hc Hi. unfold cell_at.
  rewrite column_stacked, decide_True by done. simpl.
  apply Forall_app in Hwf as [Hpre Hwf].
  rewrite <- (length_stacked_column c pre Hpre).
  apply flat_map_lookup_middle.
  apply Forall_cons in Hwf as [Hf _].
  by rewrite length_column_or_nan.
Qed.

Lemma wf_samples : Forall wf_frame [sized_sample; unsized_sample].
Proof.
  repeat constructor; simpl; try (rewrite ?elem_of_cons, elem_of_nil; intuition discriminate).
Qed.

(** C2, as the code has it refuted: two samples with different field sets
    are joined without any error, and the row of the sample that lacks
    [firm_size] carries nan there. *)
Lemma pd_concat_accepts_different_fields :
  fields sized_sample ≠ fields unsized_sample ∧
  pd_concat [sized_sample; unsized_sample] =
  Ok {| index := [0; 0];
        columns := [("job_sat", [Num 0.5%float; Num 0.25%float]);
                    ("cohort", [Str "medium"; Str "large"]);
                    ("firm_size", [Int 30; NaN])] |}.
Proof. split; [discriminate | reflexivity]. Qed.

(** C2, amended.  [pd.concat] raises no error over the fields of its frames:
    for a non-empty list of frames it returns the outer join.  The fields of
    the result are the fields of all the frames; an observation keeps its
    place and, in the fields its frame has, its values; in a field its frame
    lacks it carries nan. *)
Theorem pd_concat_outer_join (objs : list DataFrame) :
  objs ≠ [] → Forall wf_frame objs →
  ∃ d, pd_concat objs = Ok d ∧
       (∀ c, c ∈ fields d ↔ ∃ f, f ∈ objs ∧ c ∈ fields f) ∧
       (∀ pre f post c (i : nat),
          objs = pre ++ f :: post → c ∈ fields d → (i < nrows f)%nat →
          cell_at c (sum_list_with nrows pre + i) d =
          if decide (c ∈ fields f) then cell_at c i f else Some NaN).
Proof.
  intros Hne Hwf. exists (stacked objs). split; [by apply pd_concat_ok|]. split.
  - intros c. rewrite fields_stacked. apply elem_of_union_fields.
  - intros pre f post c i -> Hc Hi. rewrite fields_stacked in Hc.
    rewrite cell_at_stacked by done.
    destruct (decide (c ∈ fields f)) as [Hin|Hout].
    + apply lookup_column_is_Some in Hin as [vs Hvs].
      unfold cell_at. fold (column c f) in Hvs.
      by rewrite (column_or_nan_present _ _ _ Hvs), Hvs.
    + rewrite column_or_nan_missing by done. by apply lookup_replicate_2.
Qed.

Lemma pd_concat_outer_join_witness :
  ([sized_sample; unsized_sample] ≠ [] ∧
   Forall wf_frame [sized_sample; unsized_sample]) ∧
  ∃ d, pd_concat [sized_sample; unsized_sample] = Ok d ∧
       (∀ c, c ∈ fields d ↔
             ∃ f, f ∈ [sized_sample; unsized_sample] ∧ c ∈ fields f) ∧
       (∀ pre f post c (i : nat),
          [sized_sample; unsized_sample] = pre ++ f :: post →
          c ∈ fields d → (i < nrows f)%nat →
          cell_at c (sum_list_with nrows pre + i) d =
          if decide (c ∈ fields f) then cell_at c i f else Some NaN).
Proof.
  split; [split; [discriminate | exact wf_samples]|].
  apply pd_concat_outer_join; [discriminate | exact wf_samples].
Defined.

(** C3, as the code has it refuted: for the empty sequence [pd.concat]
    returns no dataset at all; it raises ValueError. *)
Lemma pd_concat_empty_raises :
  pd_concat [] = Raise (ValueError "No objects to concatenate") ∧
  ¬ ∃ d, pd_concat [] = Ok d ∧ nrows d = sum_list_with nrows [].
Proof. split; [reflexivity | intros (d & [=] & _)]. Qed.

(** C3, amended.  For every non-empty sequence of samples the dataset
    [pd.concat] returns has exactly as many rows as the samples together:
    the row labels of the samples one after the other, none dropped, none
    added, none renumbered; and when every sample is a well-formed frame,
    every column of the result has one cell per row. *)
Theorem pd_concat_length (objs : list DataFrame) :
  objs ≠ [] →
  ∃ d, pd_concat objs = Ok d ∧
       nrows d = sum_list_with nrows objs ∧
       index d = flat_map index objs ∧
       (Forall wf_frame objs → wf_frame d).
Proof.
  intros Hne. exists (stacked objs).
  split; [by apply pd_concat_ok|]. split; [apply nrows_stacked|].
  split; [reflexivity | apply wf_stacked].
Qed.

Lemma pd_concat_length_witness :
  [sized_sample; unsized_sample] ≠ [] ∧
  ∃ d, pd_concat [sized_sample; unsized_sample] = Ok d ∧
       nrows d = sum_list_with nrows [sized_sample; unsized_sample] ∧
       index d = flat_map index [sized_sample; unsized_sample] ∧
       (Forall wf_frame [sized_sample; unsized_sample] → wf_frame d).
Proof.
  split; [discriminate | apply pd_concat_length; discriminate].
Defined.

End frame_facts.

(** ** Facts: the cells *)

Ltac cohort_in := unfold Notebook.cohorts; rewrite !elem_of_cons; tauto.

Section cell_facts.
Import Python Pandas Numeric Notebook.
Context {N : NumpyRandom}.
Local Open Scope string_scope.
Local Open Scope list_scope.
Local Open Scope Z_scope.

Lemma nrows_frame_of_vectors data : nrows (frame_of_vectors data) = length data.
Proof. unfold nrows, frame_of_vectors. simpl. rewrite length_seqZ. lia. Qed.

Lemma multivariate_normal_run (mean : list Z) (cov : matrix) (size : Z) (k : kernel) :
  square (length mean) cov → all_finite cov = true → 0 ≤ size →
  np_random_multivariate_normal mean cov size k =
  (Ok {| nd_rows := (mvn_draw mean cov (Z.to_nat size) (rng k)).1;
         nd_width := length mean |},
   {| ns := ns k;
      rng := (mvn_draw mean cov (Z.to_nat size) (rng k)).2;
      warned := warned k ++
        (if mvn_psd_check cov then []
         else [RuntimeWarning "covariance is not symmetric positive-semidefinite."]) |}).
Proof.
  intros [Hlen Hrows] Hfin Hsize. unfold np_random_multivariate_normal.
  rewrite Hlen, Nat.eqb_refl.
  rewrite (proj2 (forallb_forall _ _)).
  2:{ intros row Hrow%list_elem_of_In. rewrite Forall_forall in Hrows.
      apply Nat.eqb_eq, Hrows, Hrow. }
  simpl. rewrite (proj2 (Z.ltb_ge _ _) Hsize), Hfin.
  by destruct (mvn_draw mean cov (Z.to_nat size) (rng k)).
Qed.

(** A matrix with a nan or an infinity: the values are drawn, then the
    decomposition fails. *)
Lemma multivariate_normal_not_finite (mean : list Z) (cov : matrix) (size : Z)
    (k : kernel) :
  square (length mean) cov → all_finite cov = false → 0 ≤ size →
  np_random_multivariate_normal mean cov size k =
  (Raise (LinAlgError "SVD did not converge"),
   {| ns := ns k;
      rng := (mvn_draw mean cov (Z.to_nat size) (rng k)).2;
      warned := warned k |}).
Proof.
  intros [Hlen Hrows] Hfin Hsize. unfold np_random_multivariate_normal.
  rewrite Hlen, Nat.eqb_refl.
  rewrite (proj2 (forallb_forall _ _)).
  2:{ intros row Hrow%list_elem_of_In. rewrite Forall_forall in Hrows.
      apply Nat.eqb_eq, Hrows, Hrow. }
  simpl. rewrite (proj2 (Z.ltb_ge _ _) Hsize), Hfin.
  by destruct (mvn_draw mean cov (Z.to_nat size) (rng k)).
Qed.

Lemma randint_run (low high size : Z) (k : kernel) :
  - 2 ^ 63 ≤ low → low < high → high ≤ 2 ^ 63 → 0 ≤ size →
  np_random_randint low high size k =
  (Ok (randint_draw low high (Z.to_nat size) (rng k)).1,
   {| ns := ns k;
      rng := (randint_draw low high (Z.to_nat size) (rng k)).2;
      warned := warned k |}).
Proof.
  intros Hlo Hlt Hhi Hsize. unfold np_random_randint.
  rewrite (proj2 (Z.ltb_ge _ _) Hlo), (proj2 (Z.ltb_ge _ _) Hhi).
  rewrite (proj2 (Z.leb_gt _ _) Hlt), (proj2 (Z.ltb_ge _ _) Hsize).
  by destruct (randint_draw low high (Z.to_nat size) (rng k)).
Qed.

Lemma loc_assign_run (x c : string) (v : rhs) (f f' : DataFrame) (k : kernel) :
  ns k !! x = Some (PFrame f) → loc_setitem f c v = Ok f' →
  loc_assign x c v k =
  (Ok tt, {| ns := <[x := PFrame f']> (ns k); rng := rng k; warned := warned k |}).
Proof.
  intros Hx Hset. unfold loc_assign, mbind, prog_bind, bind, load, lift, store.
  rewrite Hx. cbn. by rewrite Hset.
Qed.

Lemma loc_assign_raise (x c : string) (v : rhs) (f : DataFrame) (k : kernel) e :
  ns k !! x = Some (PFrame f) → loc_setitem f c v = Raise e →
  loc_assign x c v k = (Raise e, k).
Proof.
  intros Hx Hset. unfold loc_assign, mbind, prog_bind, bind, load, lift, store.
  rewrite Hx. cbn. by rewrite Hset.
Qed.

Lemma loc_assign_scalar_run (x c : string) (v : cell) (f : DataFrame) (k : kernel) :
  ns k !! x = Some (PFrame f) → nrows f ≠ 0%nat →
  loc_assign x c (Scalar v) k =
  (Ok tt, {| ns := <[x := PFrame (set_column c (replicate (nrows f) v) f)]> (ns k);
             rng := rng k; warned := warned k |}).
Proof.
  intros Hx Hn. apply (loc_assign_run _ _ _ f); [done|].
  by apply loc_setitem_scalar.
Qed.

(** The cell up to the statement that labels the frame: [r] and the frame
    of the vectors are bound, the vectors are drawn. *)
Lemma cohort_cell_label_statement (c : cohort_source) (n : Z) (k : kernel) :
  runnable c → all_finite (src_matrix c) = true → configured n k → 0 ≤ n →
  cohort_cell c k =
  (loc_assign (src_frame c) "cohort" (Scalar (Str (src_label c))) ;;
   num_samples ← load "num_samples";
   sizes ← (size ← as_int num_samples;
            np_random_randint (src_low c) (src_high c) size);
   loc_assign (src_target c) "firm_size" (Array (map Int sizes)))
    (before_label_assigned c n k).
Proof.
  intros (Hsq & Hlo & Hlt & Hhi & Hframe & Htarget) Hfin (Hn & Hmu & Hnames) Hn0.
  rewrite !not_elem_of_cons in Hframe.
  destruct Hframe as (Hf1 & Hf2 & Hf3 & Hf4 & _).
  unfold cohort_cell.
  unfold mbind, prog_bind, bind, store, load. simpl.
  rewrite lookup_insert_ne by done. rewrite Hmu. simpl.
  rewrite lookup_insert_eq. simpl.
  rewrite lookup_insert_ne by done. rewrite Hn. simpl.
  rewrite multivariate_normal_run by done. simpl.
  rewrite lookup_insert_ne by done. rewrite Hnames. simpl.
  fold names4. fold (vectors c n (rng k)). fold (after_vectors c n (rng k)).
  reflexivity.
Qed.


Lemma cohort_cell_last_statement (c : cohort_source) (n : Z) (k : kernel) :
  runnable c → all_finite (src_matrix c) = true → configured n k → 0 < n →
  cohort_cell c k =
  loc_assign (src_target c) "firm_size" (Array (map Int (sizes c n (rng k))))
    (before_sizes_assigned c n k).
Proof.
  intros Hrun Hfin Hcfg Hn0.
  rewrite (cohort_cell_label_statement c n k) by (done || lia).
  destruct Hrun as (Hsq & Hlo & Hlt & Hhi & Hframe & Htarget).
  destruct Hcfg as (Hn & Hmu & Hnames).
  rewrite !not_elem_of_cons in Hframe.
  destruct Hframe as (Hf1 & Hf2 & Hf3 & Hf4 & _).
  unfold mbind at 1. unfold prog_bind, bind at 1.
  erewrite loc_assign_scalar_run; [|apply lookup_insert_eq|].
  2:{ rewrite nrows_frame_of_vectors. unfold vectors.
      rewrite mvn_draw_length. lia. }
  unfold mbind, prog_bind, bind, store, load, before_label_assigned. simpl.
  rewrite insert_insert_eq.
  rewrite lookup_insert_ne by done. rewrite lookup_insert_ne by done.
  rewrite Hn. simpl.
  rewrite randint_run by (done || lia). reflexivity.
Qed.

Lemma length_vectors c n g : length (vectors c n g) = Z.to_nat n.
Proof. apply mvn_draw_length. Qed.

Lemma length_sizes c n g : length (sizes c n g) = Z.to_nat n.
Proof. apply randint_draw_length. Qed.

Lemma nrows_labelled c n g : nrows (labelled c n g) = Z.to_nat n.
Proof.
  unfold labelled. cbv zeta.
  by rewrite nrows_set_column, nrows_frame_of_vectors, length_vectors.
Qed.

Lemma loc_assign_unbound (x c : string) (v : rhs) (k : kernel) :
  ns k !! x = None → loc_assign x c v k = (Raise (NameError x), k).
Proof.
  intros Hx. unfold loc_assign, mbind, prog_bind, bind, load. by rewrite Hx.
Qed.

Lemma target_frame_lookup c n k f :
  runnable c → target_frame c n k = Some f →
  ns (before_sizes_assigned c n k) !! src_target c = Some (PFrame f).
Proof.
  intros (_ & _ & _ & _ & _ & Htarget). unfold target_frame, before_sizes_assigned.
  rewrite !not_elem_of_cons in Htarget. destruct Htarget as (Hr & _).
  simpl. case_decide as Heq.
  - intros [= <-]. rewrite Heq. apply lookup_insert_eq.
  - unfold frame_of. intros Hf.
    rewrite !lookup_insert_ne by done.
    destruct (ns k !! src_target c) as [[]|]; congruence.
Qed.

(** A cohort cell whose last statement succeeds runs to its end: [f] is the
    frame of its target, [f'] the frame the firm sizes are set in. *)
Lemma cohort_cell_lands (c : cohort_source) (n : Z) (k : kernel) (f f' : DataFrame) :
  runnable c → all_finite (src_matrix c) = true → configured n k → 0 < n →
  target_frame c n k = Some f →
  loc_setitem f "firm_size" (Array (map Int (sizes c n (rng k)))) =
    Ok (with_sizes c n (rng k) f') →
  cohort_cell c k = (Ok tt, after_cell c n k f').
Proof.
  intros Hrun Hfin Hcfg Hn Hf Hset.
  rewrite (cohort_cell_last_statement c n k) by done.
  erewrite loc_assign_run; [reflexivity | by apply target_frame_lookup | exact Hset].
Qed.

(** A cohort cell whose target frame is there, with one row per sample, runs
    to its end. *)
Lemma cohort_cell_run (c : cohort_source) (n : Z) (k : kernel) (f : DataFrame) :
  runnable c → all_finite (src_matrix c) = true → configured n k → 0 < n →
  target_frame c n k = Some f → nrows f = Z.to_nat n →
  cohort_cell c k = (Ok tt, after_cell c n k f).
Proof.
  intros Hrun Hfin Hcfg Hn Hf Hrows.
  apply (cohort_cell_lands c n k f f); try done.
  apply loc_setitem_array. by rewrite length_map, length_sizes.
Qed.

(** A cohort cell whose target frame is there without any row, the samples
    being two or more, runs to its end as well: the frame gets one row per
    sample. *)
Lemma cohort_cell_expands (c : cohort_source) (n : Z) (k : kernel) (f : DataFrame) :
  runnable c → all_finite (src_matrix c) = true → configured n k → 1 < n →
  target_frame c n k = Some f → nrows f = 0%nat →
  cohort_cell c k = (Ok tt, after_cell c n k (reindexed (Z.to_nat n) f)).
Proof.
  intros Hrun Hfin Hcfg Hn Hf Hrows.
  apply (cohort_cell_lands c n k f); try done; [lia|].
  rewrite loc_setitem_array_expands; [|done|rewrite length_map, length_sizes; lia].
  by rewrite length_map, length_sizes.
Qed.

(** However [x.loc[:, c] = v] ends, it leaves the generator and every name
    but [x] as they were. *)
Lemma loc_assign_other (x c : string) (v : rhs) (k : kernel) (y : string) :
  y ≠ x → ns (loc_assign x c v k).2 !! y = ns k !! y.
Proof.
  intros Hy. unfold loc_assign, mbind, prog_bind, bind, load, lift, store.
  destruct (ns k !! x) as [[| | | |f]|]; try reflexivity. cbn.
  destruct (loc_setitem f c v); [|reflexivity].
  cbn. by rewrite lookup_insert_ne.
Qed.

Lemma loc_assign_rng (x c : string) (v : rhs) (k : kernel) :
  rng (loc_assign x c v k).2 = rng k.
Proof.
  unfold loc_assign, mbind, prog_bind, bind, load, lift, store.
  destruct (ns k !! x) as [[| | | |f]|]; try reflexivity. cbn.
  by destruct (loc_setitem f c v).
Qed.

Lemma loc_assign_not_frame (x c : string) (v : rhs) (k : kernel) (o : pyval) :
  ns k !! x = Some o → (∀ f, o ≠ PFrame f) →
  loc_assign x c v k = (Raise (AttributeError "loc"), k).
Proof.
  intros Hx Ho. unfold loc_assign, mbind, prog_bind, bind, load. rewrite Hx.
  destruct o; try reflexivity. by destruct (Ho f).
Qed.

(** A cohort cell that writes the firm sizes to the frame of another name
    leaves its own frame labelled and without firm sizes, both draws done,
    however its last statement ends. *)
Lemma cohort_cell_other_target (c : cohort_source) (n : Z) (k : kernel) :
  runnable c → all_finite (src_matrix c) = true → configured n k → 0 < n →
  src_target c ≠ src_frame c →
  ns (cohort_cell c k).2 !! src_frame c = Some (PFrame (labelled c n (rng k))) ∧
  rng (cohort_cell c k).2 = after_sizes c n (rng k).
Proof.
  intros Hrun Hfin Hcfg Hn Hne.
  rewrite (cohort_cell_last_statement c n k) by done. split.
  - rewrite loc_assign_other by done.
    unfold before_sizes_assigned. cbn [ns]. apply lookup_insert_eq.
  - by rewrite loc_assign_rng.
Qed.

(** A cohort cell whose target is an unbound name stops at its last statement,
    both draws done and its own frame bound. *)
Lemma cohort_cell_unbound_target (c : cohort_source) (n : Z) (k : kernel) :
  runnable c → all_finite (src_matrix c) = true → configured n k → 0 < n →
  src_target c ≠ src_frame c → ns k !! src_target c = None →
  cohort_cell c k = (Raise (NameError (src_target c)), before_sizes_assigned c n k).
Proof.
  intros Hrun Hfin Hcfg Hn Hne Hnone.
  rewrite (cohort_cell_last_statement c n k) by done.
  apply loc_assign_unbound. unfold before_sizes_assigned. simpl.
  destruct Hrun as (_ & _ & _ & _ & _ & Htarget).
  rewrite !not_elem_of_cons in Htarget. destruct Htarget as (Hr & _).
  by rewrite !lookup_insert_ne.
Qed.

Lemma lookup_after_cell_other c n k f x :
  x ≠ src_target c → x ≠ src_frame c → x ≠ "r" →
  ns (after_cell c n k f) !! x = ns k !! x.
Proof.
  intros Ht Hf Hr. unfold after_cell, before_sizes_assigned. simpl.
  by rewrite !lookup_insert_ne.
Qed.

Lemma lookup_after_cell_target c n k f :
  ns (after_cell c n k f) !! src_target c = Some (PFrame (with_sizes c n (rng k) f)).
Proof. unfold after_cell. simpl. apply lookup_insert_eq. Qed.

Lemma lookup_after_cell_frame c n k f :
  src_target c ≠ src_frame c →
  ns (after_cell c n k f) !! src_frame c = Some (PFrame (labelled c n (rng k))).
Proof.
  intros Hne. unfold after_cell, before_sizes_assigned. simpl.
  rewrite lookup_insert_ne by done. apply lookup_insert_eq.
Qed.

Lemma lookup_before_sizes_assigned_other c n k x :
  x ≠ src_frame c → x ≠ "r" →
  ns (before_sizes_assigned c n k) !! x = ns k !! x.
Proof.
  intros Hf Hr. unfold before_sizes_assigned. simpl. by rewrite !lookup_insert_ne.
Qed.

Lemma configured_after_cell c n m k f :
  runnable c → configured m k → configured m (after_cell c n k f).
Proof.
  intros (_ & _ & _ & _ & Hframe & Htarget) (Hn & Hmu & Hnames).
  rewrite !not_elem_of_cons in Hframe, Htarget.
  destruct Hframe as (? & ? & ? & ? & _), Htarget as (? & ? & ? & ? & _).
  repeat split; rewrite lookup_after_cell_other; done.
Qed.


(** *** Running the notebook *)

Lemma run_cells_cons_ok (c : prog unit) cells (k k' : kernel) :
  c k = (Ok tt, k') → run_cells (c :: cells) k = run_cells cells k'.
Proof. intros Hc. simpl. unfold mbind, prog_bind, bind. by rewrite Hc. Qed.

Lemma run_cells_cons_raise (c : prog unit) cells (k k' : kernel) e :
  c k = (Raise e, k') → run_cells (c :: cells) k = (Raise e, k').
Proof. intros Hc. simpl. unfold mbind, prog_bind, bind. by rewrite Hc. Qed.

Lemma cell_setup_run k : cell_setup k = (Ok tt, after_setup k).
Proof. reflexivity. Qed.

Lemma configured_after_setup k : configured 1000 (after_setup k).
Proof.
  unfold configured, after_setup. simpl. repeat split.
  - rewrite !lookup_insert_ne by done. apply lookup_insert_eq.
  - rewrite lookup_insert_ne by done. apply lookup_insert_eq.
  - apply lookup_insert_eq.
Qed.

Lemma lookup_after_setup_other k x :
  x ∉ ["num_samples"; "mu"; "names"] → ns (after_setup k) !! x = ns k !! x.
Proof.
  rewrite !not_elem_of_cons. intros (? & ? & ? & _).
  unfold after_setup. simpl. by rewrite !lookup_insert_ne.
Qed.

Lemma runnable_cohorts : Forall runnable cohorts.
Proof.
  repeat constructor; simpl; try lia; try done;
    rewrite !not_elem_of_cons; repeat split; try done; apply not_elem_of_nil.
Qed.

Lemma runnable_cohort c : c ∈ cohorts → runnable c.
Proof. apply (proj1 (Forall_forall _ _) runnable_cohorts). Qed.

Lemma finite_cohort c : c ∈ cohorts → all_finite (src_matrix c) = true.
Proof.
  unfold cohorts. rewrite !elem_of_cons, elem_of_nil.
  intros [->|[->|[->|[->|[->|[]]]]]]; vm_compute; reflexivity.
Qed.

(** A cell that writes the firm sizes to its own frame runs to its end
    whatever the kernel holds besides the set-up. *)
Lemma own_cell_run (c : cohort_source) (n : Z) (k : kernel) :
  runnable c → all_finite (src_matrix c) = true → configured n k → 0 < n →
  src_target c = src_frame c →
  cohort_cell c k = (Ok tt, after_cell c n k (labelled c n (rng k))).
Proof.
  intros Hrun Hfin Hcfg Hn Heq. apply cohort_cell_run; try done.
  - unfold target_frame. by rewrite decide_True.
  - apply nrows_labelled.
Qed.

Lemma bind_run {A B} (m : prog A) (f : A → prog B) (k k' : kernel) (a : A) :
  m k = (Ok a, k') → (m ≫= f) k = f a k'.
Proof. intros Hm. unfold mbind, prog_bind, bind. by rewrite Hm. Qed.

Lemma load_run (x : string) (k : kernel) (v : pyval) :
  ns k !! x = Some v → load x k = (Ok v, k).
Proof. intros Hx. unfold load. by rewrite Hx. Qed.

Lemma frame_of_Some x (k : kernel) f :
  frame_of x k = Some f → ns k !! x = Some (PFrame f).
Proof.
  unfold frame_of. intros Hx.
  destruct (ns k !! x) as [[]|]; try discriminate Hx. by simplify_eq.
Qed.

Lemma cell_data_preparation_run (k : kernel) (f1 f2 f3 f4 f5 : DataFrame) :
  frame_of "df_1_5" k = Some f1 → frame_of "df_6_25" k = Some f2 →
  frame_of "df_26_100" k = Some f3 → frame_of "df_101_500" k = Some f4 →
  frame_of "df_501_" k = Some f5 →
  cell_data_preparation k =
  (Ok tt, {| ns := <["df" := PFrame (stacked [f1; f2; f3; f4; f5])]> (ns k);
             rng := rng k; warned := warned k |}).
Proof.
  intros H1%frame_of_Some H2%frame_of_Some H3%frame_of_Some H4%frame_of_Some
         H5%frame_of_Some.
  unfold cell_data_preparation.
  rewrite (bind_run _ _ _ _ _ (load_run _ _ _ H1)).
  rewrite (bind_run _ _ _ _ _ (load_run _ _ _ H2)).
  rewrite (bind_run _ _ _ _ _ (load_run _ _ _ H3)).
  rewrite (bind_run _ _ _ _ _ (load_run _ _ _ H4)).
  rewrite (bind_run _ _ _ _ _ (load_run _ _ _ H5)).
  reflexivity.
Qed.

Lemma frame_of_lookup x (k : kernel) f :
  ns k !! x = Some (PFrame f) → frame_of x k = Some f.
Proof. intros Hx. unfold frame_of. by rewrite Hx. Qed.


Lemma run_cells_app (cs1 cs2 : list (prog unit)) (k k1 : kernel) :
  run_cells cs1 k = (Ok tt, k1) → run_cells (cs1 ++ cs2) k = run_cells cs2 k1.
Proof.
  revert k. induction cs1 as [|c cs1 IH]; intros k; simpl.
  - by intros [= ->].
  - unfold mbind, prog_bind, bind. destruct (c k) as [[[]|e] k']; [apply IH | done].
Qed.

Lemma run_cells_app_raise (cs1 cs2 : list (prog unit)) (k k1 : kernel) e :
  run_cells cs1 k = (Raise e, k1) → run_cells (cs1 ++ cs2) k = (Raise e, k1).
Proof.
  revert k. induction cs1 as [|c cs1 IH]; intros k; simpl.
  - done.
  - unfold mbind, prog_bind, bind. destruct (c k) as [[[]|e'] k']; [apply IH | done].
Qed.

(** The first four cells (the set-up and the micro, small and medium firms)
    run to their end on any kernel, and rebind only their own names. *)
Lemma run_until_medium (k : kernel) :
  ∃ k3, run_cells (take 4 notebook) k = (Ok tt, k3) ∧
        configured 1000 k3 ∧
        frame_of "df_1_5" k3 = Some (df_1_5 (rng k)) ∧
        frame_of "df_6_25" k3 = Some (df_6_25 (rng k)) ∧
        frame_of "df_26_100" k3 = Some (df_26_100 (rng k)) ∧
        rng k3 = generator_after [micro_firms; small_firms; medium_firms] (rng k) ∧
        (∀ x, x ∉ ["num_samples"; "mu"; "names"; "r";
                   "df_1_5"; "df_6_25"; "df_26_100"] →
              ns k3 !! x = ns k !! x).
Proof.
  set (k0 := after_setup k).
  set (k1 := after_cell micro_firms 1000 k0 (labelled micro_firms 1000 (rng k0))).
  set (k2 := after_cell small_firms 1000 k1 (labelled small_firms 1000 (rng k1))).
  set (k3 := after_cell medium_firms 1000 k2 (labelled medium_firms 1000 (rng k2))).
  assert (configured 1000 k0) as C0 by apply configured_after_setup.
  assert (configured 1000 k1) as C1
    by (apply configured_after_cell; [apply runnable_cohort; cohort_in | done]).
  assert (configured 1000 k2) as C2
    by (apply configured_after_cell; [apply runnable_cohort; cohort_in | done]).
  exists k3. split_and!.
  - change (take 4 notebook) with
      [cell_setup; cohort_cell micro_firms; cohort_cell small_firms;
       cohort_cell medium_firms].
    rewrite (run_cells_cons_ok _ _ _ _ (cell_setup_run k)). fold k0.
    rewrite (run_cells_cons_ok _ _ k0 k1)
      by (apply own_cell_run;
          [apply runnable_cohort; cohort_in | apply finite_cohort; cohort_in
          | done | lia | done]).
    rewrite (run_cells_cons_ok _ _ k1 k2)
      by (apply own_cell_run;
          [apply runnable_cohort; cohort_in | apply finite_cohort; cohort_in
          | done | lia | done]).
    rewrite (run_cells_cons_ok _ _ k2 k3)
      by (apply own_cell_run;
          [apply runnable_cohort; cohort_in | apply finite_cohort; cohort_in
          | done | lia | done]).
    reflexivity.
  - apply configured_after_cell; [apply runnable_cohort; cohort_in | done].
  - apply frame_of_lookup. unfold k3, k2.
    rewrite !lookup_after_cell_other by done.
    apply (lookup_after_cell_target micro_firms).
  - apply frame_of_lookup. unfold k3.
    rewrite !lookup_after_cell_other by done.
    apply (lookup_after_cell_target small_firms).
  - apply frame_of_lookup. apply (lookup_after_cell_target medium_firms).
  - reflexivity.
  - intros x Hx. rewrite !not_elem_of_cons in Hx.
    destruct Hx as (? & ? & ? & ? & ? & ? & ? & _).
    unfold k3, k2, k1. rewrite !lookup_after_cell_other by done.
    apply lookup_after_setup_other.
    rewrite !not_elem_of_cons. repeat split; try done. apply not_elem_of_nil.
Qed.

(** The frame the firm sizes of the large-firms cell are set in, when
    [df_501_] is bound to [f0]: [f0] itself when it has 1000 rows, [f0] with
    the row labels 0 ... 999 when it has none. *)
Lemma large_firms_cell_run (k3 : kernel) (f0 : DataFrame) :
  configured 1000 k3 → frame_of "df_501_" k3 = Some f0 →
  nrows f0 = 1000%nat ∨ nrows f0 = 0%nat →
  cohort_cell large_firms k3 =
  (Ok tt, after_cell large_firms 1000 k3
            (if decide (nrows f0 = 0%nat) then reindexed 1000 f0 else f0)).
Proof.
  intros C3 Hf3 [Hrows|Hrows].
  - rewrite decide_False by lia.
    apply cohort_cell_run;
      [apply runnable_cohort; cohort_in | apply finite_cohort; cohort_in
      | done | lia | exact Hf3 | done].
  - rewrite decide_True by done.
    apply (cohort_cell_expands large_firms 1000 k3 f0);
      [apply runnable_cohort; cohort_in | apply finite_cohort; cohort_in
      | done | lia | exact Hf3 | done].
Qed.

(** From a kernel where [df_501_] is bound to a frame of 1000 rows, or of no
    row, the large-firms cell runs to its end as well: its own frame stays
    without firm sizes, which go to the frame [df_501_] was bound to. *)
Lemma run_until_large_from (k : kernel) (f0 : DataFrame) :
  frame_of "df_501_" k = Some f0 → nrows f0 = 1000%nat ∨ nrows f0 = 0%nat →
  ∃ k4, run_cells (take 5 notebook) k = (Ok tt, k4) ∧
        configured 1000 k4 ∧
        frame_of "df_1_5" k4 = Some (df_1_5 (rng k)) ∧
        frame_of "df_6_25" k4 = Some (df_6_25 (rng k)) ∧
        frame_of "df_26_100" k4 = Some (df_26_100 (rng k)) ∧
        frame_of "df_101_500" k4 = Some (df_101_500 (rng k)) ∧
        frame_of "df_501_" k4 =
          Some (with_sizes large_firms 1000
                  (generator_after [micro_firms; small_firms; medium_firms] (rng k))
                  (if decide (nrows f0 = 0%nat) then reindexed 1000 f0 else f0)) ∧
        rng k4 = generator_after
                   [micro_firms; small_firms; medium_firms; large_firms] (rng k).
Proof.
  intros Hf0 Hrows.
  destruct (run_until_medium k) as (k3 & Hrun & C3 & H1 & H2 & H3 & Hg & Hother).
  assert (frame_of "df_501_" k3 = Some f0) as Hf3.
  { unfold frame_of. rewrite Hother; [exact Hf0|].
    rewrite !not_elem_of_cons. repeat split; try done. apply not_elem_of_nil. }
  eexists. split_and!.
  - change (take 5 notebook) with (take 4 notebook ++ [cohort_cell large_firms]).
    rewrite (run_cells_app _ _ _ _ Hrun).
    erewrite run_cells_cons_ok; [reflexivity|].
    by apply large_firms_cell_run.
  - apply configured_after_cell; [apply runnable_cohort; cohort_in | done].
  - apply frame_of_lookup. rewrite lookup_after_cell_other by done.
    by apply frame_of_Some.
  - apply frame_of_lookup. rewrite lookup_after_cell_other by done.
    by apply frame_of_Some.
  - apply frame_of_lookup. rewrite lookup_after_cell_other by done.
    by apply frame_of_Some.
  - apply frame_of_lookup. unfold df_101_500. rewrite <- Hg.
    by apply (lookup_after_cell_frame large_firms).
  - apply frame_of_lookup. rewrite <- Hg.
    apply (lookup_after_cell_target large_firms).
  - cbn [rng after_cell]. by rewrite Hg.
Qed.

Lemma run_until_large (k : kernel) (f0 : DataFrame) :
  frame_of "df_501_" k = Some f0 → nrows f0 = 1000%nat →
  ∃ k4, run_cells (take 5 notebook) k = (Ok tt, k4) ∧
        configured 1000 k4 ∧
        frame_of "df_1_5" k4 = Some (df_1_5 (rng k)) ∧
        frame_of "df_6_25" k4 = Some (df_6_25 (rng k)) ∧
        frame_of "df_26_100" k4 = Some (df_26_100 (rng k)) ∧
        frame_of "df_101_500" k4 = Some (df_101_500 (rng k)) ∧
        frame_of "df_501_" k4 =
          Some (with_sizes large_firms 1000
                  (generator_after [micro_firms; small_firms; medium_firms] (rng k))
                  f0) ∧
        rng k4 = generator_after
                   [micro_firms; small_firms; medium_firms; large_firms] (rng k).
Proof.
  intros Hf0 Hrows.
  destruct (run_until_large_from k f0 Hf0 (or_introl Hrows)) as (k4 & H).
  exists k4. by rewrite decide_False in H by lia.
Qed.

(** The notebook, run from a kernel where [df_501_] is already bound to a
    frame of 1000 rows, or of no row, runs to its end and leaves the frames
    [df_1_5 g] ... [df g], [g] being the generator state at the start. *)
Lemma notebook_run_from (k : kernel) (f0 : DataFrame) :
  frame_of "df_501_" k = Some f0 → nrows f0 = 1000%nat ∨ nrows f0 = 0%nat →
  ∃ k', run_cells notebook k = (Ok tt, k') ∧
        frame_of "df_1_5" k' = Some (df_1_5 (rng k)) ∧
        frame_of "df_6_25" k' = Some (df_6_25 (rng k)) ∧
        frame_of "df_26_100" k' = Some (df_26_100 (rng k)) ∧
        frame_of "df_101_500" k' = Some (df_101_500 (rng k)) ∧
        frame_of "df_501_" k' = Some (df_501_ (rng k)) ∧
        frame_of "df" k' = Some (df (rng k)) ∧
        rng k' = generator_after cohorts (rng k).
Proof.
  intros Hf0 Hrows.
  destruct (run_until_large_from k f0 Hf0 Hrows)
    as (k4 & Hrun & C4 & H1 & H2 & H3 & H4 & _ & Hg).
  set (k5 := after_cell very_large_firms 1000 k4
               (labelled very_large_firms 1000 (rng k4))).
  assert (frame_of "df_1_5" k5 = Some (df_1_5 (rng k))) as H1'.
  { apply frame_of_lookup. unfold k5. rewrite lookup_after_cell_other by done.
    by apply frame_of_Some. }
  assert (frame_of "df_6_25" k5 = Some (df_6_25 (rng k))) as H2'.
  { apply frame_of_lookup. unfold k5. rewrite lookup_after_cell_other by done.
    by apply frame_of_Some. }
  assert (frame_of "df_26_100" k5 = Some (df_26_100 (rng k))) as H3'.
  { apply frame_of_lookup. unfold k5. rewrite lookup_after_cell_other by done.
    by apply frame_of_Some. }
  assert (frame_of "df_101_500" k5 = Some (df_101_500 (rng k))) as H4'.
  { apply frame_of_lookup. unfold k5. rewrite lookup_after_cell_other by done.
    by apply frame_of_Some. }
  assert (frame_of "df_501_" k5 = Some (df_501_ (rng k))) as H5'.
  { apply frame_of_lookup. unfold k5, df_501_, own_frame. rewrite <- Hg.
    apply (lookup_after_cell_target very_large_firms). }
  eexists. split; [|split_and!].
  - change notebook with
      (take 5 notebook ++ [cohort_cell very_large_firms; cell_data_preparation]).
    rewrite (run_cells_app _ _ _ _ Hrun).
    rewrite (run_cells_cons_ok _ _ k4 k5)
      by (apply own_cell_run;
          [apply runnable_cohort; cohort_in | apply finite_cohort; cohort_in
          | done | lia | done]).
    erewrite run_cells_cons_ok by (by apply cell_data_preparation_run).
    reflexivity.
  - apply frame_of_lookup. cbn [ns]. rewrite lookup_insert_ne by done.
    by apply frame_of_Some.
  - apply frame_of_lookup. cbn [ns]. rewrite lookup_insert_ne by done.
    by apply frame_of_Some.
  - apply frame_of_lookup. cbn [ns]. rewrite lookup_insert_ne by done.
    by apply frame_of_Some.
  - apply frame_of_lookup. cbn [ns]. rewrite lookup_insert_ne by done.
    by apply frame_of_Some.
  - apply frame_of_lookup. cbn [ns]. rewrite lookup_insert_ne by done.
    by apply frame_of_Some.
  - apply frame_of_lookup. cbn [ns]. apply lookup_insert_eq.
  - cbn [rng]. unfold k5. cbn [rng after_cell]. by rewrite Hg.
Qed.

Lemma notebook_run (k : kernel) (f0 : DataFrame) :
  frame_of "df_501_" k = Some f0 → nrows f0 = 1000%nat →
  ∃ k', run_cells notebook k = (Ok tt, k') ∧
        frame_of "df_1_5" k' = Some (df_1_5 (rng k)) ∧
        frame_of "df_6_25" k' = Some (df_6_25 (rng k)) ∧
        frame_of "df_26_100" k' = Some (df_26_100 (rng k)) ∧
        frame_of "df_101_500" k' = Some (df_101_500 (rng k)) ∧
        frame_of "df_501_" k' = Some (df_501_ (rng k)) ∧
        frame_of "df" k' = Some (df (rng k)) ∧
        rng k' = generator_after cohorts (rng k).
Proof. intros Hf0 Hrows. apply (notebook_run_from k f0 Hf0). by left. Qed.

End cell_facts.

(** ** Facts: the frames of a run *)

Section frames_of_run.
Import Python Pandas Numeric Notebook.
Context {N : NumpyRandom}.
Local Open Scope string_scope.
Local Open Scope list_scope.
Local Open Scope Z_scope.

Lemma fields_labelled c n g : fields (labelled c n g) = names4 ++ ["cohort"].
Proof. reflexivity. Qed.

Lemma fields_own_frame c g :
  fields (own_frame c g) = names4 ++ ["cohort"; "firm_size"].
Proof. reflexivity. Qed.

Lemma column_firm_size_with_sizes c n g f :
  column "firm_size" (with_sizes c n g f) = Some (map Int (sizes c n g)).
Proof. apply column_set_column_eq. Qed.

Lemma column_firm_size_labelled c n g : column "firm_size" (labelled c n g) = None.
Proof. reflexivity. Qed.

Lemma column_cohort_labelled c n g :
  column "cohort" (labelled c n g) =
  Some (replicate (Z.to_nat n) (Str (src_label c))).
Proof.
  unfold labelled. cbv zeta. rewrite column_set_column_eq.
  by rewrite nrows_frame_of_vectors, length_vectors.
Qed.

Lemma column_vector_labelled c n g (j : nat) name :
  names4 !! j = Some name →
  column name (labelled c n g) =
  Some (map (fun row => Num (default nan (row !! j))) (vectors c n g)).
Proof.
  intros Hj. unfold labelled. cbv zeta.
  destruct j as [|[|[|[|j]]]]; simpl in Hj; simplify_eq; reflexivity.
Qed.

Lemma wf_labelled c n g : wf_frame (labelled c n g).
Proof.
  unfold labelled. cbv zeta. apply wf_set_column; [|apply length_replicate].
  split.
  - unfold fields, frame_of_vectors. simpl.
    repeat (apply NoDup_cons; split; [rewrite ?elem_of_cons, elem_of_nil; intuition discriminate|]).
    apply NoDup_nil_2.
  - unfold frame_of_vectors, nrows. simpl.
    repeat constructor; simpl; rewrite length_map, length_seqZ; lia.
Qed.

Lemma wf_own_frame c g : wf_frame (own_frame c g).
Proof.
  apply wf_set_column; [apply wf_labelled|].
  by rewrite length_map, length_sizes, nrows_labelled.
Qed.

Lemma sizes_in_range c n g :
  src_low c < src_high c →
  Forall (fun z => src_low c ≤ z < src_high c) (sizes c n g).
Proof. apply randint_draw_range. Qed.

Lemma nrows_own_frame c g : nrows (own_frame c g) = 1000%nat.
Proof. unfold own_frame, with_sizes. by rewrite nrows_set_column, nrows_labelled. Qed.

Lemma wf_run_frames g :
  Forall wf_frame [df_1_5 g; df_6_25 g; df_26_100 g; df_101_500 g; df_501_ g].
Proof.
  repeat apply Forall_cons_2;
    [apply wf_own_frame | apply wf_own_frame | apply wf_own_frame
    | apply wf_labelled | apply wf_own_frame | apply Forall_nil_2].
Qed.

Lemma union_fields_run g :
  union_fields [df_1_5 g; df_6_25 g; df_26_100 g; df_101_500 g; df_501_ g] =
  names4 ++ ["cohort"; "firm_size"].
Proof. reflexivity. Qed.

Lemma nrows_df g : nrows (df g) = 5000%nat.
Proof.
  unfold df. rewrite nrows_stacked. simpl.
  unfold df_1_5, df_6_25, df_26_100, df_101_500, df_501_.
  by rewrite !nrows_own_frame, nrows_labelled.
Qed.


Lemma non_null_Int (l : list Z) :
  filter (fun x => is_null x = false) (map Int l) = map Int l.
Proof.
  induction l as [|z l IH]; simpl; [done|].
  rewrite filter_cons_True by done. by rewrite IH.
Qed.

Lemma non_null_NaN (n : nat) :
  filter (fun x => is_null x = false) (replicate n NaN) = [].
Proof.
  induction n as [|n IH]; simpl; [done|].
  rewrite filter_cons_False; [done|]. vm_compute. discriminate.
Qed.

(** The firm-size column of the assembled frame: the sizes of the micro,
    small and medium cells, 1000 nan for the frame of the large-firms cell,
    the sizes of the very-large-firms cell. *)
Lemma column_firm_size_df g :
  column "firm_size" (df g) =
  Some (map Int (sizes micro_firms 1000 g) ++
        map Int (sizes small_firms 1000 (generator_after [micro_firms] g)) ++
        map Int (sizes medium_firms 1000
                   (generator_after [micro_firms; small_firms] g)) ++
        replicate 1000 NaN ++
        map Int (sizes very_large_firms 1000
                   (generator_after
                      [micro_firms; small_firms; medium_firms; large_firms] g))).
Proof.
  unfold df. rewrite column_stacked, union_fields_run.
  rewrite decide_True by (cbn; rewrite !elem_of_cons; tauto).
  f_equal. cbn [flat_map].
  unfold df_1_5, df_6_25, df_26_100, df_501_, own_frame.
  rewrite !(column_or_nan_present _ _ _ (column_firm_size_with_sizes _ _ _ _)).
  rewrite (column_or_nan_missing "firm_size" (df_101_500 g)).
  - unfold df_101_500. rewrite nrows_labelled. by rewrite app_nil_r.
  - unfold df_101_500. rewrite fields_labelled. cbn.
    rewrite !not_elem_of_cons. repeat split; try done. apply not_elem_of_nil.
Qed.

(** The cohort column of the assembled frame. *)
Lemma column_cohort_df g :
  column "cohort" (df g) =
  Some (replicate 1000 (Str "micro") ++ replicate 1000 (Str "large") ++
        replicate 1000 (Str "medium") ++ replicate 1000 (Str "large") ++
        replicate 1000 (Str "very large")).
Proof.
  unfold df. rewrite column_stacked, union_fields_run.
  rewrite decide_True by (cbn; rewrite !elem_of_cons; tauto).
  f_equal. cbn [flat_map].
  assert (∀ c g', column "cohort" (own_frame c g') =
                  Some (replicate 1000 (Str (src_label c)))) as Hown.
  { intros c g'. unfold own_frame, with_sizes.
    rewrite column_set_column_ne by done. apply column_cohort_labelled. }
  unfold df_1_5, df_6_25, df_26_100, df_101_500, df_501_.
  rewrite !(column_or_nan_present _ _ _ (Hown _ _)).
  rewrite (column_or_nan_present _ _ _ (column_cohort_labelled _ _ _)).
  by rewrite app_nil_r.
Qed.

Lemma non_null_firm_size_df g : non_null_count "firm_size" (df g) = 4000%nat.
Proof.
  unfold non_null_count. rewrite column_firm_size_df. cbn [from_option]. unfold Datatypes.id.
  rewrite !filter_app, !non_null_Int, non_null_NaN.
  rewrite !length_app, !length_map, !length_sizes. reflexivity.
Qed.

(** Where the observations of each frame sit in the assembled frame. *)
Lemma cell_at_df g c (i : nat) :
  c ∈ names4 ++ ["cohort"; "firm_size"] → (i < 1000)%nat →
  cell_at c i (df g) = column_or_nan c (df_1_5 g) !! i ∧
  cell_at c (1000 + i) (df g) = column_or_nan c (df_6_25 g) !! i ∧
  cell_at c (2000 + i) (df g) = column_or_nan c (df_26_100 g) !! i ∧
  cell_at c (3000 + i) (df g) = column_or_nan c (df_101_500 g) !! i ∧
  cell_at c (4000 + i) (df g) = column_or_nan c (df_501_ g) !! i.
Proof.
  intros Hc Hi. pose proof (wf_run_frames g) as Hwf.
  rewrite <- (union_fields_run g) in Hc.
  assert (nrows (df_1_5 g) = 1000%nat) as N1 by apply nrows_own_frame.
  assert (nrows (df_6_25 g) = 1000%nat) as N2 by apply nrows_own_frame.
  assert (nrows (df_26_100 g) = 1000%nat) as N3 by apply nrows_own_frame.
  assert (nrows (df_101_500 g) = 1000%nat) as N4 by apply nrows_labelled.
  assert (nrows (df_501_ g) = 1000%nat) as N5 by apply nrows_own_frame.
  unfold df. split_and!.
  - rewrite <- (cell_at_stacked c [] (df_1_5 g) _ i Hwf Hc) by lia. done.
  - rewrite <- (cell_at_stacked c [df_1_5 g] (df_6_25 g) _ i Hwf Hc) by lia.
    cbn [sum_list_with]. by rewrite N1.
  - rewrite <- (cell_at_stacked c [df_1_5 g; df_6_25 g] (df_26_100 g) _ i Hwf Hc)
      by lia.
    cbn [sum_list_with]. by rewrite N1, N2.
  - rewrite <- (cell_at_stacked c [df_1_5 g; df_6_25 g; df_26_100 g]
                  (df_101_500 g) _ i Hwf Hc) by lia.
    cbn [sum_list_with]. by rewrite N1, N2, N3.
  - rewrite <- (cell_at_stacked c [df_1_5 g; df_6_25 g; df_26_100 g; df_101_500 g]
                  (df_501_ g) [] i Hwf Hc) by lia.
    cbn [sum_list_with]. by rewrite N1, N2, N3, N4.
Qed.

End frames_of_run.

(** ** Facts: what a run leaves behind *)

Section run_claims.
Import Python Pandas Numeric Notebook.
Context {N : NumpyRandom}.
Local Open Scope string_scope.
Local Open Scope list_scope.
Local Open Scope Z_scope.

Lemma column_or_nan_lookup c f (i : nat) :
  c ∈ fields f → column_or_nan c f !! i = cell_at c i f.
Proof.
  intros [vs Hvs]%lookup_column_is_Some. fold (column c f) in Hvs.
  unfold cell_at. by rewrite (column_or_nan_present _ _ _ Hvs), Hvs.
Qed.

Lemma firm_size_of_own_frame c g (i : nat) :
  src_low c < src_high c → (i < 1000)%nat →
  ∃ z, column_or_nan "firm_size" (own_frame c g) !! i = Some (Int z) ∧
       src_low c ≤ z < src_high c.
Proof.
  intros Hlt Hi. unfold own_frame.
  rewrite (column_or_nan_present _ _ _ (column_firm_size_with_sizes _ _ _ _)).
  destruct (lookup_lt_is_Some_2 (sizes c 1000 g) i) as [z Hz].
  { rewrite length_sizes. lia. }
  exists z. split.
  - by rewrite list_lookup_fmap, Hz.
  - apply (proj1 (Forall_lookup _ _) (sizes_in_range c 1000 g Hlt) i z Hz).
Qed.

(** C10.  Run from a kernel in which [df_501_] is bound to a frame of 1000
    rows (a fresh kernel stops at the large-firms cell), the notebook runs to
    its end.  The large-firms cell writes its 1000 firm sizes, all of
    [101, 500), to the frame bound to [df_501_] and none to [df_101_500]; the
    very-large-firms cell then rebinds [df_501_].  In the assembled frame of
    5000 rows exactly 4000 have a firm size: the 1000 observations of the
    101-500 cohort (rows 3000 to 3999, otherwise unchanged) have nan there,
    and the observations of the very large cohort (rows 4000 to 4999) have
    sizes of [501, 2000). *)
Theorem large_firms_sizes_misassigned (k : kernel) (f0 : DataFrame) :
  frame_of "df_501_" k = Some f0 → nrows f0 = 1000%nat →
  ∃ k4 f4 zs k' d,
    run_cells (take 5 notebook) k = (Ok tt, k4) ∧
    frame_of "df_101_500" k4 = Some (df_101_500 (rng k)) ∧
    column "firm_size" (df_101_500 (rng k)) = None ∧
    frame_of "df_501_" k4 = Some f4 ∧
    column "firm_size" f4 = Some (map Int zs) ∧
    length zs = 1000%nat ∧ Forall (fun z => 101 ≤ z < 500) zs ∧
    run_cells notebook k = (Ok tt, k') ∧
    frame_of "df" k' = Some d ∧
    nrows d = 5000%nat ∧
    non_null_count "firm_size" d = 4000%nat ∧
    (∀ i : nat, (i < 1000)%nat →
       cell_at "firm_size" (3000 + i) d = Some NaN ∧
       (∀ c, c ∈ names4 ++ ["cohort"] →
             cell_at c (3000 + i) d = cell_at c i (df_101_500 (rng k))) ∧
       ∃ z, cell_at "firm_size" (4000 + i) d = Some (Int z) ∧ 501 ≤ z < 2000).
Proof.
  intros Hf0 Hrows.
  destruct (run_until_large k f0 Hf0 Hrows)
    as (k4 & Hrun4 & _ & _ & _ & _ & H4 & H5 & _).
  destruct (notebook_run k f0 Hf0 Hrows)
    as (k' & Hrun & _ & _ & _ & _ & _ & Hdf & _).
  set (g := rng k) in *.
  set (g3 := generator_after [micro_firms; small_firms; medium_firms] g) in *.
  exists k4, (with_sizes large_firms 1000 g3 f0), (sizes large_firms 1000 g3),
         k', (df g).
  split_and!; try done.
  - apply column_firm_size_with_sizes.
  - apply length_sizes.
  - by apply (sizes_in_range large_firms).
  - apply nrows_df.
  - apply non_null_firm_size_df.
  - intros i Hi. split_and!.
    + destruct (cell_at_df g "firm_size" i) as (_ & _ & _ & -> & _);
        [cbn; rewrite !elem_of_cons; tauto | done |].
      rewrite column_or_nan_missing.
      * apply lookup_replicate_2. unfold df_101_500. rewrite nrows_labelled. lia.
      * unfold df_101_500. rewrite fields_labelled. cbn.
        rewrite !not_elem_of_cons. repeat split; try done. apply not_elem_of_nil.
    + intros c Hc.
      destruct (cell_at_df g c i) as (_ & _ & _ & -> & _); [|done|].
      { cbn in Hc |- *. rewrite !elem_of_cons, elem_of_nil in Hc.
        rewrite !elem_of_cons. tauto. }
      apply column_or_nan_lookup. unfold df_101_500. by rewrite fields_labelled.
    + destruct (cell_at_df g "firm_size" i) as (_ & _ & _ & _ & ->);
        [cbn; rewrite !elem_of_cons; tauto | done |].
      by apply (firm_size_of_own_frame very_large_firms).
Qed.


Lemma vector_of_labelled c n g (j i : nat) name :
  names4 !! j = Some name →
  column_or_nan name (labelled c n g) !! i =
  (fun row => Num (default nan (row !! j))) <$> vectors c n g !! i.
Proof.
  intros Hj.
  rewrite (column_or_nan_present _ _ _ (column_vector_labelled c n g j name Hj)).
  apply list_lookup_fmap.
Qed.

Lemma vector_of_own_frame c g (j i : nat) name :
  names4 !! j = Some name →
  column_or_nan name (own_frame c g) !! i =
  (fun row => Num (default nan (row !! j))) <$> vectors c 1000 g !! i.
Proof.
  intros Hj. rewrite <- (vector_of_labelled c 1000 g j i name Hj).
  unfold column_or_nan, own_frame, with_sizes.
  rewrite column_set_column_ne; [by rewrite nrows_set_column|].
  intros <-. by destruct j as [|[|[|[|j]]]].
Qed.

Lemma names4_field (j : nat) name :
  names4 !! j = Some name → name ∈ names4 ++ ["cohort"; "firm_size"].
Proof.
  intros Hj. apply elem_of_app. left. by eapply list_elem_of_lookup_2.
Qed.

(** C9.  In the assembled frame (of a run from a kernel in which [df_501_] is
    bound to a frame of 1000 rows) the label ['large'] is on two cohorts: on
    rows 1000 to 1999, whose vectors were drawn with the matrix of the
    small-firms cell (entry -0.30) and whose firm sizes lie in [6, 25), and on
    rows 3000 to 3999, whose vectors were drawn with the matrix of the
    large-firms cell (entry -0.20).  No row has the label ['small']. *)
Theorem label_large_on_two_cohorts (k : kernel) (f0 : DataFrame) :
  frame_of "df_501_" k = Some f0 → nrows f0 = 1000%nat →
  ∃ k' d,
    run_cells notebook k = (Ok tt, k') ∧
    frame_of "df" k' = Some d ∧
    entry r_6_25 0 1 = Some (-0.30)%float ∧
    entry r_101_500 0 1 = Some (-0.20)%float ∧
    (∀ i : nat, cell_at "cohort" i d ≠ Some (Str "small")) ∧
    (∀ i : nat, (i < 1000)%nat →
       cell_at "cohort" (1000 + i) d = Some (Str "large") ∧
       cell_at "cohort" (3000 + i) d = Some (Str "large") ∧
       (∃ z, cell_at "firm_size" (1000 + i) d = Some (Int z) ∧ 6 ≤ z < 25) ∧
       (∀ (j : nat) name, names4 !! j = Some name →
          cell_at name (1000 + i) d =
            (fun row => Num (default nan (row !! j))) <$>
            (mvn_draw (np_repeat 0 4) r_6_25 1000
               (generator_after [micro_firms] (rng k))).1 !! i ∧
          cell_at name (3000 + i) d =
            (fun row => Num (default nan (row !! j))) <$>
            (mvn_draw (np_repeat 0 4) r_101_500 1000
               (generator_after [micro_firms; small_firms; medium_firms]
                  (rng k))).1 !! i)).
Proof.
  intros Hf0 Hrows.
  destruct (notebook_run k f0 Hf0 Hrows)
    as (k' & Hrun & _ & _ & _ & _ & _ & Hdf & _).
  set (g := rng k) in *.
  exists k', (df g).
  split_and!; [exact Hrun | exact Hdf | reflexivity | reflexivity | |].
  - intros i. unfold cell_at. rewrite column_cohort_df. cbn [mbind option_bind].
    intros Hi%list_elem_of_lookup_2.
    rewrite !elem_of_app in Hi.
    destruct Hi as [Hi|[Hi|[Hi|[Hi|Hi]]]];
      apply elem_of_replicate_inv in Hi; discriminate Hi.
  - intros i Hi. split_and!.
    + destruct (cell_at_df g "cohort" i) as (_ & -> & _);
        [cbn; rewrite !elem_of_cons; tauto | done |].
      assert (column "cohort" (df_6_25 g) = Some (replicate 1000 (Str "large")))
        as Hc.
      { unfold df_6_25, own_frame, with_sizes.
        rewrite column_set_column_ne by done. apply column_cohort_labelled. }
      rewrite (column_or_nan_present _ _ _ Hc). by apply lookup_replicate_2.
    + destruct (cell_at_df g "cohort" i) as (_ & _ & _ & -> & _);
        [cbn; rewrite !elem_of_cons; tauto | done |].
      unfold df_101_500.
      rewrite (column_or_nan_present _ _ _ (column_cohort_labelled _ _ _)).
      by apply lookup_replicate_2.
    + destruct (cell_at_df g "firm_size" i) as (_ & -> & _);
        [cbn; rewrite !elem_of_cons; tauto | done |].
      by apply (firm_size_of_own_frame small_firms).
    + intros j name Hj.
      destruct (cell_at_df g name i (names4_field j name Hj) Hi)
        as (_ & -> & _ & -> & _).
      split.
      * apply (vector_of_own_frame small_firms
                 (generator_after [micro_firms] g) j i name Hj).
      * apply (vector_of_labelled large_firms 1000
                 (generator_after [micro_firms; small_firms; medium_firms] g)
                 j i name Hj).
Qed.


(** C1, on the code: in a fresh kernel, the cells run in document order, the
    large-firms cell draws its 1000 firm sizes and then raises NameError on
    [df_501_], the name it writes them to.  The run stops there; the 1000
    observations of the 101-500 cohort are left without any firm size, and no
    frame is assembled. *)
Theorem fresh_run_stops_at_large_firms (g : generator) :
  ∃ k',
    run_cells notebook (fresh g) = (Raise (NameError "df_501_"), k') ∧
    frame_of "df_101_500" k' = Some (df_101_500 g) ∧
    nrows (df_101_500 g) = 1000%nat ∧
    column "firm_size" (df_101_500 g) = None ∧
    (∀ i : nat, cell_at "firm_size" i (df_101_500 g) = None) ∧
    rng k' = generator_after
               [micro_firms; small_firms; medium_firms; large_firms] g ∧
    ns k' !! "df_501_" = None ∧
    ns k' !! "df" = None.
Proof.
  destruct (run_until_medium (fresh g))
    as (k3 & Hrun & C3 & _ & _ & _ & Hg & Hother).
  cbn [rng fresh] in Hg.
  assert (∀ x, x ∉ ["num_samples"; "mu"; "names"; "r";
                    "df_1_5"; "df_6_25"; "df_26_100"] →
               ns k3 !! x = None) as Hfree.
  { intros x Hx. rewrite (Hother x Hx). apply lookup_empty. }
  assert (ns k3 !! "df_501_" = None) as H501.
  { apply Hfree. rewrite !not_elem_of_cons. repeat split; try done.
    apply not_elem_of_nil. }
  assert (ns k3 !! "df" = None) as Hdf.
  { apply Hfree. rewrite !not_elem_of_cons. repeat split; try done.
    apply not_elem_of_nil. }
  exists (before_sizes_assigned large_firms 1000 k3). split_and!.
  - change notebook with
      (take 4 notebook ++
       [cohort_cell large_firms; cohort_cell very_large_firms;
        cell_data_preparation]).
    rewrite (run_cells_app _ _ _ _ Hrun).
    apply run_cells_cons_raise.
    apply (cohort_cell_unbound_target large_firms);
      [apply runnable_cohort; cohort_in | apply finite_cohort; cohort_in
      | done | lia | done | done].
  - apply frame_of_lookup. unfold before_sizes_assigned. cbn [ns].
    unfold df_101_500. rewrite <- Hg. apply (lookup_insert_eq (M := gmap string)).
  - apply nrows_labelled.
  - reflexivity.
  - intros i. reflexivity.
  - cbn [rng before_sizes_assigned]. by rewrite Hg.
  - by rewrite lookup_before_sizes_assigned_other.
  - by rewrite lookup_before_sizes_assigned_other.
Qed.

(** A cohort cell run after the set-up, the frame it writes the firm sizes
    to (when that is not its own) being there with one row per sample, runs
    to its end. *)
Lemma cohort_cell_runs (c : cohort_source) (n : Z) (k : kernel) :
  runnable c → all_finite (src_matrix c) = true → configured n k → 0 < n →
  (src_target c ≠ src_frame c →
   ∃ f, frame_of (src_target c) k = Some f ∧ nrows f = Z.to_nat n) →
  ∃ f, cohort_cell c k = (Ok tt, after_cell c n k f) ∧
       frame_of (src_frame c) (after_cell c n k f) =
         Some (if decide (src_target c = src_frame c)
               then with_sizes c n (rng k) (labelled c n (rng k))
               else labelled c n (rng k)).
Proof.
  intros Hrun Hfin Hcfg Hn Htarget.
  destruct (decide (src_target c = src_frame c)) as [Heq|Hne].
  - exists (labelled c n (rng k)). split.
    + by apply own_cell_run.
    + apply frame_of_lookup. rewrite <- Heq. apply lookup_after_cell_target.
  - destruct (Htarget Hne) as (f & Hf & Hrows). exists f. split.
    + apply cohort_cell_run; try done. unfold target_frame. by rewrite decide_False.
    + apply frame_of_lookup. by apply lookup_after_cell_frame.
Qed.

Lemma runnable_with_matrix (r : matrix) (c : cohort_source) :
  square 4 r → runnable c → runnable (with_matrix r c).
Proof. intros Hr (_ & H). split; [exact Hr | exact H]. Qed.

(** C4, on the code.  Each of the five cohort cells, run after the set-up
    cell, asks numpy for exactly 1000 vectors of [multivariate_normal] with
    mean [0, 0, 0, 0] and the matrix of the cell as covariance, and then for
    exactly 1000 integers of [randint] over [low, high); the vectors become
    the four numeric columns of the frame of the cell.  The micro, small,
    medium and very large cells run to their end and attach the integers to
    their observations as the column [firm_size].  The large-firms cell does
    not: however its last statement ends, on whatever kernel, its frame is
    left without any [firm_size] column, the 1000 integers being drawn all
    the same. *)
Theorem large_firms_cell_attaches_no_sizes (c : cohort_source) (k : kernel) :
  c ∈ cohorts → configured 1000 k →
  let drawn := mvn_draw (np_repeat 0 4) (src_matrix c) 1000 (rng k) in
  let ints := randint_draw (src_low c) (src_high c) 1000 drawn.2 in
  ∃ own,
    np_repeat 0 4 = [0; 0; 0; 0] ∧
    length drawn.1 = 1000%nat ∧
    length ints.1 = 1000%nat ∧
    Forall (fun z => src_low c ≤ z < src_high c) ints.1 ∧
    rng (cohort_cell c k).2 = ints.2 ∧
    frame_of (src_frame c) (cohort_cell c k).2 = Some own ∧
    nrows own = 1000%nat ∧
    (∀ (j : nat) name, names4 !! j = Some name →
       column name own =
       Some (map (fun row => Num (default nan (row !! j))) drawn.1)) ∧
    (c ≠ large_firms →
       (cohort_cell c k).1 = Ok tt ∧
       column "firm_size" own = Some (map Int ints.1)) ∧
    (c = large_firms → column "firm_size" own = None).
Proof.
  intros Hc Hcfg drawn ints.
  pose proof (runnable_cohort c Hc) as Hrun.
  pose proof (finite_cohort c Hc) as Hfin.
  assert (∀ (j : nat) name, names4 !! j = Some name →
            column name (labelled c 1000 (rng k)) =
            Some (map (fun row => Num (default nan (row !! j))) drawn.1)) as Hvec
    by apply column_vector_labelled.
  assert (src_low c < src_high c) as Hlt by (by destruct Hrun as (_ & _ & ? & _)).
  assert (src_target c = src_frame c ∨ c = large_firms) as [Heq| ->].
  { unfold cohorts in Hc. rewrite !elem_of_cons, elem_of_nil in Hc.
    destruct Hc as [->|[->|[->|[->|[->|[]]]]]]; auto. }
  - assert (c ≠ large_firms) as Hne by (by intros ->).
    rewrite (own_cell_run c 1000 k Hrun Hfin Hcfg) by (lia || done).
    exists (with_sizes c 1000 (rng k) (labelled c 1000 (rng k))). split_and!.
    + reflexivity.
    + apply mvn_draw_length.
    + apply randint_draw_length.
    + by apply randint_draw_range.
    + reflexivity.
    + apply frame_of_lookup. rewrite <- Heq. apply lookup_after_cell_target.
    + unfold with_sizes. by rewrite nrows_set_column, nrows_labelled.
    + intros j name Hj. unfold with_sizes.
      rewrite column_set_column_ne; [by apply Hvec|].
      intros <-. by destruct j as [|[|[|[|j]]]].
    + intros _. split; [reflexivity | apply column_firm_size_with_sizes].
    + done.
  - destruct (cohort_cell_other_target large_firms 1000 k Hrun Hfin Hcfg)
      as [Hown Hrng]; [lia | done |].
    exists (labelled large_firms 1000 (rng k)). split_and!.
    + reflexivity.
    + apply mvn_draw_length.
    + apply randint_draw_length.
    + by apply randint_draw_range.
    + exact Hrng.
    + apply frame_of_lookup. exact Hown.
    + apply nrows_labelled.
    + exact Hvec.
    + done.
    + intros _. reflexivity.
Qed.

(** C5, amended.  A cohort cell raises no error over the symmetry or the
    definiteness of its matrix: with any 4x4 matrix of finite entries in the
    place of its own, each of the five cells, run after the set-up cell (the
    frame it writes the firm sizes to being there with 1000 rows), returns
    its 1000 observations, and numpy only records a RuntimeWarning when the
    matrix fails its test. *)
Theorem cohort_cell_accepts_finite_matrices
    (c : cohort_source) (r : matrix) (k : kernel) :
  c ∈ cohorts → square 4 r → all_finite r = true → configured 1000 k →
  (src_target c ≠ src_frame c →
   ∃ f, frame_of (src_target c) k = Some f ∧ nrows f = 1000%nat) →
  ∃ k' own,
    cohort_cell (with_matrix r c) k = (Ok tt, k') ∧
    frame_of (src_frame c) k' = Some own ∧
    nrows own = 1000%nat ∧
    (∀ (j : nat) name, names4 !! j = Some name →
       column name own =
       Some (map (fun row => Num (default nan (row !! j)))
               (mvn_draw (np_repeat 0 4) r 1000 (rng k)).1)) ∧
    warned k' =
      warned k ++
      (if mvn_psd_check r then []
       else [RuntimeWarning "covariance is not symmetric positive-semidefinite."]).
Proof.
  intros Hc Hsq Hfin Hcfg Htarget.
  assert (runnable (with_matrix r c)) as Hrun
    by (by apply runnable_with_matrix, runnable_cohort).
  destruct (cohort_cell_runs (with_matrix r c) 1000 k Hrun Hfin Hcfg)
    as (f & Hcell & Hown); [lia | exact Htarget |].
  assert (∀ (j : nat) name, names4 !! j = Some name →
            column name (labelled (with_matrix r c) 1000 (rng k)) =
            Some (map (fun row => Num (default nan (row !! j)))
                    (mvn_draw (np_repeat 0 4) r 1000 (rng k)).1)) as Hvec
    by apply (column_vector_labelled (with_matrix r c)).
  eexists _, _. split_and!; [exact Hcell | exact Hown | | | reflexivity].
  - case_decide.
    + unfold with_sizes. by rewrite nrows_set_column, nrows_labelled.
    + apply nrows_labelled.
  - intros j name Hj. case_decide.
    + unfold with_sizes. rewrite column_set_column_ne; [by apply Hvec|].
      intros <-. by destruct j as [|[|[|[|j]]]].
    + by apply Hvec.
Qed.


End run_claims.

(** ** Facts: runs on the stand-in generator *)

Section lcg_runs.
Import Python Pandas Numeric Notebook Lcg.
Local Open Scope string_scope.
Local Open Scope list_scope.
Local Open Scope Z_scope.

Lemma configured_set_up : configured 1000 set_up.
Proof. apply configured_after_setup. Qed.

Lemma skewed_not_symmetric : ¬ symmetric skewed.
Proof.
  intros H.
  pose proof (f_equal (fun m => match m with
                               | (_ :: Some x :: _) :: _ => Prim2SF x
                               | _ => S754_nan
                               end) H) as Hx.
  vm_compute in Hx. discriminate Hx.
Qed.

Lemma indefinite_not_psd : ¬ positive_semi_definite (to_real indefinite).
Proof.
  intros Hpsd. rewrite to_real_exact in Hpsd.
  specialize (Hpsd [1; -1; 0; 0]%R eq_refl).
  let q := eval vm_compute in (map (map float_to_Q) indefinite) in
  change (map (map float_to_Q) indefinite) with q in Hpsd.
  unfold quad_form, mat_vec, dot, Q2R in Hpsd. simpl in Hpsd. lra.
Qed.

(** C5, as the code has it refuted: the micro-firms cell run with a matrix
    that is not symmetric, and with a symmetric matrix that is not positive
    semi-definite, raises nothing; it binds [df_1_5] to 1000 observations
    and leaves a RuntimeWarning. *)
Lemma invalid_matrices_are_sampled :
  ¬ symmetric skewed ∧
  ¬ positive_semi_definite (to_real indefinite) ∧
  ((cohort_cell (micro_firms_with skewed) set_up).1 = Ok tt ∧
   nrows <$> frame_of "df_1_5" (cohort_cell (micro_firms_with skewed) set_up).2 =
     Some 1000%nat ∧
   warned (cohort_cell (micro_firms_with skewed) set_up).2 =
     [RuntimeWarning "covariance is not symmetric positive-semidefinite."]) ∧
  ((cohort_cell (micro_firms_with indefinite) set_up).1 = Ok tt ∧
   nrows <$> frame_of "df_1_5" (cohort_cell (micro_firms_with indefinite) set_up).2 =
     Some 1000%nat ∧
   warned (cohort_cell (micro_firms_with indefinite) set_up).2 =
     [RuntimeWarning "covariance is not symmetric positive-semidefinite."]).
Proof.
  split; [exact skewed_not_symmetric|]. split; [exact indefinite_not_psd|].
  split; split_and!; vm_compute; reflexivity.
Qed.



Lemma earlier_session_df_501_ :
  frame_of "df_501_" earlier_session = Some earlier_df_501_.
Proof. vm_compute. reflexivity. Qed.

Lemma earlier_df_501_rows : nrows earlier_df_501_ = 1000%nat.
Proof. vm_compute. reflexivity. Qed.


Lemma configured_earlier_session : configured 1000 earlier_session.
Proof. split_and!; vm_compute; reflexivity. Qed.



Lemma large_firms_in_cohorts : large_firms ∈ cohorts.
Proof. cohort_in. Qed.

Lemma large_firms_other_target : src_target large_firms ≠ src_frame large_firms.
Proof. discriminate. Qed.

Lemma large_firms_cell_attaches_no_sizes_witness :
  (large_firms ∈ cohorts ∧ configured 1000 set_up) ∧
  let drawn := mvn_draw (np_repeat 0 4) (src_matrix large_firms) 1000 (rng set_up) in
  let ints :=
    randint_draw (src_low large_firms) (src_high large_firms) 1000 drawn.2 in
  ∃ own,
    np_repeat 0 4 = [0; 0; 0; 0] ∧
    length drawn.1 = 1000%nat ∧
    length ints.1 = 1000%nat ∧
    Forall (fun z => src_low large_firms ≤ z < src_high large_firms) ints.1 ∧
    rng (cohort_cell large_firms set_up).2 = ints.2 ∧
    frame_of (src_frame large_firms) (cohort_cell large_firms set_up).2 = Some own ∧
    nrows own = 1000%nat ∧
    (∀ (j : nat) name, names4 !! j = Some name →
       column name own =
       Some (map (fun row => Num (default nan (row !! j))) drawn.1)) ∧
    (large_firms ≠ large_firms →
       (cohort_cell large_firms set_up).1 = Ok tt ∧
       column "firm_size" own = Some (map Int ints.1)) ∧
    (large_firms = large_firms → column "firm_size" own = None).
Proof.
  split; [split; [exact large_firms_in_cohorts | exact configured_set_up]|].
  exact (large_firms_cell_attaches_no_sizes (N := lcg) large_firms set_up
           large_firms_in_cohorts configured_set_up).
Defined.

Lemma indefinite_square : square 4 indefinite.
Proof. split; [reflexivity | repeat constructor]. Qed.

Lemma indefinite_finite : all_finite indefinite = true.
Proof. vm_compute. reflexivity. Qed.

Lemma earlier_session_target :
  src_target large_firms ≠ src_frame large_firms →
  ∃ f, frame_of (src_target large_firms) earlier_session = Some f ∧
       nrows f = 1000%nat.
Proof.
  intros _. exists earlier_df_501_.
  split; [exact earlier_session_df_501_ | exact earlier_df_501_rows].
Qed.

Lemma cohort_cell_accepts_finite_matrices_witness :
  (large_firms ∈ cohorts ∧ square 4 indefinite ∧ all_finite indefinite = true ∧
   configured 1000 earlier_session ∧
   src_target large_firms ≠ src_frame large_firms ∧
   (src_target large_firms ≠ src_frame large_firms →
    ∃ f, frame_of (src_target large_firms) earlier_session = Some f ∧
         nrows f = 1000%nat)) ∧
  ∃ k' own,
    cohort_cell (with_matrix indefinite large_firms) earlier_session = (Ok tt, k') ∧
    frame_of (src_frame large_firms) k' = Some own ∧
    nrows own = 1000%nat ∧
    (∀ (j : nat) name, names4 !! j = Some name →
       column name own =
       Some (map (fun row => Num (default nan (row !! j)))
               (mvn_draw (np_repeat 0 4) indefinite 1000 (rng earlier_session)).1)) ∧
    warned k' =
      warned earlier_session ++
      (if mvn_psd_check indefinite then []
       else [RuntimeWarning "covariance is not symmetric positive-semidefinite."]).
Proof.
  split.
  - split_and!; [exact large_firms_in_cohorts | exact indefinite_square
                | exact indefinite_finite | exact configured_earlier_session
                | exact large_firms_other_target | exact earlier_session_target].
  - exact (cohort_cell_accepts_finite_matrices (N := lcg) large_firms indefinite
             earlier_session large_firms_in_cohorts indefinite_square
             indefinite_finite configured_earlier_session earlier_session_target).
Defined.



Lemma large_firms_sizes_misassigned_witness :
  (frame_of "df_501_" earlier_session = Some earlier_df_501_ ∧
   nrows earlier_df_501_ = 1000%nat) ∧
  ∃ k4 f4 zs k' d,
    run_cells (take 5 notebook) earlier_session = (Ok tt, k4) ∧
    frame_of "df_101_500" k4 = Some (df_101_500 (rng earlier_session)) ∧
    column "firm_size" (df_101_500 (rng earlier_session)) = None ∧
    frame_of "df_501_" k4 = Some f4 ∧
    column "firm_size" f4 = Some (map Int zs) ∧
    length zs = 1000%nat ∧ Forall (fun z => 101 ≤ z < 500) zs ∧
    run_cells notebook earlier_session = (Ok tt, k') ∧
    frame_of "df" k' = Some d ∧
    nrows d = 5000%nat ∧
    non_null_count "firm_size" d = 4000%nat ∧
    (∀ i : nat, (i < 1000)%nat →
       cell_at "firm_size" (3000 + i) d = Some NaN ∧
       (∀ c, c ∈ names4 ++ ["cohort"] →
             cell_at c (3000 + i) d =
             cell_at c i (df_101_500 (rng earlier_session))) ∧
       ∃ z, cell_at "firm_size" (4000 + i) d = Some (Int z) ∧ 501 ≤ z < 2000).
Proof.
  split; [split; [exact earlier_session_df_501_ | exact earlier_df_501_rows]|].
  apply (large_firms_sizes_misassigned (N := lcg) earlier_session earlier_df_501_
           earlier_session_df_501_ earlier_df_501_rows).
Defined.

Lemma label_large_on_two_cohorts_witness :
  (frame_of "df_501_" earlier_session = Some earlier_df_501_ ∧
   nrows earlier_df_501_ = 1000%nat) ∧
  ∃ k' d,
    run_cells notebook earlier_session = (Ok tt, k') ∧
    frame_of "df" k' = Some d ∧
    entry r_6_25 0 1 = Some (-0.30)%float ∧
    entry r_101_500 0 1 = Some (-0.20)%float ∧
    (∀ i : nat, cell_at "cohort" i d ≠ Some (Str "small")) ∧
    (∀ i : nat, (i < 1000)%nat →
       cell_at "cohort" (1000 + i) d = Some (Str "large") ∧
       cell_at "cohort" (3000 + i) d = Some (Str "large") ∧
       (∃ z, cell_at "firm_size" (1000 + i) d = Some (Int z) ∧ 6 ≤ z < 25) ∧
       (∀ (j : nat) name, names4 !! j = Some name →
          cell_at name (1000 + i) d =
            (fun row => Num (default nan (row !! j))) <$>
            (mvn_draw (np_repeat 0 4) r_6_25 1000
               (generator_after [micro_firms] (rng earlier_session))).1 !! i ∧
          cell_at name (3000 + i) d =
            (fun row => Num (default nan (row !! j))) <$>
            (mvn_draw (np_repeat 0 4) r_101_500 1000
               (generator_after [micro_firms; small_firms; medium_firms]
                  (rng earlier_session))).1 !! i)).
Proof.
  split; [split; [exact earlier_session_df_501_ | exact earlier_df_501_rows]|].
  apply (label_large_on_two_cohorts (N := lcg) earlier_session earlier_df_501_
           earlier_session_df_501_ earlier_df_501_rows).
Defined.

End lcg_runs.

(** ** Facts: the simple slope *)

Section slope_facts.
Import Numeric Regression.

Lemma SFcompare_refl_finite s m e :
  SFcompare (S754_finite s m e) (S754_finite s m e) = Some Eq.
Proof.
  simpl. rewrite Z.compare_refl, Pos.compare_cont_refl. by destruct s.
Qed.

Lemma SFeqb_refl (x : spec_float) : x ≠ S754_nan → SFeqb x x = true.
Proof.
  intros Hx. unfold SFeqb.
  destruct x as [s|s| |s m e]; [reflexivity | by destruct s | done |].
  by rewrite SFcompare_refl_finite.
Qed.

Lemma is_nan_spec (x : float) : PrimFloat.is_nan x = false → Prim2SF x ≠ S754_nan.
Proof.
  unfold PrimFloat.is_nan. rewrite FloatAxioms.eqb_spec. intros Hx Hnan.
  rewrite Hnan in Hx. discriminate Hx.
Qed.

(** C8.  For every fitted model whose interaction coefficient is a finite
    number and whose focal coefficient is a number, the slope [simpleSlope]
    returns at moderator value 0 equals the focal coefficient as binary64
    numbers: [β_interaction * 0] is a zero, and adding a zero changes at most
    the sign of a zero. *)
Theorem simpleSlope_at_zero (m : FittedModel) :
  is_finite (beta_interaction m) = true →
  PrimFloat.is_nan (beta_focal m) = false →
  ((simpleSlope m 0).1 =? beta_focal m)%float = true.
Proof.
  intros Hfin Hnan%is_nan_spec. unfold simpleSlope. cbn [fst].
  rewrite FloatAxioms.eqb_spec, FloatAxioms.add_spec, FloatAxioms.mul_spec.
  unfold is_finite in Hfin.
  change (Prim2SF 0) with (S754_zero false).
  destruct (Prim2SF (beta_interaction m)) as [si|si| |si mi ei];
    try discriminate Hfin;
    destruct (Prim2SF (beta_focal m)) as [sf|sf| |sf mf ef]; try done;
    try (by destruct si, sf);
    try (by destruct sf);
    cbn; try apply (SFeqb_refl (S754_finite sf mf ef)); done.
Qed.

Lemma simpleSlope_at_zero_witness :
  (is_finite (beta_interaction sample_model) = true ∧
   PrimFloat.is_nan (beta_focal sample_model) = false) ∧
  ((simpleSlope sample_model 0).1 =? beta_focal sample_model)%float = true.
Proof.
  split; [split; reflexivity|].
  apply (simpleSlope_at_zero sample_model); reflexivity.
Defined.

End slope_facts.

(** ** Facts: frames, their head and their summary *)

Section display_extras.
Import Python Pandas Display.
Local Open Scope string_scope.
Local Open Scope list_scope.

Lemma columns_of_fields (cols : list (string * list cell)) (d : list cell) :
  NoDup (map fst cols) →
  map (fun c => (c, default d (lookup_column c cols))) (map fst cols) = cols.
Proof.
  induction cols as [|[c vs] cols IH]; intros Hnd; [done|].
  cbn [map fst] in *. apply NoDup_cons in Hnd as [Hc Hnd].
  cbn [lookup_column]. rewrite decide_True by done. cbn. f_equal.
  rewrite <- (IH Hnd) at 2. apply map_ext_in. intros c' Hc'%list_elem_of_In.
  rewrite decide_False; [done|]. by intros ->.
Qed.

Lemma add_fields_fresh (acc l : list string) :
  NoDup (acc ++ l) → foldl add_field acc l = acc ++ l.
Proof.
  revert acc. induction l as [|c l IH]; intros acc Hacc; simpl.
  - by rewrite app_nil_r.
  - unfold add_field at 2. rewrite decide_False.
    + rewrite IH; rewrite <- app_assoc; done.
    + apply NoDup_app in Hacc as (_ & Hdisj & _). intros Hin.
      apply (Hdisj c Hin). apply list_elem_of_here.
Qed.

Lemma add_fields_known (acc l : list string) :
  l ⊆ acc → foldl add_field acc l = acc.
Proof.
  induction l as [|c l IH]; intros Hsub; simpl; [done|].
  unfold add_field at 2. rewrite decide_True.
  - apply IH. intros x Hx. apply Hsub. by apply list_elem_of_further.
  - apply Hsub, list_elem_of_here.
Qed.

Lemma union_fields_first (f : DataFrame) (rest : list DataFrame) :
  NoDup (fields f) → (∀ f', f' ∈ rest → fields f' ⊆ fields f) →
  union_fields (f :: rest) = fields f.
Proof.
  intros Hnd Hsub. unfold union_fields. cbn [foldl].
  rewrite (add_fields_fresh [] (fields f) Hnd). cbn [app].
  induction rest as [|f' rest IH]; [done|]. cbn [foldl].
  rewrite add_fields_known by (apply Hsub, list_elem_of_here).
  apply IH. intros f'' Hf''. apply Hsub. by apply list_elem_of_further.
Qed.

Lemma head_stacked (n : nat) (f : DataFrame) (rest : list DataFrame) :
  wf_frame f → (n ≤ nrows f)%nat →
  (∀ f', f' ∈ rest → fields f' ⊆ fields f) →
  DataFrame_head n (stacked (f :: rest)) = DataFrame_head n f.
Proof.
  intros Hwf Hn Hsub. pose proof Hwf as [Hnd Hlen].
  unfold DataFrame_head, stacked. cbn [index columns flat_map].
  rewrite (union_fields_first f rest Hnd Hsub). f_equal.
  - apply take_app_le. exact Hn.
  - rewrite map_map. cbn [fst snd].
    rewrite <- (columns_of_fields (columns f) (replicate (nrows f) NaN) Hnd) at 1.
    rewrite map_map. cbn [fst snd]. apply map_ext. intros c. f_equal.
    apply take_app_le. fold (column c f). fold (column_or_nan c f).
    by rewrite length_column_or_nan.
Qed.

(** X5. The head of a concatenation is the head of its first frame, when that
    frame has at least [n] rows and no later frame brings a field it lacks. *)
Theorem head_of_concat (n : nat) (f : DataFrame) (rest : list DataFrame) :
  wf_frame f → (n ≤ nrows f)%nat →
  (∀ f', f' ∈ rest → fields f' ⊆ fields f) →
  ∃ d, pd_concat (f :: rest) = Ok d ∧ DataFrame_head n d = DataFrame_head n f.
Proof.
  intros Hwf Hn Hsub. exists (stacked (f :: rest)).
  split; [reflexivity | by apply head_stacked].
Qed.

Lemma info_columns_of_fields (f : DataFrame) :
  wf_frame f →
  info_columns (DataFrame_info f) = map (fun c => (c, non_null_count c f)) (fields f).
Proof.
  intros [Hnd _]. unfold DataFrame_info, non_null_count, column, fields.
  cbn [info_columns].
  rewrite <- (columns_of_fields (columns f) [] Hnd) at 1.
  rewrite !map_map. apply map_ext. intros c. reflexivity.
Qed.

End display_extras.

(** ** Facts: a join of one frame *)

Section frame_extras.
Import Python Pandas Display.
Local Open Scope string_scope.
Local Open Scope list_scope.

(** X4. [pd.concat] of a single well-formed frame gives the frame back. *)
Theorem pd_concat_single (f : DataFrame) :
  wf_frame f → pd_concat [f] = Ok f.
Proof.
  intros [Hnd Hlen]. unfold pd_concat, stacked. f_equal.
  cbn [flat_map]. rewrite app_nil_r.
  rewrite (union_fields_first f [] Hnd) by (intros f' Hf'; by apply elem_of_nil in Hf').
  destruct f as [idx cols]. f_equal. cbn [columns fields] in *.
  rewrite <- (columns_of_fields cols (replicate (length idx) NaN) Hnd) at 2.
  apply map_ext. intros c. by rewrite app_nil_r.
Qed.

End frame_extras.

(** ** Facts: what the last cell displays *)

Section run_display.
Import Python Pandas Display Numeric Notebook.
Context {N : NumpyRandom}.
Local Open Scope string_scope.
Local Open Scope list_scope.
Local Open Scope Z_scope.

Lemma index_labelled c g : index (labelled c 1000 g) = seqZ 0 1000.
Proof.
  unfold labelled, set_column, frame_of_vectors. cbn [index].
  by rewrite length_vectors.
Qed.

Lemma index_own_frame c g : index (own_frame c g) = seqZ 0 1000.
Proof. apply index_labelled. Qed.

Lemma index_df g :
  index (df g) =
  seqZ 0 1000 ++ seqZ 0 1000 ++ seqZ 0 1000 ++ seqZ 0 1000 ++ seqZ 0 1000.
Proof.
  unfold df, stacked. cbn [index flat_map].
  unfold df_1_5, df_6_25, df_26_100, df_101_500, df_501_.
  by rewrite !index_own_frame, index_labelled, app_nil_r.
Qed.

Lemma index_df_lookup g (q i : nat) :
  (q < 5)%nat → (i < 1000)%nat →
  index (df g) !! (1000 * q + i)%nat = Some (Z.of_nat i).
Proof.
  intros Hq Hi. rewrite index_df.
  assert (length (seqZ 0 1000) = 1000%nat) as Hlen by (by rewrite length_seqZ).
  assert (seqZ 0 1000 !! i = Some (Z.of_nat i)) as Hseq
    by (rewrite lookup_seqZ_lt by lia; f_equal; lia).
  destruct q as [|[|[|[|[|q]]]]]; [| | | | |lia].
  - replace (1000 * 0 + i)%nat with i by lia. by rewrite lookup_app_l by lia.
  - rewrite lookup_app_r by lia. rewrite Hlen.
    replace (1000 * 1 + i - 1000)%nat with i by lia. by rewrite lookup_app_l by lia.
  - do 2 (rewrite lookup_app_r by (rewrite ?Hlen; lia); rewrite Hlen).
    replace (1000 * 2 + i - 1000 - 1000)%nat with i by lia.
    by rewrite lookup_app_l by lia.
  - do 3 (rewrite lookup_app_r by (rewrite ?Hlen; lia); rewrite Hlen).
    replace (1000 * 3 + i - 1000 - 1000 - 1000)%nat with i by lia.
    by rewrite lookup_app_l by lia.
  - do 4 (rewrite lookup_app_r by (rewrite ?Hlen; lia); rewrite Hlen).
    replace (1000 * 4 + i - 1000 - 1000 - 1000 - 1000)%nat with i by lia.
    exact Hseq.
Qed.

Lemma non_null_Str n s :
  filter (fun x => is_null x = false) (replicate n (Str s)) = replicate n (Str s).
Proof.
  induction n as [|n IH]; simpl; [done|].
  rewrite filter_cons_True by done. by rewrite IH.
Qed.

Lemma non_null_cohort_df g : non_null_count "cohort" (df g) = 5000%nat.
Proof.
  unfold non_null_count. rewrite column_cohort_df. cbn [from_option].
  unfold Datatypes.id. rewrite !filter_app, !non_null_Str.
  by rewrite !length_app, !length_replicate.
Qed.

Lemma wf_df g : wf_frame (df g).
Proof. apply wf_stacked, wf_run_frames. Qed.


Lemma column_head (n : nat) (c : string) (f : DataFrame) :
  column c (DataFrame_head n f) = take n <$> column c f.
Proof.
  unfold column, DataFrame_head. cbn [columns].
  induction (columns f) as [|[c' vs] cols IH]; [done|].
  cbn [map lookup_column fst snd]. by case_decide.
Qed.

Lemma cell_at_head (n i : nat) (c : string) (f : DataFrame) :
  (i < n)%nat → cell_at c i (DataFrame_head n f) = cell_at c i f.
Proof.
  intros Hi. unfold cell_at. rewrite column_head.
  destruct (column c f) as [vs|]; [|done]. cbn. by apply lookup_take_lt.
Qed.

(** X6. What [df.info()] reports after a run: 5000 entries labelled 0 to 999 (the
    labels 0 ... 999 of each of the five frames, kept as they are, so every
    label is on five rows), the six columns in the order job_sat, int_qui,
    age, org_tnr, cohort, firm_size, 5000 non-null cohort labels and 4000
    non-null firm sizes. *)
Theorem df_info_of_run (k : kernel) (f0 : DataFrame) :
  frame_of "df_501_" k = Some f0 → nrows f0 = 1000%nat →
  ∃ k' d,
    run_cells notebook k = (Ok tt, k') ∧
    frame_of "df" k' = Some d ∧
    info_entries (DataFrame_info d) = 5000%nat ∧
    info_first (DataFrame_info d) = Some 0 ∧
    info_last (DataFrame_info d) = Some 999 ∧
    map fst (info_columns (DataFrame_info d)) =
      ["job_sat"; "int_qui"; "age"; "org_tnr"; "cohort"; "firm_size"] ∧
    ("cohort", 5000%nat) ∈ info_columns (DataFrame_info d) ∧
    ("firm_size", 4000%nat) ∈ info_columns (DataFrame_info d) ∧
    (∀ q i : nat, (q < 5)%nat → (i < 1000)%nat →
       index d !! (1000 * q + i)%nat = Some (Z.of_nat i)).
Proof.
  intros Hf0 Hrows.
  destruct (notebook_run k f0 Hf0 Hrows)
    as (k' & Hrun & _ & _ & _ & _ & _ & Hdf & _).
  set (g := rng k) in *. exists k', (df g).
  assert (fields (df g) =
          ["job_sat"; "int_qui"; "age"; "org_tnr"; "cohort"; "firm_size"])
    as Hfields by (unfold df; rewrite fields_stacked; apply union_fields_run).
  split_and!.
  - exact Hrun.
  - exact Hdf.
  - apply nrows_df.
  - cbn [DataFrame_info info_first]. rewrite index_df. reflexivity.
  - cbn [DataFrame_info info_last]. rewrite index_df. vm_compute. reflexivity.
  - rewrite (info_columns_of_fields _ (wf_df g)), map_map. cbn [fst].
    by rewrite map_id.
  - rewrite (info_columns_of_fields _ (wf_df g)), Hfields.
    rewrite <- (non_null_cohort_df g).
    cbn [map]. do 4 apply list_elem_of_further. apply list_elem_of_here.
  - rewrite (info_columns_of_fields _ (wf_df g)), Hfields.
    rewrite <- (non_null_firm_size_df g).
    cbn [map]. do 5 apply list_elem_of_further. apply list_elem_of_here.
  - intros q i. apply index_df_lookup.
Qed.

(** X7. What [df.head()] shows after a run: the first five observations of the
    micro cohort, labelled 0 to 4, each with the label ['micro'] and a firm
    size of 1 to 4. *)
Theorem df_head_of_run (k : kernel) (f0 : DataFrame) :
  frame_of "df_501_" k = Some f0 → nrows f0 = 1000%nat →
  ∃ k' d,
    run_cells notebook k = (Ok tt, k') ∧
    frame_of "df" k' = Some d ∧
    DataFrame_head 5 d = DataFrame_head 5 (df_1_5 (rng k)) ∧
    index (DataFrame_head 5 d) = [0; 1; 2; 3; 4] ∧
    (∀ i : nat, (i < 5)%nat →
       cell_at "cohort" i (DataFrame_head 5 d) = Some (Str "micro") ∧
       ∃ z, cell_at "firm_size" i (DataFrame_head 5 d) = Some (Int z) ∧
            1 ≤ z < 5).
Proof.
  intros Hf0 Hrows.
  destruct (notebook_run k f0 Hf0 Hrows)
    as (k' & Hrun & _ & _ & _ & _ & _ & Hdf & _).
  set (g := rng k) in *. exists k', (df g).
  assert (DataFrame_head 5 (df g) = DataFrame_head 5 (df_1_5 g)) as Hhead.
  { unfold df. apply head_stacked.
    - apply wf_own_frame.
    - unfold df_1_5. rewrite nrows_own_frame. lia.
    - intros f' Hf'. unfold df_1_5. rewrite fields_own_frame.
      rewrite !elem_of_cons, elem_of_nil in Hf'.
      destruct Hf' as [->|[->|[->|[->|[]]]]];
        unfold df_6_25, df_26_100, df_101_500, df_501_;
        rewrite ?fields_own_frame, ?fields_labelled; [done|done| |done].
      intros x. cbn. rewrite !elem_of_cons. tauto. }
  split_and!.
  - exact Hrun.
  - exact Hdf.
  - exact Hhead.
  - rewrite Hhead. unfold DataFrame_head, df_1_5. cbn [index].
    rewrite index_own_frame. reflexivity.
  - intros i Hi. rewrite Hhead, !cell_at_head by done. split.
    + rewrite <- column_or_nan_lookup
        by (unfold df_1_5; rewrite fields_own_frame; cbn;
            rewrite !elem_of_cons; tauto).
      assert (column "cohort" (df_1_5 g) = Some (replicate 1000 (Str "micro")))
        as Hc.
      { unfold df_1_5, own_frame, with_sizes.
        rewrite column_set_column_ne by done. apply column_cohort_labelled. }
      rewrite (column_or_nan_present _ _ _ Hc). apply lookup_replicate_2. lia.
    + rewrite <- column_or_nan_lookup
        by (unfold df_1_5; rewrite fields_own_frame; cbn;
            rewrite !elem_of_cons; tauto).
      apply (firm_size_of_own_frame micro_firms); [done | lia].
Qed.

(** X8. After a run no observation has a firm size outside the four ranges
    [1, 5), [6, 25), [26, 100) and [501, 2000): firms of 5, of 25 and of 100
    to 500 employees do not occur in the assembled frame. *)
Theorem df_firm_size_ranges (k : kernel) (f0 : DataFrame) :
  frame_of "df_501_" k = Some f0 → nrows f0 = 1000%nat →
  ∃ k' d,
    run_cells notebook k = (Ok tt, k') ∧
    frame_of "df" k' = Some d ∧
    ∀ (i : nat) z, cell_at "firm_size" i d = Some (Int z) →
      (1 ≤ z < 5 ∨ 6 ≤ z < 25 ∨ 26 ≤ z < 100 ∨ 501 ≤ z < 2000) ∧
      z ≠ 5 ∧ z ≠ 25 ∧ ¬ (100 ≤ z ≤ 500).
Proof.
  intros Hf0 Hrows.
  destruct (notebook_run k f0 Hf0 Hrows)
    as (k' & Hrun & _ & _ & _ & _ & _ & Hdf & _).
  set (g := rng k) in *. exists k', (df g).
  split; [exact Hrun|]. split; [exact Hdf|].
  intros i z Hz.
  assert (1 ≤ z < 5 ∨ 6 ≤ z < 25 ∨ 26 ≤ z < 100 ∨ 501 ≤ z < 2000) as Hr; [|lia].
  unfold cell_at in Hz. rewrite column_firm_size_df in Hz.
  cbn [mbind option_bind] in Hz. apply list_elem_of_lookup_2 in Hz.
  assert (∀ c g', src_low c < src_high c → Int z ∈ map Int (sizes c 1000 g') →
                  src_low c ≤ z < src_high c) as Hin.
  { intros c g' Hlt (z' & [= <-] & Hz')%list_elem_of_fmap.
    apply (proj1 (Forall_forall _ _) (sizes_in_range c 1000 g' Hlt) _ Hz'). }
  rewrite !elem_of_app in Hz.
  destruct Hz as [Hz|[Hz|[Hz|[Hz|Hz]]]].
  - left. by apply (Hin micro_firms) in Hz.
  - right. left. by apply (Hin small_firms) in Hz.
  - right. right. left. by apply (Hin medium_firms) in Hz.
  - apply elem_of_replicate_inv in Hz. discriminate Hz.
  - right. right. right. by apply (Hin very_large_firms) in Hz.
Qed.

End run_display.

(** ** Facts: how a run ends *)

Section run_outcomes.
Import Python Pandas Display Numeric Notebook.
Context {N : NumpyRandom}.
Local Open Scope string_scope.
Local Open Scope list_scope.
Local Open Scope Z_scope.

Lemma configured_before_sizes_assigned c n m k :
  runnable c → configured m k → configured m (before_sizes_assigned c n k).
Proof.
  intros (_ & _ & _ & _ & Hframe & _) (Hn & Hmu & Hnames).
  rewrite !not_elem_of_cons in Hframe. destruct Hframe as (? & ? & ? & ? & _).
  repeat split; rewrite lookup_before_sizes_assigned_other; done.
Qed.

(** The large-firms cell when [df_501_] is bound to a frame of rows, but
    not of 1000: the firm sizes do not fit. *)
Lemma large_firms_cell_mismatch (k : kernel) (f0 : DataFrame) :
  configured 1000 k → frame_of "df_501_" k = Some f0 →
  nrows f0 ≠ 1000%nat → nrows f0 ≠ 0%nat →
  cohort_cell large_firms k =
  (Raise (ValueError "Length of values does not match length of index"),
   before_sizes_assigned large_firms 1000 k).
Proof.
  intros Hcfg Hf0 H1000 H0.
  assert (runnable large_firms) as Hrun by (apply runnable_cohort; cohort_in).
  assert (all_finite (src_matrix large_firms) = true) as Hfin
    by (apply finite_cohort; cohort_in).
  rewrite (cohort_cell_last_statement large_firms 1000 k Hrun Hfin Hcfg) by lia.
  apply (loc_assign_raise _ _ _ f0).
  - rewrite lookup_before_sizes_assigned_other by done. by apply frame_of_Some.
  - apply loc_setitem_array_mismatch; [|done].
    rewrite length_map, length_sizes. lia.
Qed.

Lemma large_firms_cell_fails (k : kernel) :
  configured 1000 k →
  (∀ f, frame_of "df_501_" k = Some f → nrows f ≠ 1000%nat ∧ nrows f ≠ 0%nat) →
  ∃ e, cohort_cell large_firms k =
       (Raise e, before_sizes_assigned large_firms 1000 k).
Proof.
  intros Hcfg Hno.
  assert (runnable large_firms) as Hrun by (apply runnable_cohort; cohort_in).
  assert (all_finite (src_matrix large_firms) = true) as Hfin
    by (apply finite_cohort; cohort_in).
  destruct (frame_of "df_501_" k) as [f|] eqn:Hf.
  - destruct (Hno f eq_refl) as [H1000 H0].
    rewrite (large_firms_cell_mismatch k f) by done. eauto.
  - rewrite (cohort_cell_last_statement large_firms 1000 k Hrun Hfin Hcfg) by lia.
    assert (ns (before_sizes_assigned large_firms 1000 k) !! "df_501_" =
            ns k !! "df_501_") as Hsame
      by (by apply lookup_before_sizes_assigned_other).
    change (src_target large_firms) with "df_501_".
    unfold frame_of in Hf.
    destruct (ns k !! "df_501_") as [o|] eqn:Ho.
    + rewrite (loc_assign_not_frame _ _ _ _ o Hsame); [eauto|].
      intros f ->. discriminate Hf.
    + rewrite loc_assign_unbound by done. eauto.
Qed.

(** X9. When [df_501_] is not bound to a frame that has a [firm_size] column
    and no row, a run of all the cells reaches its end exactly when
    [df_501_] is bound, at its start, to a frame of 1000 rows or to a frame
    of no row (which the 1000 firm sizes of the large-firms cell then give
    its rows): the large-firms cell, which writes to that frame before the
    cell that creates it, raises otherwise. *)
Theorem notebook_succeeds_iff (k : kernel) :
  (∀ f0, frame_of "df_501_" k = Some f0 → nrows f0 = 0%nat →
         "firm_size" ∉ fields f0) →
  ((run_cells notebook k).1 = Ok tt ↔
   ∃ f0, frame_of "df_501_" k = Some f0 ∧
         (nrows f0 = 1000%nat ∨ nrows f0 = 0%nat)).
Proof.
  intros _. split.
  - intros Hok.
    destruct (frame_of "df_501_" k) as [f|] eqn:Hf.
    { destruct (decide (nrows f = 1000%nat)) as [E|E]; [exists f; auto|].
      destruct (decide (nrows f = 0%nat)) as [E0|E0]; [exists f; auto|].
      exfalso. revert Hok.
      destruct (run_until_medium k) as (k3 & Hrun3 & C3 & _ & _ & _ & _ & Hother).
      destruct (large_firms_cell_fails k3 C3) as [e He].
      { intros f'. unfold frame_of in *. rewrite Hother.
        - destruct (ns k !! "df_501_") as [[]|]; try done.
          intros [= <-]. by simplify_eq.
        - rewrite !not_elem_of_cons. repeat split; try done.
          apply not_elem_of_nil. }
      change notebook with
        (take 4 notebook ++
         [cohort_cell large_firms; cohort_cell very_large_firms;
          cell_data_preparation]).
      rewrite (run_cells_app _ _ _ _ Hrun3).
      by rewrite (run_cells_cons_raise _ _ _ _ _ He). }
    exfalso. revert Hok.
    destruct (run_until_medium k) as (k3 & Hrun3 & C3 & _ & _ & _ & _ & Hother).
    destruct (large_firms_cell_fails k3 C3) as [e He].
    { intros f'. unfold frame_of in *. rewrite Hother.
      - destruct (ns k !! "df_501_") as [[]|]; done.
      - rewrite !not_elem_of_cons. repeat split; try done.
        apply not_elem_of_nil. }
    change notebook with
      (take 4 notebook ++
       [cohort_cell large_firms; cohort_cell very_large_firms;
        cell_data_preparation]).
    rewrite (run_cells_app _ _ _ _ Hrun3).
    by rewrite (run_cells_cons_raise _ _ _ _ _ He).
  - intros (f0 & Hf0 & Hrows).
    by destruct (notebook_run_from k f0 Hf0 Hrows) as (k' & -> & _).
Qed.


(** X11. When [df_501_] is unbound the run stops at the large-firms cell, but what
    ran before the exception stays done: running the two remaining cells by
    hand then assembles the very frame a run from a kernel with [df_501_]
    bound would have left, with its 4000 firm sizes in 5000 rows. *)
Theorem continue_after_NameError (k : kernel) :
  ns k !! "df_501_" = None →
  ∃ k4 k',
    run_cells notebook k = (Raise (NameError "df_501_"), k4) ∧
    run_cells (drop 5 notebook) k4 = (Ok tt, k') ∧
    frame_of "df" k' = Some (df (rng k)) ∧
    nrows (df (rng k)) = 5000%nat ∧
    non_null_count "firm_size" (df (rng k)) = 4000%nat.
Proof.
  intros H501.
  destruct (run_until_medium k) as (k3 & Hrun3 & C3 & H1 & H2 & H3 & Hg & Hother).
  assert (runnable large_firms) as Hrun by (apply runnable_cohort; cohort_in).
  assert (ns k3 !! "df_501_" = None) as H501'.
  { rewrite Hother; [done|]. rewrite !not_elem_of_cons. repeat split; try done.
    apply not_elem_of_nil. }
  set (k4 := before_sizes_assigned large_firms 1000 k3).
  set (k5 := after_cell very_large_firms 1000 k4
               (labelled very_large_firms 1000 (rng k4))).
  assert (configured 1000 k4) as C4 by (by apply configured_before_sizes_assigned).
  assert (rng k4 = generator_after
                     [micro_firms; small_firms; medium_firms; large_firms]
                     (rng k)) as Hg4
    by (unfold k4; cbn [rng before_sizes_assigned]; by rewrite Hg).
  assert (∀ x f, x ∉ ["df_101_500"; "r"; "df_501_"] → frame_of x k3 = Some f →
                 frame_of x k5 = Some f) as Hkeep.
  { intros x f Hx Hf. rewrite !not_elem_of_cons in Hx.
    destruct Hx as (? & ? & ? & _). apply frame_of_lookup. unfold k5.
    rewrite lookup_after_cell_other by done. unfold k4.
    rewrite lookup_before_sizes_assigned_other by done.
    by apply frame_of_Some. }
  assert (∀ x, x ∈ ["df_1_5"; "df_6_25"; "df_26_100"] →
               x ∉ ["df_101_500"; "r"; "df_501_"]) as Hnot.
  { intros x Hx. rewrite !elem_of_cons, elem_of_nil in Hx.
    rewrite !not_elem_of_cons.
    destruct Hx as [->|[->|[->|[]]]]; repeat split; try done;
      apply not_elem_of_nil. }
  exists k4. eexists. split_and!.
  - change notebook with
      (take 4 notebook ++
       [cohort_cell large_firms; cohort_cell very_large_firms;
        cell_data_preparation]).
    rewrite (run_cells_app _ _ _ _ Hrun3).
    apply run_cells_cons_raise.
    apply (cohort_cell_unbound_target large_firms);
      [done | apply finite_cohort; cohort_in | done | lia | done | done].
  - change (drop 5 notebook) with
      [cohort_cell very_large_firms; cell_data_preparation].
    rewrite (run_cells_cons_ok _ _ k4 k5)
      by (apply own_cell_run;
          [apply runnable_cohort; cohort_in | apply finite_cohort; cohort_in
          | done | lia | done]).
    erewrite run_cells_cons_ok; [reflexivity|].
    apply (cell_data_preparation_run k5 (df_1_5 (rng k)) (df_6_25 (rng k))
             (df_26_100 (rng k)) (df_101_500 (rng k)) (df_501_ (rng k))).
    + apply Hkeep; [apply Hnot; rewrite !elem_of_cons; tauto | done].
    + apply Hkeep; [apply Hnot; rewrite !elem_of_cons; tauto | done].
    + apply Hkeep; [apply Hnot; rewrite !elem_of_cons; tauto | done].
    + apply frame_of_lookup. unfold k5. rewrite lookup_after_cell_other by done.
      unfold k4, df_101_500. rewrite <- Hg.
      unfold before_sizes_assigned. cbn [ns].
      apply (lookup_insert_eq (M := gmap string)).
    + apply frame_of_lookup. unfold k5, df_501_, own_frame. rewrite <- Hg4.
      apply (lookup_after_cell_target very_large_firms).
  - apply frame_of_lookup. cbn [ns]. apply lookup_insert_eq.
  - apply nrows_df.
  - apply non_null_firm_size_df.
Qed.

(** X12. A run that reached its end can be repeated in the same session: the
    second run reaches its end too, and assembles its frame from the
    generator state the first run left, not from the one it started with. *)
Theorem notebook_run_twice (k : kernel) (f0 : DataFrame) :
  frame_of "df_501_" k = Some f0 → nrows f0 = 1000%nat →
  ∃ k1 k2,
    run_cells notebook k = (Ok tt, k1) ∧
    run_cells notebook k1 = (Ok tt, k2) ∧
    frame_of "df" k1 = Some (df (rng k)) ∧
    rng k1 = generator_after cohorts (rng k) ∧
    frame_of "df" k2 = Some (df (generator_after cohorts (rng k))) ∧
    rng k2 = generator_after (cohorts ++ cohorts) (rng k).
Proof.
  intros Hf0 Hrows.
  destruct (notebook_run k f0 Hf0 Hrows)
    as (k1 & Hrun1 & _ & _ & _ & _ & H501 & Hdf1 & Hg1).
  destruct (notebook_run k1 (df_501_ (rng k)) H501)
    as (k2 & Hrun2 & _ & _ & _ & _ & _ & Hdf2 & Hg2).
  { unfold df_501_. apply nrows_own_frame. }
  exists k1, k2. split_and!; try done.
  - by rewrite <- Hg1.
  - rewrite Hg2, Hg1. unfold generator_after. by rewrite foldl_app.
Qed.

End run_outcomes.

(** ** Facts: what every cell keeps *)

Section cell_invariants.
Import Python Pandas Display Numeric Notebook Invariants.
Context {N : NumpyRandom}.
Local Open Scope string_scope.
Local Open Scope list_scope.
Local Open Scope Z_scope.

Lemma keeps_bind {A B} (I : kernel → Prop) (R : A → Prop) (R' : B → Prop)
    (m : prog A) (f : A → prog B) :
  keeps I R m → (∀ a, R a → keeps I R' (f a)) → keeps I R' (m ≫= f).
Proof.
  intros Hm Hf k HI. destruct (Hm k HI) as [HI1 HR].
  unfold mbind, prog_bind, bind. destruct (m k) as [[a|e] k1]; cbn [fst snd] in *.
  - apply (Hf a (HR a eq_refl) k1 HI1).
  - split; [exact HI1 | discriminate].
Qed.

Lemma keeps_weaken {A} (I : kernel → Prop) (R R' : A → Prop) (m : prog A) :
  keeps I R m → (∀ a, R a → R' a) → keeps I R' m.
Proof. intros Hm HR k HI. destruct (Hm k HI) as [? ?]. split; eauto. Qed.

Lemma keeps_ret {A} (I : kernel → Prop) (R : A → Prop) (a : A) :
  R a → keeps I R (ret a).
Proof. intros Ha k HI. split; [exact HI | by intros a' [= <-]]. Qed.

Lemma keeps_raise {A} (I : kernel → Prop) (R : A → Prop) e :
  keeps I R (raise e).
Proof. intros k HI. split; [exact HI | discriminate]. Qed.

Lemma keeps_load x : keeps frames_rectangular frame_value_rectangular (load x).
Proof.
  intros k HI. unfold load. destruct (ns k !! x) as [v|] eqn:Hx; cbn [fst snd].
  - split; [exact HI|]. intros a [= <-] f ->. by apply (HI x).
  - split; [exact HI | discriminate].
Qed.

Lemma keeps_store x v :
  frame_value_rectangular v →
  keeps frames_rectangular (fun _ : unit => True) (store x v).
Proof.
  intros Hv k HI. split; [|done]. intros y f. cbn [store snd ns].
  destruct (decide (x = y)) as [->|Hne].
  - rewrite lookup_insert_eq. intros [= ->]. by apply Hv.
  - rewrite lookup_insert_ne by done. apply HI.
Qed.

Lemma keeps_getattr_loc v :
  frame_value_rectangular v → keeps frames_rectangular rectangular (getattr_loc v).
Proof.
  intros Hv. destruct v; try apply keeps_raise. apply keeps_ret. by apply Hv.
Qed.

Lemma keeps_load_frame x :
  keeps frames_rectangular rectangular (load x ≫= getattr_loc).
Proof. eapply keeps_bind; [apply keeps_load | apply keeps_getattr_loc]. Qed.

Lemma keeps_load_any x : keeps frames_rectangular (fun _ => True) (load x).
Proof. eapply keeps_weaken; [apply keeps_load | done]. Qed.

Lemma keeps_as_int v : keeps frames_rectangular (fun _ => True) (as_int v).
Proof. destruct v; try apply keeps_raise. by apply keeps_ret. Qed.

Lemma keeps_as_int_array v :
  keeps frames_rectangular (fun _ => True) (as_int_array v).
Proof. destruct v; try apply keeps_raise. by apply keeps_ret. Qed.

Lemma keeps_as_str_list v :
  keeps frames_rectangular (fun _ => True) (as_str_list v).
Proof. destruct v; try apply keeps_raise. by apply keeps_ret. Qed.

Lemma keeps_as_matrix v : keeps frames_rectangular (fun _ => True) (as_matrix v).
Proof. destruct v; try apply keeps_raise. by apply keeps_ret. Qed.

Lemma keeps_multivariate_normal mean cov size :
  keeps frames_rectangular (fun _ => True)
    (np_random_multivariate_normal mean cov size).
Proof.
  intros k HI. unfold np_random_multivariate_normal.
  destruct (negb _); [by split|]. destruct (size <? 0); [by split|].
  destruct (mvn_draw _ _ _ _). by destruct (negb _).
Qed.

Lemma keeps_randint low high size :
  keeps frames_rectangular (fun _ => True) (np_random_randint low high size).
Proof.
  intros k HI. unfold np_random_randint.
  repeat (match goal with |- context [if ?b then _ else _] => destruct b end;
          [by split|]).
  destruct (randint_draw _ _ _ _). by split.
Qed.

Lemma rectangular_pd_DataFrame data names f :
  pd_DataFrame data names = Ok f → rectangular f.
Proof.
  unfold pd_DataFrame. destruct (Nat.eqb _ _); [|discriminate].
  intros [= <-]. unfold rectangular, nrows. cbn [index columns].
  apply Forall_forall. intros [c vs] Hcol.
  apply list_elem_of_lookup_1 in Hcol as [j Hj]. rewrite list_lookup_imap in Hj.
  destruct (names !! j); [|discriminate Hj]. injection Hj as <- <-.
  cbn [snd]. rewrite length_map, length_seqZ. lia.
Qed.

Lemma rectangular_set_column c vs f :
  rectangular f → length vs = nrows f → rectangular (set_column c vs f).
Proof.
  unfold rectangular, set_column, nrows. cbn [index columns]. intros Hf Hvs.
  induction (columns f) as [|[c' vs'] cols IH]; simpl.
  - by repeat constructor.
  - apply Forall_cons in Hf as [Hc Hcols].
    case_decide; constructor; auto.
Qed.

Lemma nrows_reindexed n f : nrows (reindexed n f) = n.
Proof. unfold nrows, reindexed. cbn [index]. rewrite length_seqZ. lia. Qed.

Lemma rectangular_reindexed n f : rectangular (reindexed n f).
Proof.
  unfold rectangular. rewrite nrows_reindexed. unfold reindexed. cbn [columns].
  apply Forall_forall. intros [c vs] Hcol.
  apply list_elem_of_fmap in Hcol as (col & [= -> ->] & _).
  apply length_replicate.
Qed.

Lemma rectangular_loc_setitem f c v f' :
  rectangular f → loc_setitem f c v = Ok f' → rectangular f'.
Proof.
  intros Hf. destruct v as [x|vs]; cbn [loc_setitem].
  - destruct (_ && _); [discriminate|].
    intros [= <-]. apply rectangular_set_column; [done | apply length_replicate].
  - destruct (Nat.eqb (length vs) (nrows f)) eqn:E.
    { intros [= <-]. apply rectangular_set_column; [done | by apply Nat.eqb_eq]. }
    destruct (Nat.eqb (nrows f) 0) eqn:E0; cbn [negb]; [|discriminate].
    apply Nat.eqb_eq in E0.
    destruct (_ && _).
    + intros [= <-]. apply rectangular_set_column; [done | by rewrite E0].
    + intros [= <-]. apply rectangular_set_column;
        [apply rectangular_reindexed | by rewrite nrows_reindexed].
Qed.

Lemma keeps_lift {A} (R : A → Prop) (r : result A) :
  (∀ a, r = Ok a → R a) → keeps frames_rectangular R (lift r).
Proof. intros Hr k HI. by split. Qed.

Lemma keeps_loc_assign x c v :
  keeps frames_rectangular (fun _ => True) (loc_assign x c v).
Proof.
  unfold loc_assign.
  eapply keeps_bind; [apply keeps_load_frame|]. intros f Hf.
  eapply keeps_bind; [apply (keeps_lift rectangular)|].
  - intros f'. by apply rectangular_loc_setitem.
  - intros f' Hf'. apply keeps_store. by intros ? [= <-].
Qed.

Lemma length_column_or_nan_rectangular c f :
  rectangular f → length (column_or_nan c f) = nrows f.
Proof.
  intros Hlen. unfold column_or_nan, column.
  destruct (lookup_column c (columns f)) as [vs|] eqn:Hc; simpl.
  - apply lookup_column_elem_of in Hc. unfold rectangular in Hlen.
    rewrite Forall_forall in Hlen. apply (Hlen _ Hc).
  - apply length_replicate.
Qed.

Lemma rectangular_stacked objs : Forall rectangular objs → rectangular (stacked objs).
Proof.
  intros Hobjs. apply Forall_forall. intros [c vs] Hcol.
  apply list_elem_of_fmap in Hcol as (c' & [= -> ->] & _).
  cbn [snd]. rewrite nrows_stacked.
  induction Hobjs as [|f objs Hf _ IH]; simpl; [done|].
  by rewrite length_app, length_column_or_nan_rectangular, IH.
Qed.

Lemma rectangular_frames objs fs :
  Forall frame_value_rectangular objs → frames objs = Ok fs → Forall rectangular fs.
Proof.
  revert fs. induction objs as [|v objs IH]; intros fs Hobjs; cbn [frames].
  - intros [= <-]. constructor.
  - apply Forall_cons in Hobjs as [Hv Hobjs].
    destruct v; try discriminate.
    destruct (frames objs) as [fs'|]; [|discriminate].
    intros [= <-]. constructor; [by apply Hv | by apply IH].
Qed.

Lemma keeps_cell_setup : keeps frames_rectangular (fun _ => True) cell_setup.
Proof.
  unfold cell_setup.
  eapply keeps_bind; [apply keeps_store; by intros ? [=]|]. intros _ _.
  eapply keeps_bind; [apply keeps_store; by intros ? [=]|]. intros _ _.
  apply keeps_store. by intros ? [=].
Qed.

Lemma keeps_cohort_cell c : keeps frames_rectangular (fun _ => True) (cohort_cell c).
Proof.
  unfold cohort_cell.
  eapply keeps_bind; [apply keeps_store; by intros ? [=]|]. intros _ _.
  eapply keeps_bind; [apply keeps_load_any|]. intros mu _.
  eapply keeps_bind; [apply keeps_load_any|]. intros r _.
  eapply keeps_bind; [apply keeps_load_any|]. intros n _.
  eapply (keeps_bind _ (fun _ => True)).
  { eapply keeps_bind; [apply keeps_as_int_array|]. intros mean _.
    eapply keeps_bind; [apply keeps_as_matrix|]. intros cov _.
    eapply keeps_bind; [apply keeps_as_int|]. intros size _.
    apply keeps_multivariate_normal. }
  intros data _.
  eapply keeps_bind; [apply keeps_load_any|]. intros names _.
  eapply (keeps_bind _ rectangular).
  { eapply keeps_bind; [apply keeps_as_str_list|]. intros cols _.
    apply (keeps_lift rectangular). intros f. apply rectangular_pd_DataFrame. }
  intros f Hf.
  eapply keeps_bind; [apply keeps_store; by intros ? [= <-]|]. intros _ _.
  eapply keeps_bind; [apply keeps_loc_assign|]. intros _ _.
  eapply keeps_bind; [apply keeps_load_any|]. intros n' _.
  eapply (keeps_bind _ (fun _ => True)).
  { eapply keeps_bind; [apply keeps_as_int|]. intros size _. apply keeps_randint. }
  intros zs _.
  apply keeps_loc_assign.
Qed.

Lemma keeps_cell_data_preparation :
  keeps frames_rectangular (fun _ => True) cell_data_preparation.
Proof.
  unfold cell_data_preparation.
  eapply keeps_bind; [apply keeps_load|]. intros v1 H1.
  eapply keeps_bind; [apply keeps_load|]. intros v2 H2.
  eapply keeps_bind; [apply keeps_load|]. intros v3 H3.
  eapply keeps_bind; [apply keeps_load|]. intros v4 H4.
  eapply keeps_bind; [apply keeps_load|]. intros v5 H5.
  eapply keeps_bind; [apply (keeps_lift (Forall rectangular))|].
  { intros fs. apply rectangular_frames. by repeat constructor. }
  intros fs Hfs.
  eapply keeps_bind; [apply (keeps_lift rectangular)|].
  { intros d. destruct fs; [discriminate|]. intros [= <-].
    by apply rectangular_stacked. }
  intros d Hd. apply keeps_store. by intros ? [= <-].
Qed.

Lemma keeps_run_cells cells :
  Forall (keeps frames_rectangular (fun _ => True)) cells →
  keeps frames_rectangular (fun _ => True) (run_cells cells).
Proof.
  induction 1 as [|c cells Hc _ IH]; simpl.
  - by apply keeps_ret.
  - eapply keeps_bind; [exact Hc | intros _ _; exact IH].
Qed.

(** X13. Every cell of the notebook, and a run of all of them, leaves every frame
    bound in the kernel rectangular (one cell per row in every column), on
    whatever kernel with that property it starts and however it ends. *)
Theorem cells_keep_frames_rectangular (k : kernel) :
  frames_rectangular k →
  (∀ cell, cell ∈ notebook → frames_rectangular (cell k).2) ∧
  frames_rectangular (run_cells notebook k).2.
Proof.
  intros Hk.
  assert (Forall (keeps frames_rectangular (fun _ => True)) notebook) as Hall.
  { unfold notebook. apply Forall_cons_2; [apply keeps_cell_setup|].
    apply Forall_app. split.
    - apply Forall_forall. intros cell (c & -> & _)%list_elem_of_fmap.
      apply keeps_cohort_cell.
    - apply Forall_cons_2; [apply keeps_cell_data_preparation | apply Forall_nil_2]. }
  split.
  - intros cell Hcell. rewrite Forall_forall in Hall.
    apply (Hall cell Hcell k Hk).
  - apply (keeps_run_cells notebook Hall k Hk).
Qed.

End cell_invariants.

(** ** Facts: what every cell leaves alone *)

Section cell_footprint.
Import Python Pandas Display Numeric Notebook Invariants.
Context {N : NumpyRandom}.
Local Open Scope string_scope.
Local Open Scope list_scope.
Local Open Scope Z_scope.



















End cell_footprint.

(** ** Facts: cells on kernels that are not ready *)

Section cell_edges.
Import Python Pandas Display Numeric Notebook Invariants.
Context {N : NumpyRandom}.
Local Open Scope string_scope.
Local Open Scope list_scope.
Local Open Scope Z_scope.

(** X15. A cohort cell run before the set-up cell, [mu] being unbound, raises
    NameError on [mu]: it has rebound [r] by then and nothing else, and has
    drawn nothing. *)
Theorem cohort_cell_before_set_up (c : cohort_source) (k : kernel) :
  ns k !! "mu" = None →
  cohort_cell c k = (Raise (NameError "mu"), r_bound c k) ∧
  rng (r_bound c k) = rng k ∧
  (∀ x, x ≠ "r" → ns (r_bound c k) !! x = ns k !! x).
Proof.
  intros Hmu. split_and!.
  - unfold cohort_cell, mbind, prog_bind, bind, store, load. cbn [ns].
    rewrite lookup_insert_ne by done. by rewrite Hmu.
  - reflexivity.
  - intros x Hx. unfold r_bound. cbn [ns]. by rewrite lookup_insert_ne.
Qed.

(** X16. With a negative [num_samples] a cohort cell raises ValueError in
    [multivariate_normal], before anything is drawn and before its frame is
    bound. *)
Theorem cohort_cell_negative_samples (c : cohort_source) (n : Z) (k : kernel) :
  runnable c → configured n k → n < 0 →
  cohort_cell c k =
    (Raise (ValueError "negative dimensions are not allowed"), r_bound c k) ∧
  rng (r_bound c k) = rng k ∧
  (∀ x, x ≠ "r" → ns (r_bound c k) !! x = ns k !! x).
Proof.
  intros ([Hlen Hrows] & _) (Hn & Hmu & Hnames) Hneg. split_and!.
  - unfold cohort_cell, mbind, prog_bind, bind, store, load. cbn [ns].
    rewrite lookup_insert_ne by done. rewrite Hmu. cbn.
    rewrite lookup_insert_eq. cbn.
    rewrite lookup_insert_ne by done. rewrite Hn. cbn.
    unfold np_random_multivariate_normal.
    rewrite Hlen. cbn [length np_repeat replicate Nat.eqb].
    rewrite (proj2 (forallb_forall _ _)).
    2:{ intros row Hrow%list_elem_of_In. rewrite Forall_forall in Hrows.
        apply Nat.eqb_eq, Hrows, Hrow. }
    cbn [negb andb]. by rewrite (proj2 (Z.ltb_lt _ _) Hneg).
  - reflexivity.
  - intros x Hx. unfold r_bound. cbn [ns]. by rewrite lookup_insert_ne.
Qed.

(** X17. With [num_samples] 0 a cohort cell stops at the statement that labels
    its frame, with ValueError: the frame, bound by then, has the four
    columns of the vectors and no row, and pandas takes no scalar for a new
    column of such a frame.  The generator is in the state the draw of no
    vector leaves, no firm size is drawn, and only [r] and the frame of the
    cell are rebound. *)
Theorem cohort_cell_no_samples (c : cohort_source) (k : kernel) :
  c ∈ cohorts → configured 0 k →
  ∃ k',
    cohort_cell c k =
      (Raise (ValueError "cannot set a frame with no defined index and a scalar"),
       k') ∧
    frame_of (src_frame c) k' =
      Some {| index := [];
              columns := [("job_sat", []); ("int_qui", []); ("age", []);
                          ("org_tnr", [])] |} ∧
    rng k' = (mvn_draw (np_repeat 0 4) (src_matrix c) 0 (rng k)).2 ∧
    (∀ x, x ∉ ["r"; src_frame c] → ns k' !! x = ns k !! x).
Proof.
  intros Hc Hcfg.
  pose proof (runnable_cohort c Hc) as Hrun.
  pose proof (finite_cohort c Hc) as Hfin.
  assert (vectors c 0 (rng k) = []) as Hvec
    by (apply nil_length_inv; by rewrite length_vectors).
  exists (before_label_assigned c 0 k). split_and!.
  - rewrite (cohort_cell_label_statement c 0 k Hrun Hfin Hcfg) by lia.
    unfold mbind at 1. unfold prog_bind, bind at 1.
    erewrite loc_assign_raise; [reflexivity | apply lookup_insert_eq |].
    rewrite Hvec. reflexivity.
  - apply frame_of_lookup. unfold before_label_assigned. cbn [ns].
    rewrite lookup_insert_eq, Hvec. reflexivity.
  - reflexivity.
  - intros x Hx. rewrite !not_elem_of_cons in Hx. destruct Hx as (? & ? & _).
    unfold before_label_assigned. cbn [ns]. by rewrite !lookup_insert_ne.
Qed.

(** X18. The last cell raises NameError on the first of its five names that is
    unbound, whatever the names before it are bound to, and binds nothing. *)
Theorem data_preparation_missing_frame (k : kernel) (pre post : list string)
    (x : string) :
  ["df_1_5"; "df_6_25"; "df_26_100"; "df_101_500"; "df_501_"] = pre ++ x :: post →
  (∀ y, y ∈ pre → is_Some (ns k !! y)) →
  ns k !! x = None →
  cell_data_preparation k = (Raise (NameError x), k).
Proof.
  intros Hsplit Hpre Hx.
  assert (∀ y, y ∈ pre → ∃ v, load y k = (Ok v, k)) as Hload.
  { intros y Hy. destruct (Hpre y Hy) as [v Hv]. exists v. by apply load_run. }
  assert (∀ B (g : pyval → prog B),
            (load x ≫= g) k = (Raise (NameError x), k)) as Hraise.
  { intros B g. unfold mbind, prog_bind, bind, load. by rewrite Hx. }
  unfold cell_data_preparation.
  destruct pre as [|y1 pre]; [injection Hsplit as <- _; apply Hraise|].
  injection Hsplit as <- Hsplit.
  destruct (Hload "df_1_5") as [v1 H1]; [apply list_elem_of_here|].
  rewrite (bind_run _ _ _ _ _ H1).
  destruct pre as [|y2 pre]; [injection Hsplit as <- _; apply Hraise|].
  injection Hsplit as <- Hsplit.
  destruct (Hload "df_6_25") as [v2 H2];
    [apply list_elem_of_further, list_elem_of_here|].
  rewrite (bind_run _ _ _ _ _ H2).
  destruct pre as [|y3 pre]; [injection Hsplit as <- _; apply Hraise|].
  injection Hsplit as <- Hsplit.
  destruct (Hload "df_26_100") as [v3 H3];
    [do 2 apply list_elem_of_further; apply list_elem_of_here|].
  rewrite (bind_run _ _ _ _ _ H3).
  destruct pre as [|y4 pre]; [injection Hsplit as <- _; apply Hraise|].
  injection Hsplit as <- Hsplit.
  destruct (Hload "df_101_500") as [v4 H4];
    [do 3 apply list_elem_of_further; apply list_elem_of_here|].
  rewrite (bind_run _ _ _ _ _ H4).
  destruct pre as [|y5 pre]; [injection Hsplit as <- _; apply Hraise|].
  injection Hsplit as _ Hsplit. by destruct pre.
Qed.

(** X19. A matrix with a nan or an infinity stops a cohort cell, run after
    the set-up cell, in [multivariate_normal], with LinAlgError: the values
    of the 1000 vectors have been drawn from the generator by then, no
    warning is recorded, and no name but [r] is rebound. *)
Theorem cohort_cell_matrix_not_finite (c : cohort_source) (r : matrix) (k : kernel) :
  c ∈ cohorts → square 4 r → all_finite r = false → configured 1000 k →
  ∃ k',
    cohort_cell (with_matrix r c) k =
      (Raise (LinAlgError "SVD did not converge"), k') ∧
    rng k' = (mvn_draw (np_repeat 0 4) r 1000 (rng k)).2 ∧
    warned k' = warned k ∧
    ns k' !! "r" = Some (PMatrix r) ∧
    (∀ x, x ≠ "r" → ns k' !! x = ns k !! x).
Proof.
  intros Hc Hsq Hfin (Hn & Hmu & Hnames).
  eexists. split_and!.
  - unfold cohort_cell, mbind, prog_bind, bind, store, load. cbn [ns src_matrix with_matrix].
    rewrite lookup_insert_ne by done. rewrite Hmu. cbn.
    rewrite lookup_insert_eq. cbn.
    rewrite lookup_insert_ne by done. rewrite Hn. cbn.
    rewrite multivariate_normal_not_finite by (done || lia). reflexivity.
  - reflexivity.
  - reflexivity.
  - cbn [ns]. apply lookup_insert_eq.
  - intros x Hx. cbn [ns]. by rewrite lookup_insert_ne.
Qed.

(** X20. When [df_501_] is bound to a value that is no frame, the run stops at
    the large-firms cell with AttributeError: the value has no [loc].  Both
    draws of the cell are consumed, [df_101_500] is bound without firm
    sizes, and nothing is assembled. *)
Theorem notebook_stops_on_other_value (k : kernel) (v : pyval) :
  ns k !! "df_501_" = Some v → (∀ f, v ≠ PFrame f) →
  ∃ k4,
    run_cells notebook k = (Raise (AttributeError "loc"), k4) ∧
    ns k4 !! "df_501_" = Some v ∧
    frame_of "df_101_500" k4 = Some (df_101_500 (rng k)) ∧
    column "firm_size" (df_101_500 (rng k)) = None ∧
    rng k4 = generator_after
               [micro_firms; small_firms; medium_firms; large_firms] (rng k) ∧
    ns k4 !! "df" = ns k !! "df".
Proof.
  intros Hv Hno.
  destruct (run_until_medium k) as (k3 & Hrun3 & C3 & _ & _ & _ & Hg & Hother).
  assert (runnable large_firms) as Hrun by (apply runnable_cohort; cohort_in).
  assert (all_finite (src_matrix large_firms) = true) as Hfin
    by (apply finite_cohort; cohort_in).
  assert (∀ x, x ∈ ["df_501_"; "df"] → ns k3 !! x = ns k !! x) as Hsame.
  { intros x Hx. apply Hother. rewrite !elem_of_cons, elem_of_nil in Hx.
    rewrite !not_elem_of_cons.
    destruct Hx as [->|[->|[]]]; repeat split; try done; apply not_elem_of_nil. }
  assert (ns k3 !! "df_501_" = Some v) as H501
    by (by rewrite Hsame by (rewrite !elem_of_cons; tauto)).
  exists (before_sizes_assigned large_firms 1000 k3). split_and!.
  - change notebook with
      (take 4 notebook ++
       [cohort_cell large_firms; cohort_cell very_large_firms;
        cell_data_preparation]).
    rewrite (run_cells_app _ _ _ _ Hrun3).
    apply run_cells_cons_raise.
    rewrite (cohort_cell_last_statement large_firms 1000 k3 Hrun Hfin C3) by lia.
    apply (loc_assign_not_frame _ _ _ _ v); [|done].
    by rewrite lookup_before_sizes_assigned_other.
  - by rewrite lookup_before_sizes_assigned_other.
  - apply frame_of_lookup. unfold before_sizes_assigned, df_101_500. cbn [ns].
    rewrite <- Hg. apply (lookup_insert_eq (M := gmap string)).
  - reflexivity.
  - cbn [rng before_sizes_assigned]. by rewrite Hg.
  - rewrite lookup_before_sizes_assigned_other by done.
    apply Hsame. rewrite !elem_of_cons. tauto.
Qed.

End cell_edges.

(** ** Facts: the extra statements on the stand-in generator *)

Section extra_witnesses.
Import Python Pandas Display Numeric Notebook Invariants Lcg Sessions.
Local Open Scope string_scope.
Local Open Scope list_scope.
Local Open Scope Z_scope.

Lemma wf_sized_sample : wf_frame sized_sample.
Proof. exact (proj1 (proj1 (Forall_cons _ _ _) wf_samples)). Qed.

Lemma pd_concat_single_witness :
  wf_frame sized_sample ∧ pd_concat [sized_sample] = Ok sized_sample.
Proof.
  split; [exact wf_sized_sample | apply pd_concat_single, wf_sized_sample].
Defined.

Lemma unsized_fields_known :
  ∀ f', f' ∈ [unsized_sample] → fields f' ⊆ fields sized_sample.
Proof.
  intros f' ->%list_elem_of_singleton x. cbn. rewrite !elem_of_cons. tauto.
Qed.

Lemma head_of_concat_witness :
  (wf_frame sized_sample ∧ (1 ≤ nrows sized_sample)%nat ∧
   ∀ f', f' ∈ [unsized_sample] → fields f' ⊆ fields sized_sample) ∧
  ∃ d, pd_concat (sized_sample :: [unsized_sample]) = Ok d ∧
       DataFrame_head 1 d = DataFrame_head 1 sized_sample.
Proof.
  assert (1 ≤ nrows sized_sample)%nat as Hn by (cbn; lia).
  split; [split_and!; [exact wf_sized_sample | exact Hn | exact unsized_fields_known]|].
  apply (head_of_concat 1 sized_sample [unsized_sample] wf_sized_sample Hn
           unsized_fields_known).
Defined.

Lemma df_info_of_run_witness :
  (frame_of "df_501_" earlier_session = Some earlier_df_501_ ∧
   nrows earlier_df_501_ = 1000%nat) ∧
  ∃ k' d,
    run_cells notebook earlier_session = (Ok tt, k') ∧
    frame_of "df" k' = Some d ∧
    info_entries (DataFrame_info d) = 5000%nat ∧
    info_first (DataFrame_info d) = Some 0 ∧
    info_last (DataFrame_info d) = Some 999 ∧
    map fst (info_columns (DataFrame_info d)) =
      ["job_sat"; "int_qui"; "age"; "org_tnr"; "cohort"; "firm_size"] ∧
    ("cohort", 5000%nat) ∈ info_columns (DataFrame_info d) ∧
    ("firm_size", 4000%nat) ∈ info_columns (DataFrame_info d) ∧
    (∀ q i : nat, (q < 5)%nat → (i < 1000)%nat →
       index d !! (1000 * q + i)%nat = Some (Z.of_nat i)).
Proof.
  split; [split; [exact earlier_session_df_501_ | exact earlier_df_501_rows]|].
  apply (df_info_of_run (N := lcg) earlier_session earlier_df_501_
           earlier_session_df_501_ earlier_df_501_rows).
Defined.

Lemma df_head_of_run_witness :
  (frame_of "df_501_" earlier_session = Some earlier_df_501_ ∧
   nrows earlier_df_501_ = 1000%nat) ∧
  ∃ k' d,
    run_cells notebook earlier_session = (Ok tt, k') ∧
    frame_of "df" k' = Some d ∧
    DataFrame_head 5 d = DataFrame_head 5 (df_1_5 (rng earlier_session)) ∧
    index (DataFrame_head 5 d) = [0; 1; 2; 3; 4] ∧
    (∀ i : nat, (i < 5)%nat →
       cell_at "cohort" i (DataFrame_head 5 d) = Some (Str "micro") ∧
       ∃ z, cell_at "firm_size" i (DataFrame_head 5 d) = Some (Int z) ∧
            1 ≤ z < 5).
Proof.
  split; [split; [exact earlier_session_df_501_ | exact earlier_df_501_rows]|].
  apply (df_head_of_run (N := lcg) earlier_session earlier_df_501_
           earlier_session_df_501_ earlier_df_501_rows).
Defined.

Lemma df_firm_size_ranges_witness :
  (frame_of "df_501_" earlier_session = Some earlier_df_501_ ∧
   nrows earlier_df_501_ = 1000%nat) ∧
  ∃ k' d,
    run_cells notebook earlier_session = (Ok tt, k') ∧
    frame_of "df" k' = Some d ∧
    ∀ (i : nat) z, cell_at "firm_size" i d = Some (Int z) →
      (1 ≤ z < 5 ∨ 6 ≤ z < 25 ∨ 26 ≤ z < 100 ∨ 501 ≤ z < 2000) ∧
      z ≠ 5 ∧ z ≠ 25 ∧ ¬ (100 ≤ z ≤ 500).
Proof.
  split; [split; [exact earlier_session_df_501_ | exact earlier_df_501_rows]|].
  apply (df_firm_size_ranges (N := lcg) earlier_session earlier_df_501_
           earlier_session_df_501_ earlier_df_501_rows).
Defined.





Lemma empty_session_df_501_ : frame_of "df_501_" empty_session = Some empty_frame.
Proof. reflexivity. Qed.

Lemma empty_session_no_sizes :
  ∀ f0, frame_of "df_501_" empty_session = Some f0 → nrows f0 = 0%nat →
        "firm_size" ∉ fields f0.
Proof.
  intros f0 Hf0 _. rewrite empty_session_df_501_ in Hf0. injection Hf0 as <-.
  apply not_elem_of_nil.
Qed.

Lemma notebook_succeeds_iff_witness :
  (frame_of "df_501_" empty_session = Some empty_frame ∧
   nrows empty_frame = 0%nat ∧
   ∀ f0, frame_of "df_501_" empty_session = Some f0 → nrows f0 = 0%nat →
         "firm_size" ∉ fields f0) ∧
  ((run_cells notebook empty_session).1 = Ok tt ↔
   ∃ f0, frame_of "df_501_" empty_session = Some f0 ∧
         (nrows f0 = 1000%nat ∨ nrows f0 = 0%nat)).
Proof.
  split; [split_and!; [exact empty_session_df_501_ | reflexivity
                      | exact empty_session_no_sizes]|].
  apply (notebook_succeeds_iff (N := lcg) empty_session empty_session_no_sizes).
Defined.

Lemma continue_after_NameError_witness :
  ns fresh_session !! "df_501_" = None ∧
  ∃ k4 k',
    run_cells notebook fresh_session =
      (Raise (NameError "df_501_"), k4) ∧
    run_cells (drop 5 notebook) k4 = (Ok tt, k') ∧
    frame_of "df" k' = Some (df (rng fresh_session)) ∧
    nrows (df (rng fresh_session)) = 5000%nat ∧
    non_null_count "firm_size" (df (rng fresh_session)) = 4000%nat.
Proof.
  split; [reflexivity|].
  apply (continue_after_NameError (N := lcg) fresh_session). reflexivity.
Defined.

Lemma notebook_run_twice_witness :
  (frame_of "df_501_" earlier_session = Some earlier_df_501_ ∧
   nrows earlier_df_501_ = 1000%nat) ∧
  ∃ k1 k2,
    run_cells notebook earlier_session = (Ok tt, k1) ∧
    run_cells notebook k1 = (Ok tt, k2) ∧
    frame_of "df" k1 = Some (df (rng earlier_session)) ∧
    rng k1 = generator_after cohorts (rng earlier_session) ∧
    frame_of "df" k2 = Some (df (generator_after cohorts (rng earlier_session))) ∧
    rng k2 = generator_after (cohorts ++ cohorts) (rng earlier_session).
Proof.
  split; [split; [exact earlier_session_df_501_ | exact earlier_df_501_rows]|].
  apply (notebook_run_twice (N := lcg) earlier_session earlier_df_501_
           earlier_session_df_501_ earlier_df_501_rows).
Defined.

Lemma fresh_frames_rectangular : frames_rectangular fresh_session.
Proof. intros x f Hx. cbn in Hx. by rewrite lookup_empty in Hx. Qed.

Lemma cells_keep_frames_rectangular_witness :
  frames_rectangular fresh_session ∧
  ((∀ cell, cell ∈ notebook →
            frames_rectangular (cell fresh_session).2) ∧
   frames_rectangular (run_cells notebook fresh_session).2).
Proof.
  split; [exact fresh_frames_rectangular|].
  apply (cells_keep_frames_rectangular (N := lcg) _ fresh_frames_rectangular).
Defined.

Lemma cohort_cell_before_set_up_witness :
  ns fresh_session !! "mu" = None ∧
  (cohort_cell micro_firms fresh_session =
     (Raise (NameError "mu"), r_bound micro_firms fresh_session) ∧
   rng (r_bound micro_firms fresh_session) = rng fresh_session ∧
   (∀ x, x ≠ "r" →
      ns (r_bound micro_firms fresh_session) !! x =
      ns fresh_session !! x)).
Proof.
  split; [reflexivity|].
  apply (cohort_cell_before_set_up (N := lcg) micro_firms fresh_session).
  reflexivity.
Defined.

Lemma configured_resized n : configured n (resized n).
Proof.
  destruct configured_set_up as (_ & Hmu & Hnames).
  unfold configured, resized. cbn [ns]. split_and!.
  - apply lookup_insert_eq.
  - by rewrite lookup_insert_ne.
  - by rewrite lookup_insert_ne.
Qed.

Lemma runnable_micro_firms : runnable micro_firms.
Proof. apply runnable_cohort. cohort_in. Qed.

Lemma cohort_cell_negative_samples_witness :
  (runnable micro_firms ∧ configured (-1) (resized (-1)) ∧ -1 < 0) ∧
  (cohort_cell micro_firms (resized (-1)) =
     (Raise (ValueError "negative dimensions are not allowed"),
      r_bound micro_firms (resized (-1))) ∧
   rng (r_bound micro_firms (resized (-1))) = rng (resized (-1)) ∧
   (∀ x, x ≠ "r" →
      ns (r_bound micro_firms (resized (-1))) !! x = ns (resized (-1)) !! x)).
Proof.
  split; [split_and!; [exact runnable_micro_firms | apply configured_resized | lia]|].
  apply (cohort_cell_negative_samples (N := lcg) micro_firms (-1) (resized (-1))
           runnable_micro_firms (configured_resized (-1))). lia.
Defined.

Lemma micro_firms_in_cohorts : micro_firms ∈ cohorts.
Proof. cohort_in. Qed.

Lemma cohort_cell_no_samples_witness :
  (micro_firms ∈ cohorts ∧ configured 0 (resized 0)) ∧
  ∃ k',
    cohort_cell micro_firms (resized 0) =
      (Raise (ValueError "cannot set a frame with no defined index and a scalar"),
       k') ∧
    frame_of (src_frame micro_firms) k' =
      Some {| index := [];
              columns := [("job_sat", []); ("int_qui", []); ("age", []);
                          ("org_tnr", [])] |} ∧
    rng k' = (mvn_draw (np_repeat 0 4) (src_matrix micro_firms) 0
                (rng (resized 0))).2 ∧
    (∀ x, x ∉ ["r"; src_frame micro_firms] →
          ns k' !! x = ns (resized 0) !! x).
Proof.
  split; [split; [exact micro_firms_in_cohorts | apply configured_resized]|].
  apply (cohort_cell_no_samples (N := lcg) micro_firms (resized 0)
           micro_firms_in_cohorts (configured_resized 0)).
Defined.

Lemma odd_session_bound : ∀ y, y ∈ ["df_1_5"] → is_Some (ns odd_session !! y).
Proof. intros y ->%list_elem_of_singleton. by eexists. Qed.

Lemma data_preparation_missing_frame_witness :
  (["df_1_5"; "df_6_25"; "df_26_100"; "df_101_500"; "df_501_"] =
     ["df_1_5"] ++ "df_6_25" :: ["df_26_100"; "df_101_500"; "df_501_"] ∧
   ns odd_session !! "df_1_5" = Some (PInt 3) ∧
   (∀ y, y ∈ ["df_1_5"] → is_Some (ns odd_session !! y)) ∧
   ns odd_session !! "df_6_25" = None) ∧
  cell_data_preparation odd_session =
    (Raise (NameError "df_6_25"), odd_session).
Proof.
  split; [split_and!; [reflexivity | reflexivity | exact odd_session_bound
                      | reflexivity]|].
  apply (data_preparation_missing_frame (N := lcg) odd_session ["df_1_5"]
           ["df_26_100"; "df_101_500"; "df_501_"] "df_6_25"
           eq_refl odd_session_bound eq_refl).
Defined.

Lemma with_nan_square : square 4 with_nan.
Proof. split; [reflexivity | repeat constructor]. Qed.

Lemma with_nan_not_finite : all_finite with_nan = false.
Proof. vm_compute. reflexivity. Qed.

Lemma cohort_cell_matrix_not_finite_witness :
  (micro_firms ∈ cohorts ∧ square 4 with_nan ∧ all_finite with_nan = false ∧
   configured 1000 set_up) ∧
  ∃ k',
    cohort_cell (with_matrix with_nan micro_firms) set_up =
      (Raise (LinAlgError "SVD did not converge"), k') ∧
    rng k' = (mvn_draw (np_repeat 0 4) with_nan 1000 (rng set_up)).2 ∧
    warned k' = warned set_up ∧
    ns k' !! "r" = Some (PMatrix with_nan) ∧
    (∀ x, x ≠ "r" → ns k' !! x = ns set_up !! x).
Proof.
  split; [split_and!; [exact micro_firms_in_cohorts | exact with_nan_square
                      | exact with_nan_not_finite | exact configured_set_up]|].
  apply (cohort_cell_matrix_not_finite (N := lcg) micro_firms with_nan set_up
           micro_firms_in_cohorts with_nan_square with_nan_not_finite
           configured_set_up).
Defined.

Lemma odd_session_df_501_ : ns odd_session !! "df_501_" = Some (PInt 3).
Proof. reflexivity. Qed.

Lemma number_is_no_frame : ∀ f, PInt 3 ≠ PFrame f.
Proof. discriminate. Qed.

Lemma notebook_stops_on_other_value_witness :
  (ns odd_session !! "df_501_" = Some (PInt 3) ∧ ∀ f, PInt 3 ≠ PFrame f) ∧
  ∃ k4,
    run_cells notebook odd_session = (Raise (AttributeError "loc"), k4) ∧
    ns k4 !! "df_501_" = Some (PInt 3) ∧
    frame_of "df_101_500" k4 = Some (df_101_500 (rng odd_session)) ∧
    column "firm_size" (df_101_500 (rng odd_session)) = None ∧
    rng k4 = generator_after
               [micro_firms; small_firms; medium_firms; large_firms]
               (rng odd_session) ∧
    ns k4 !! "df" = ns odd_session !! "df".
Proof.
  split; [split; [exact odd_session_df_501_ | exact number_is_no_frame]|].
  apply (notebook_stops_on_other_value (N := lcg) odd_session (PInt 3)
           odd_session_df_501_ number_is_no_frame).
Defined.

End extra_witnesses.
